(** * LEARNIT: access control and sub-resource lifecycle of the REST routes

    A shallow embedding of the Express route handlers of the notes router
    ([server/routes/notes.js], lines 1-283), of the assignments router
    ([unnamed/part_000]) and of the courses router (the second router of
    [server/routes/settings.js], from line 50 on), and of the file-type
    field of the client's settings form (the [AdminSettings] component
    that follows the notes router in [server/routes/notes.js]).

    Conventions of the embedding.
    - A Mongoose collection is a finite map from document identity to
      document ([gmap ObjectId _]); [Model.findById] is the lookup,
      [doc.save()] re-inserts the document under its identity.  The
      persistence layer is the atomic single-document store of the design:
      reads and writes of well-formed documents do not fail, so the
      [catch] branch (status 500) of a handler is not reachable here.
    - A handler is a function from the authenticated caller, the request
      and the collection to the response and the collection afterwards.
    - [populate] only decorates references with the referenced document;
      references are taken to resolve, so a populated reference still
      compares by the stored identity.
    - Numbers that only count ([viewCount], [students.length]) are
      integers.  The view counter is held in a JavaScript number, a
      double: it is the integer that double holds, and adding 1 to it
      rounds as the double addition does ([Js.plusOne]). *)

From stdpp Require Import gmap strings list sorting.
From Stdlib Require Import ZArith Ascii.

(** ** HTTP responses *)

Module Http.

Inductive Body (A : Type) : Type :=
| Message (message : string)
| Json (document : A).
Arguments Message {A} message.
Arguments Json {A} document.

Record Response (A : Type) : Type := mkResponse {
  status : N;
  body : Body A
}.
Arguments mkResponse {A} status body.
Arguments status {A} r.
Arguments body {A} r.

(** [res.status(c).json({ message: m })] *)
Definition fail {A : Type} (c : N) (m : string) : Response A :=
  mkResponse c (Message m).

(** [res.json(doc)] and [res.status(201).json(doc)] *)
Definition ok {A : Type} (doc : A) : Response A := mkResponse 200 (Json doc).
Definition created {A : Type} (doc : A) : Response A := mkResponse 201 (Json doc).

(** The status categories of the error taxonomy. *)
Definition Validation : N := 400.
Definition Forbidden : N := 403.
Definition NotFound : N := 404.

End Http.
Export Http.

(** ** Identity: the authenticated caller placed in [req.user] *)

Module Identity.

(** A MongoDB ObjectId.  [a.equals(b)] and
    [a.toString() === b.toString()] are both equality of identities. *)
Definition ObjectId : Type := N.

Record User : Type := mkUser {
  _id : ObjectId;
  role : string
}.

(** [req.user.role === 'admin'] *)
Definition isAdmin (u : User) : bool := bool_decide (role u = "admin").

(** [a.equals(b)] *)
Definition equals (a b : ObjectId) : bool := bool_decide (a = b).

End Identity.
Export Identity.

(** ** JavaScript helpers used by the routes *)

Module Js.

(** Truthiness of an optional string: [undefined] and [''] are falsy. *)
Definition truthy (s : option string) : bool :=
  match s with
  | None => false
  | Some s => negb (bool_decide (s = ""))
  end.

(** [x || d] on an optional string. *)
Definition orElse (s : option string) (d : string) : string :=
  match s with
  | None => d
  | Some s => if bool_decide (s = "") then d else s
  end.

Definition isUpper (c : ascii) : bool :=
  (65 <=? nat_of_ascii c)%nat && (nat_of_ascii c <=? 90)%nat.

Definition lowerChar (c : ascii) : ascii :=
  if isUpper c then ascii_of_nat (nat_of_ascii c + 32) else c.

(** [String.prototype.toLowerCase] on byte strings: the letters A-Z are
    mapped to a-z, every other byte is kept. *)
Fixpoint toLowerCase (s : string) : string :=
  match s with
  | EmptyString => EmptyString
  | String c s' => String (lowerChar c) (toLowerCase s')
  end.

(** [Array.prototype.join(sep)] on an array of strings. *)
Fixpoint join (sep : string) (l : list string) : string :=
  match l with
  | [] => ""
  | [x] => x
  | x :: rest => x +:+ sep +:+ join sep rest
  end.

(** [Array.prototype.includes] on an array of strings or identities. *)
Definition includes {A : Type} `{EqDecision A} (l : list A) (x : A) : bool :=
  existsb (fun y => bool_decide (y = x)) l.

(** [Array.prototype.some] and [Array.prototype.find]. *)
Definition some {A : Type} (p : A -> bool) (l : list A) : bool := existsb p l.
Definition find {A : Type} (p : A -> bool) (l : list A) : option A := List.find p l.

(** [s.split(',')] *)
Fixpoint splitComma (s : string) : list string :=
  match s with
  | EmptyString => [""]
  | String c s' =>
      if bool_decide (c = ","%char) then "" :: splitComma s'
      else match splitComma s' with
           | [] => [String c ""]
           | w :: ws => String c w :: ws
           end
  end.

(** [s] starts with [p], and [p] occurs in [s]. *)
Fixpoint startsWith (p s : string) : bool :=
  match p, s with
  | EmptyString, _ => true
  | String _ _, EmptyString => false
  | String a p', String b s' => bool_decide (a = b) && startsWith p' s'
  end.

Fixpoint contains (p s : string) : bool :=
  startsWith p s
  || match s with
     | EmptyString => false
     | String _ s' => contains p s'
     end.

(** The test [{ $regex: p, $options: 'i' }] for a pattern [p] made of
    plain characters only: [p] occurs in the subject, letter case
    ignored. *)
Definition containsCI (p s : string) : bool :=
  contains (toLowerCase p) (toLowerCase s).

(** JavaScript numbers are IEEE 754 doubles.  Every integer of magnitude
    up to 2^53 is a double; beyond, a double holds 53 significant bits, so
    an integer is rounded to the nearest multiple of the unit in the last
    place, a tie going to the even significand. *)
Definition roundToDouble (x : Z) : Z :=
  if (Z.abs x <=? 2 ^ 53)%Z then x
  else
    let ulp := (2 ^ (Z.log2 (Z.abs x) - 52))%Z in
    let q := (Z.abs x / ulp)%Z in
    let r := (Z.abs x mod ulp)%Z in
    let q' := if (2 * r <? ulp)%Z then q
              else if (ulp <? 2 * r)%Z then (q + 1)%Z
              else if Z.even q then q else (q + 1)%Z in
    (Z.sgn x * (q' * ulp))%Z.

(** [v + 1] (and [v += 1]) on a number that holds the integer [v]: the
    exact sum, rounded to a double. *)
Definition plusOne (v : Z) : Z := roundToDouble (v + 1).

(** What a handler draws from its environment: [new Date()] /
    [Date.now()], and the identity Mongoose gives a sub-document pushed
    onto a document array. *)
Record Env : Type := mkEnv {
  now : N;
  freshId : ObjectId
}.

End Js.

(** ** Notes: the router of [server/routes/notes.js] *)

Module Access.
Record t : Type := mk {
  user : ObjectId;
  accessType : string
}.
End Access.

Module Comment.
Record t : Type := mk {
  _id : ObjectId;
  user : ObjectId;
  content : string;
  createdAt : N;
  updatedAt : N
}.
End Comment.

Module Note.

Record t : Type := mk {
  title : string;
  content : string;
  course : option ObjectId;
  author : ObjectId;
  tags : list string;
  isPublic : bool;
  accessList : list Access.t;
  viewCount : Z;
  comments : list Comment.t;
  createdAt : N
}.

Definition set_viewCount (v : Z) (n : t) : t :=
  mk (title n) (content n) (course n) (author n) (tags n) (isPublic n)
     (accessList n) v (comments n) (createdAt n).

Definition set_comments (cs : list Comment.t) (n : t) : t :=
  mk (title n) (content n) (course n) (author n) (tags n) (isPublic n)
     (accessList n) (viewCount n) cs (createdAt n).

(** The fields a request body may carry for [findByIdAndUpdate]; an
    absent field is left as it is. *)
Record Patch : Type := mkPatch {
  p_title : option string;
  p_content : option string;
  p_course : option (option ObjectId);
  p_author : option ObjectId;
  p_tags : option (list string);
  p_isPublic : option bool;
  p_accessList : option (list Access.t);
  p_viewCount : option Z
}.

Definition applyPatch (p : Patch) (n : t) : t :=
  mk (default (title n) (p_title p))
     (default (content n) (p_content p))
     (default (course n) (p_course p))
     (default (author n) (p_author p))
     (default (tags n) (p_tags p))
     (default (isPublic n) (p_isPublic p))
     (default (accessList n) (p_accessList p))
     (default (viewCount n) (p_viewCount p))
     (comments n) (createdAt n).

End Note.

Module NotesRouter.

Abbreviation Notes := (gmap ObjectId Note.t).

(** *** [GET /], lines 9-52: the filter built by the handler *)

Inductive Condition : Type :=
| TitleRegex (search : string)       (* { title: { $regex: search, $options: 'i' } } *)
| ContentRegex (search : string)     (* { content: { $regex: search, $options: 'i' } } *)
| IsPublic (b : bool)                (* { isPublic: true } *)
| AccessListUser (u : ObjectId)      (* { 'accessList.user': req.user._id } *)
| Author (u : ObjectId).             (* { author: req.user._id } *)

(** The [query] object: each key is either absent or holds the value last
    assigned to it. *)
Record Query : Type := mkQuery {
  q_course : option ObjectId;
  q_or : option (list Condition);
  q_tags : option (list string)
}.

Definition emptyQuery : Query := mkQuery None None None.
Definition set_course (c : ObjectId) (q : Query) : Query :=
  mkQuery (Some c) (q_or q) (q_tags q).
Definition set_or (cs : list Condition) (q : Query) : Query :=
  mkQuery (q_course q) (Some cs) (q_tags q).
Definition set_tags (ts : list string) (q : Query) : Query :=
  mkQuery (q_course q) (q_or q) (Some ts).

(** The query string of [GET /]. *)
Record ListParams : Type := mkListParams {
  course : option ObjectId;
  search : option string;
  tags : option string
}.

Definition buildQuery (user : User) (params : ListParams) : Query :=
  let query := emptyQuery in
  let query := match course params with
               | Some c => set_course c query
               | None => query
               end in
  let query := if Js.truthy (search params)
               then set_or [TitleRegex (Js.orElse (search params) "");
                            ContentRegex (Js.orElse (search params) "")] query
               else query in
  let query := if Js.truthy (tags params)
               then set_tags (Js.splitComma (Js.orElse (tags params) "")) query
               else query in
  let query := if negb (isAdmin user)
               then set_or [IsPublic true; AccessListUser (_id user); Author (_id user)] query
               else query in
  query.

Section Find.

(** The store's regular-expression test: [regexTest pattern subject] for
    [{ $regex: pattern, $options: 'i' }]. *)
Variable regexTest : string -> string -> bool.

Definition matchCondition (n : Note.t) (c : Condition) : bool :=
  match c with
  | TitleRegex s => regexTest s (Note.title n)
  | ContentRegex s => regexTest s (Note.content n)
  | IsPublic b => bool_decide (Note.isPublic n = b)
  | AccessListUser u => Js.some (fun access => equals (Access.user access) u) (Note.accessList n)
  | Author u => equals (Note.author n) u
  end.

(** A document matches when every present key matches; [$or] needs one
    of its conditions, [tags: { $in }] one tag of the note in the set. *)
Definition matchQuery (q : Query) (n : Note.t) : bool :=
  match q_course q with
  | Some c => bool_decide (Note.course n = Some c)
  | None => true
  end
  && match q_or q with
     | Some cs => existsb (matchCondition n) cs
     | None => true
     end
  && match q_tags q with
     | Some ts => existsb (fun t => Js.includes ts t) (Note.tags n)
     | None => true
     end.

(** [.sort({ createdAt: -1 })] *)
Definition newerFirst (x y : ObjectId * Note.t) : Prop :=
  (Note.createdAt y.2 <= Note.createdAt x.2)%N.

#[local] Instance newerFirst_dec : RelDecision newerFirst.
Proof. intros x y. unfold newerFirst. apply _. Defined.

(** [Note.find(query)...sort(...)] *)
Definition findNotes (q : Query) (db : Notes) : list (ObjectId * Note.t) :=
  merge_sort newerFirst (filter (fun d => matchQuery q d.2 = true) (map_to_list db)).

(** [router.get('/', auth, ...)] *)
Definition listNotes (user : User) (params : ListParams) (db : Notes)
  : Response (list (ObjectId * Note.t)) :=
  ok (findNotes (buildQuery user params) db).

End Find.

(** *** [GET /:id], lines 55-83 *)
Definition getNote (user : User) (id : ObjectId) (db : Notes)
  : Response Note.t * Notes :=
  match db !! id with
  | None => (fail 404 "Note not found", db)
  | Some note =>
      if negb (isAdmin user)
         && negb (Note.isPublic note)
         && negb (Js.some (fun access => equals (Access.user access) (_id user))
                          (Note.accessList note))
         && negb (equals (Note.author note) (_id user))
      then (fail 403 "Access denied", db)
      else
        let note := Note.set_viewCount (Js.plusOne (Note.viewCount note)) note in
        (ok note, <[id := note]> db)
  end.

(** *** [PUT /:id], lines 121-164 *)

(** The [hasAccess] flag computed by the handler. *)
Definition hasAccess (user : User) (note : Note.t) : bool :=
  if isAdmin user then true
  else if equals (Note.author note) (_id user) then true
  else if bool_decide (0 < length (Note.accessList note))
  then
    let userAccess :=
      Js.find (fun access => equals (Access.user access) (_id user)
                             && bool_decide (Access.accessType access = "edit"))
              (Note.accessList note) in
    bool_decide (is_Some userAccess)
  else false.

Definition updateNote (user : User) (id : ObjectId) (body : Note.Patch) (db : Notes)
  : Response Note.t * Notes :=
  match db !! id with
  | None => (fail 404 "Note not found", db)
  | Some note =>
      if negb (hasAccess user note)
      then (fail 403 "Access denied", db)
      else
        let updatedNote := Note.applyPatch body note in
        (ok updatedNote, <[id := updatedNote]> db)
  end.

(** *** [POST /:id/comments], lines 188-219 *)
Definition addComment (env : Js.Env) (user : User) (id : ObjectId)
  (content : string) (db : Notes) : Response Comment.t * Notes :=
  match db !! id with
  | None => (fail 404 "Note not found", db)
  | Some note =>
      if negb (isAdmin user)
         && negb (Note.isPublic note)
         && negb (Js.some (fun access => equals (Access.user access) (_id user))
                          (Note.accessList note))
         && negb (equals (Note.author note) (_id user))
      then (fail 403 "Access denied", db)
      else
        let comment := Comment.mk (Js.freshId env) (_id user) content
                                  (Js.now env) (Js.now env) in
        let note := Note.set_comments (Note.comments note ++ [comment]) note in
        (ok comment, <[id := note]> db)
  end.

End NotesRouter.

(** ** Assignments: the router of [unnamed/part_000] *)

Module Submission.

(** The object literal built by the submit handler. *)
Record Fields : Type := mkFields {
  f_student : ObjectId;
  f_submittedAt : N;
  f_fileUrl : option string;
  f_fileName : option string;
  f_fileType : string;
  f_comments : string
}.

(** A stored submission: the sub-document of [assignment.submissions]. *)
Record t : Type := mk {
  _id : ObjectId;
  student : ObjectId;
  submittedAt : N;
  fileUrl : option string;
  fileName : option string;
  fileType : string;
  comments : string;
  grade : option Z;
  feedback : option string
}.

(** [submissions.push(fields)]: the sub-document gets its identity, grade
    and feedback are not set. *)
Definition ofFields (id : ObjectId) (f : Fields) : t :=
  mk id (f_student f) (f_submittedAt f) (f_fileUrl f) (f_fileName f)
     (f_fileType f) (f_comments f) None None.

(** [submission.grade = grade; submission.feedback = feedback] *)
Definition setGrade (g : option Z) (fb : option string) (s : t) : t :=
  mk (_id s) (student s) (submittedAt s) (fileUrl s) (fileName s)
     (fileType s) (comments s) g fb.

End Submission.

Module Assignment.

Record t : Type := mk {
  title : string;
  description : string;
  fileType : string;
  dueDate : N;
  maxFileSize : Z;
  allowedExtensions : list string;
  isActive : bool;
  createdBy : ObjectId;
  submissions : list Submission.t
}.

Definition set_submissions (subs : list Submission.t) (a : t) : t :=
  mk (title a) (description a) (fileType a) (dueDate a) (maxFileSize a)
     (allowedExtensions a) (isActive a) (createdBy a) subs.

End Assignment.

Module AssignmentsRouter.

Abbreviation Assignments := (gmap ObjectId Assignment.t).

(** [req.file] as left by [upload.single('file')]. *)
Record File : Type := mkFile {
  originalname : string;
  filename : string
}.

(** [req.body] of a submit request. *)
Record SubmitBody : Type := mkSubmitBody {
  url : option string;
  comments : option string
}.

(** [req.body] of a grade request. *)
Record GradeBody : Type := mkGradeBody {
  grade : option Z;
  feedback : option string
}.

(** Modelled from the spec: the [adminAuth] middleware of
    [server/middleware/auth.js], which is not among the sources.  It
    admits administrative authority only: any other caller is answered
    Forbidden and the handler does not run.  The text of its message is
    not known and is left as [denied]. *)
Definition adminAuth {A S : Type} (denied : string) (user : User)
  (handler : S -> Response A * S) (db : S) : Response A * S :=
  if isAdmin user then handler db else (fail 403 denied, db).

Section Submit.

(** Node's [path.extname]. *)
Variable extname : string -> string.

(** Lines 171-185 of the submit handler: the message of the validation
    failure, if there is one. *)
Definition fileTypeError (assignment : Assignment.t) (file : option File)
  : option string :=
  if negb (bool_decide (Assignment.fileType assignment = "any"))
     && negb (bool_decide (Assignment.fileType assignment = "url"))
  then
    match file with
    | None => Some "File is required for this assignment"
    | Some f =>
        let fileExtension := Js.toLowerCase (extname (originalname f)) in
        if bool_decide (0 < length (Assignment.allowedExtensions assignment))
           && negb (Js.includes (Assignment.allowedExtensions assignment) fileExtension)
        then Some ("File type not allowed. Allowed types: "
                   +:+ Js.join ", " (Assignment.allowedExtensions assignment))
        else None
    end
  else None.

Definition newSubmission (env : Js.Env) (user : User) (file : option File)
  (body : SubmitBody) : Submission.Fields :=
  Submission.mkFields
    (_id user)
    (Js.now env)
    (match file with
     | Some f => Some ("/uploads/assignments/" +:+ filename f)
     | None => url body
     end)
    (match file with
     | Some f => Some (originalname f)
     | None => url body
     end)
    (match file with
     | Some f => extname (originalname f)
     | None => "url"
     end)
    (Js.orElse (comments body) "").

(** [router.post('/:id/submit', auth, upload.single('file'), ...)],
    lines 146-208 *)
Definition submit (env : Js.Env) (user : User) (id : ObjectId)
  (file : option File) (body : SubmitBody) (db : Assignments)
  : Response Submission.Fields * Assignments :=
  if isAdmin user
  then (fail 403 "Admins cannot submit assignments", db)
  else
    match db !! id with
    | None => (fail 404 "Assignment not found", db)
    | Some assignment =>
        if negb (Assignment.isActive assignment)
        then (fail 403 "Assignment is not active", db)
        else
          let existingSubmission :=
            Js.find (fun sub => equals (Submission.student sub) (_id user))
                    (Assignment.submissions assignment) in
          if bool_decide (is_Some existingSubmission)
          then (fail 400 "You have already submitted this assignment", db)
          else
            match fileTypeError assignment file with
            | Some message => (fail 400 message, db)
            | None =>
                if bool_decide (Assignment.fileType assignment = "url")
                   && negb (Js.truthy (url body))
                then (fail 400 "URL is required for this assignment", db)
                else
                  let submission := newSubmission env user file body in
                  let assignment :=
                    Assignment.set_submissions
                      (Assignment.submissions assignment
                       ++ [Submission.ofFields (Js.freshId env) submission])
                      assignment in
                  (created submission, <[id := assignment]> db)
            end
    end.

(** A submit request, and a run of submit requests in order. *)
Record SubmitRequest : Type := mkSubmitRequest {
  sr_env : Js.Env;
  sr_user : User;
  sr_id : ObjectId;
  sr_file : option File;
  sr_body : SubmitBody
}.

Definition submitRequest (r : SubmitRequest) (db : Assignments)
  : Response Submission.Fields * Assignments :=
  submit (sr_env r) (sr_user r) (sr_id r) (sr_file r) (sr_body r) db.

Definition runSubmits (rs : list SubmitRequest) (db : Assignments) : Assignments :=
  foldl (fun db r => (submitRequest r db).2) db rs.

End Submit.

(** [assignment.submissions.id(submissionId)]: the first sub-document with
    that identity, with its position in the array. *)
Definition submissionById (submissionId : ObjectId) (subs : list Submission.t)
  : option (nat * Submission.t) :=
  list_find (fun sub => Submission._id sub = submissionId) subs.

(** The handler of the grade route (lines 211-236), behind [adminAuth]. *)
Definition gradeHandler (id submissionId : ObjectId) (body : GradeBody)
  (db : Assignments) : Response Submission.t * Assignments :=
  match db !! id with
  | None => (fail 404 "Assignment not found", db)
  | Some assignment =>
      match submissionById submissionId (Assignment.submissions assignment) with
      | None => (fail 404 "Submission not found", db)
      | Some (i, submission) =>
          let submission := Submission.setGrade (grade body) (feedback body) submission in
          let assignment :=
            Assignment.set_submissions
              (<[i := submission]> (Assignment.submissions assignment)) assignment in
          (ok submission, <[id := assignment]> db)
      end
  end.

(** [router.put('/:id/submissions/:submissionId/grade', adminAuth, ...)] *)
Definition gradeSubmission (denied : string) (user : User)
  (id submissionId : ObjectId) (body : GradeBody) (db : Assignments)
  : Response Submission.t * Assignments :=
  adminAuth denied user (gradeHandler id submissionId body) db.

End AssignmentsRouter.

(** ** Courses: the second router of [server/routes/settings.js] *)

Module Course.

Record t : Type := mk {
  title : string;
  code : string;
  instructor : ObjectId;
  students : list ObjectId;
  maxStudents : Z;
  isActive : bool
}.

Definition set_students (l : list ObjectId) (c : t) : t :=
  mk (title c) (code c) (instructor c) l (maxStudents c) (isActive c).

End Course.

Module CoursesRouter.

Abbreviation Courses := (gmap ObjectId Course.t).

(** [router.post('/:id/enroll', auth, ...)], lines 163-190 *)
Definition enroll (user : User) (id : ObjectId) (db : Courses)
  : Response unit * Courses :=
  match db !! id with
  | None => (fail 404 "Course not found", db)
  | Some course =>
      if negb (Course.isActive course)
      then (fail 400 "Course is not active", db)
      else if Js.includes (Course.students course) (_id user)
      then (fail 400 "Already enrolled in this course", db)
      else if bool_decide (Course.maxStudents course
                           <= Z.of_nat (length (Course.students course)))%Z
      then (fail 400 "Course is full", db)
      else
        let course := Course.set_students (Course.students course ++ [_id user]) course in
        (mkResponse 200 (Message "Enrolled successfully"), <[id := course]> db)
  end.

(** A run of enroll requests, each by a caller on a course. *)
Definition runEnrolls (rs : list (User * ObjectId)) (db : Courses) : Courses :=
  foldl (fun db r => (enroll r.1 r.2 db).2) db rs.

End CoursesRouter.

(** ** Notes: creating, deleting, moderating comments *)

Module NotesLifecycle.

Import NotesRouter.

(** [req.body] of [POST /]. *)
Record CreateBody : Type := mkCreateBody {
  cb_title : string;
  cb_content : string;
  cb_course : option ObjectId;
  cb_tags : option (list string);
  cb_isPublic : option bool;
  cb_accessList : option (list Access.t)
}.

(** [new Note({ ... })], lines 98-106.  Modelled from the spec: the
    defaults of the Note schema, which is not among the sources: a new
    note has view count zero and no comments; its creation time is the
    time of the request. *)
Definition newNote (env : Js.Env) (user : User) (body : CreateBody) : Note.t :=
  Note.mk (cb_title body) (cb_content body) (cb_course body) (_id user)
          (default [] (cb_tags body))
          (match cb_isPublic body with
           | Some isPublic => isPublic
           | None => true
           end)
          (default [] (cb_accessList body))
          0 [] (Js.now env).

(** The handler of [POST /], lines 86-118, behind [adminAuth]; the new
    document is stored under the identity drawn from the environment. *)
Definition createNoteHandler (env : Js.Env) (user : User) (body : CreateBody)
  (courses : gmap ObjectId Course.t) (db : Notes)
  : Response (ObjectId * Note.t) * Notes :=
  if match cb_course body with
     | Some course => match courses !! course with
                      | Some _ => false
                      | None => true
                      end
     | None => false
     end
  then (fail 404 "Course not found", db)
  else
    let note := newNote env user body in
    (created (Js.freshId env, note), <[Js.freshId env := note]> db).

Definition createNote (denied : string) (env : Js.Env) (user : User)
  (body : CreateBody) (courses : gmap ObjectId Course.t) (db : Notes)
  : Response (ObjectId * Note.t) * Notes :=
  AssignmentsRouter.adminAuth denied user (createNoteHandler env user body courses) db.

(** [DELETE /:id], lines 167-185 *)
Definition deleteNote (user : User) (id : ObjectId) (db : Notes)
  : Response unit * Notes :=
  match db !! id with
  | None => (fail 404 "Note not found", db)
  | Some note =>
      if negb (isAdmin user) && negb (equals (Note.author note) (_id user))
      then (fail 403 "Access denied", db)
      else (mkResponse 200 (Message "Note deleted successfully"), delete id db)
  end.

(** [note.comments.id(commentId)]: the first comment with that identity,
    with its position. *)
Definition commentById (commentId : ObjectId) (cs : list Comment.t)
  : option (nat * Comment.t) :=
  list_find (fun c => Comment._id c = commentId) cs.

(** [PUT /:id/comments/:commentId], lines 222-253 *)
Definition updateComment (env : Js.Env) (user : User) (id commentId : ObjectId)
  (content : string) (db : Notes) : Response Comment.t * Notes :=
  match db !! id with
  | None => (fail 404 "Note not found", db)
  | Some note =>
      match commentById commentId (Note.comments note) with
      | None => (fail 404 "Comment not found", db)
      | Some (i, comment) =>
          if negb (isAdmin user) && negb (equals (Comment.user comment) (_id user))
          then (fail 403 "Access denied", db)
          else
            let comment := Comment.mk (Comment._id comment) (Comment.user comment)
                                      content (Comment.createdAt comment)
                                      (Js.now env) in
            let note := Note.set_comments (<[i := comment]> (Note.comments note)) note in
            (ok comment, <[id := note]> db)
      end
  end.

(** [DELETE /:id/comments/:commentId], lines 256-282.  [comment.remove()]
    pulls from the parent array the sub-documents that have the comment's
    identity. *)
Definition deleteComment (user : User) (id commentId : ObjectId) (db : Notes)
  : Response unit * Notes :=
  match db !! id with
  | None => (fail 404 "Note not found", db)
  | Some note =>
      match commentById commentId (Note.comments note) with
      | None => (fail 404 "Comment not found", db)
      | Some (i, comment) =>
          if negb (isAdmin user) && negb (equals (Comment.user comment) (_id user))
          then (fail 403 "Access denied", db)
          else
            let note :=
              Note.set_comments
                (filter (fun c => Comment._id c <> Comment._id comment)
                        (Note.comments note)) note in
            (mkResponse 200 (Message "Comment deleted successfully"),
             <[id := note]> db)
      end
  end.

End NotesLifecycle.

(** ** Assignments: listing, reading, deleting, own submissions *)

Module AssignmentsLifecycle.

Import AssignmentsRouter.

(** [GET /:id], lines 53-72 *)
Definition getAssignment (user : User) (id : ObjectId) (db : Assignments)
  : Response Assignment.t :=
  match db !! id with
  | None => fail 404 "Assignment not found"
  | Some assignment =>
      if negb (isAdmin user) && negb (Assignment.isActive assignment)
      then fail 403 "Assignment not available"
      else ok assignment
  end.

(** The handler of [DELETE /:id], lines 130-143, behind [adminAuth]. *)
Definition deleteAssignmentHandler (id : ObjectId) (db : Assignments)
  : Response unit * Assignments :=
  match db !! id with
  | None => (fail 404 "Assignment not found", db)
  | Some _ =>
      (mkResponse 200 (Message "Assignment deleted successfully"), delete id db)
  end.

Definition deleteAssignment (denied : string) (user : User) (id : ObjectId)
  (db : Assignments) : Response unit * Assignments :=
  adminAuth denied user (deleteAssignmentHandler id) db.

(** The [assignment] part of an entry of [GET /user/submissions]. *)
Record Summary : Type := mkSummary {
  s_id : ObjectId;
  s_title : string;
  s_dueDate : N;
  s_createdBy : ObjectId
}.

(** [GET /user/submissions], lines 239-264.  The store returns the
    matching documents in an order of its own; here it is the order of
    [map_to_list]. *)
Definition userSubmissions (user : User) (db : Assignments)
  : Response (list (Summary * option Submission.t)) :=
  let assignments :=
    filter (fun d : ObjectId * Assignment.t =>
              Js.some (fun sub => equals (Submission.student sub) (_id user))
                      (Assignment.submissions d.2) = true)
           (map_to_list db) in
  ok ((fun d : ObjectId * Assignment.t =>
         (mkSummary d.1 (Assignment.title d.2) (Assignment.dueDate d.2)
                    (Assignment.createdBy d.2),
          Js.find (fun sub => equals (Submission.student sub) (_id user))
                  (Assignment.submissions d.2)))
      <$> assignments).

Section Listing.

(** The creation time of the document stored under an identity (the
    schema's timestamp, kept outside the modelled fields). *)
Variable createdAt : ObjectId -> N.

Definition newerFirst (x y : ObjectId * Assignment.t) : Prop :=
  (createdAt y.1 <= createdAt x.1)%N.

#[local] Instance newerFirst_dec : RelDecision newerFirst.
Proof. intros x y. unfold newerFirst. apply _. Defined.

(** [GET /], lines 32-50: [query.isActive = true] unless the caller is an
    administrator. *)
Definition listAssignments (user : User) (db : Assignments)
  : Response (list (ObjectId * Assignment.t)) :=
  ok (merge_sort newerFirst
        (filter (fun d : ObjectId * Assignment.t =>
                   (if negb (isAdmin user) then Assignment.isActive d.2 else true)
                   = true)
                (map_to_list db))).

End Listing.

(** The requests that change the assignments collection, and a run of
    them in order. *)
Inductive Request : Type :=
| Submit (r : SubmitRequest)
| Grade (user : User) (id submissionId : ObjectId) (body : GradeBody)
| Delete (user : User) (id : ObjectId).

Definition step (extname : string -> string) (denied : string)
  (db : Assignments) (r : Request) : Assignments :=
  match r with
  | Submit r => (submitRequest extname r db).2
  | Grade user id submissionId body =>
      (gradeSubmission denied user id submissionId body db).2
  | Delete user id => (deleteAssignment denied user id db).2
  end.

Definition run (extname : string -> string) (denied : string)
  (rs : list Request) (db : Assignments) : Assignments :=
  foldl (step extname denied) db rs.

End AssignmentsLifecycle.

(** ** Courses: listing, reading, creating, updating, deleting *)

Module CoursesLifecycle.

Import CoursesRouter.

(** [GET /:id], lines 69-83 *)
Definition getCourse (id : ObjectId) (db : Courses) : Response Course.t :=
  match db !! id with
  | None => fail 404 "Course not found"
  | Some course => ok course
  end.

(** [req.body] of [POST /], for the fields of a course that the routes
    read. *)
Record CreateBody : Type := mkCreateBody {
  cb_title : string;
  cb_code : string;
  cb_instructor : option ObjectId;
  cb_maxStudents : option Z
}.

(** [maxStudents || 100]: an absent capacity and the capacity 0 are both
    falsy. *)
Definition capacityOrDefault (maxStudents : option Z) : Z :=
  match maxStudents with
  | None => 100
  | Some m => if bool_decide (m = 0%Z) then 100 else m
  end.

(** [new Course({ ... })], lines 96-107; the roster of a new document is
    the empty array. *)
Definition newCourse (user : User) (body : CreateBody) : Course.t :=
  Course.mk (cb_title body) (cb_code body)
            (default (_id user) (cb_instructor body))
            [] (capacityOrDefault (cb_maxStudents body)) true.

(** [Course.findOne({ code })] finds a document. *)
Definition codeTaken (code : string) (db : Courses) : bool :=
  existsb (fun d : ObjectId * Course.t => bool_decide (Course.code d.2 = code))
          (map_to_list db).

(** The handler of [POST /], lines 86-118, behind [adminAuth]. *)
Definition createCourseHandler (env : Js.Env) (user : User) (body : CreateBody)
  (db : Courses) : Response (ObjectId * Course.t) * Courses :=
  if codeTaken (cb_code body) db
  then (fail 400 "Course with this code already exists", db)
  else
    let course := newCourse user body in
    (created (Js.freshId env, course), <[Js.freshId env := course]> db).

Definition createCourse (denied : string) (env : Js.Env) (user : User)
  (body : CreateBody) (db : Courses) : Response (ObjectId * Course.t) * Courses :=
  AssignmentsRouter.adminAuth denied user (createCourseHandler env user body) db.

(** The fields a request body may carry for [findByIdAndUpdate]; an
    absent field is left as it is. *)
Record Patch : Type := mkPatch {
  p_title : option string;
  p_code : option string;
  p_instructor : option ObjectId;
  p_students : option (list ObjectId);
  p_maxStudents : option Z;
  p_isActive : option bool
}.

Definition applyPatch (p : Patch) (c : Course.t) : Course.t :=
  Course.mk (default (Course.title c) (p_title p))
            (default (Course.code c) (p_code p))
            (default (Course.instructor c) (p_instructor p))
            (default (Course.students c) (p_students p))
            (default (Course.maxStudents c) (p_maxStudents p))
            (default (Course.isActive c) (p_isActive p)).

(** [PUT /:id], lines 121-144 *)
Definition updateCourse (user : User) (id : ObjectId) (body : Patch) (db : Courses)
  : Response Course.t * Courses :=
  match db !! id with
  | None => (fail 404 "Course not found", db)
  | Some course =>
      if negb (isAdmin user) && negb (equals (Course.instructor course) (_id user))
      then (fail 403 "Access denied", db)
      else
        let updatedCourse := applyPatch body course in
        (ok updatedCourse, <[id := updatedCourse]> db)
  end.

(** The handler of [DELETE /:id], lines 147-160, behind [adminAuth]. *)
Definition deleteCourseHandler (id : ObjectId) (db : Courses)
  : Response unit * Courses :=
  match db !! id with
  | None => (fail 404 "Course not found", db)
  | Some _ => (mkResponse 200 (Message "Course deleted successfully"), delete id db)
  end.

Definition deleteCourse (denied : string) (user : User) (id : ObjectId)
  (db : Courses) : Response unit * Courses :=
  AssignmentsRouter.adminAuth denied user (deleteCourseHandler id) db.

Section Listing.

Variable createdAt : ObjectId -> N.

Definition newerFirst (x y : ObjectId * Course.t) : Prop :=
  (createdAt y.1 <= createdAt x.1)%N.

#[local] Instance newerFirst_dec : RelDecision newerFirst.
Proof. intros x y. unfold newerFirst. apply _. Defined.

(** [GET /], lines 57-66: [Course.find({ isActive: true })], for every
    caller. *)
Definition listCourses (db : Courses) : Response (list (ObjectId * Course.t)) :=
  ok (merge_sort newerFirst
        (filter (fun d : ObjectId * Course.t => Course.isActive d.2 = true)
                (map_to_list db))).

End Listing.

End CoursesLifecycle.

(** ** The settings form of the client: [AdminSettings] *)

Module AdminSettings.

(** White space as [String.prototype.trim] removes it, on byte strings:
    tab, line feed, vertical tab, form feed, carriage return, space. *)
Definition isSpace (c : ascii) : bool :=
  match nat_of_ascii c with
  | 9 | 10 | 11 | 12 | 13 | 32 => true
  | _ => false
  end.

Fixpoint trimStart (s : string) : string :=
  match s with
  | EmptyString => EmptyString
  | String c s' => if isSpace c then trimStart s' else s
  end.

Fixpoint trimEnd (s : string) : string :=
  match s with
  | EmptyString => EmptyString
  | String c s' =>
      match trimEnd s' with
      | EmptyString => if isSpace c then EmptyString else String c EmptyString
      | t => String c t
      end
  end.

(** [s.trim()] *)
Definition trim (s : string) : string := trimEnd (trimStart s).

(** [handleFileTypesChange], lines 547-554 of the component: the list
    stored in [settings.allowedFileTypes] for the text of the input,
    [value.split(',').map(type => type.trim()).filter(type => type)]. *)
Definition parseFileTypes (value : string) : list string :=
  filter (fun type => type <> "") (trim <$> Js.splitComma value).

(** The text the controlled input shows for the stored list: the array
    given as [value] is converted to a string, its entries joined by
    commas. *)
Definition display (fileTypes : list string) : string := Js.join "," fileTypes.

(** A string that is empty or starts with a character that is not white
    space. *)
Definition startsClean (s : string) : Prop :=
  match s with
  | EmptyString => True
  | String c _ => isSpace c = false
  end.

(** The character [c] occurs in [s]. *)
Fixpoint occurs (c : ascii) (s : string) : bool :=
  match s with
  | EmptyString => false
  | String d s' => bool_decide (d = c) || occurs c s'
  end.

End AdminSettings.

(** ** The predicates of the specification *)

Module Spec.

(** [canRead]: administrative authority, or author, or public, or an
    entry of the access list bears the caller's reference, whatever its
    access type. *)
Definition canRead (caller : User) (n : Note.t) : Prop :=
  role caller = "admin"
  \/ Note.author n = _id caller
  \/ Note.isPublic n = true
  \/ exists access, access ∈ Note.accessList n /\ Access.user access = _id caller.

(** [canWriteEdit]: administrative authority, or author, or an entry of
    the access list bears the caller's reference with access type
    [edit]. *)
Definition canWriteEdit (caller : User) (n : Note.t) : Prop :=
  role caller = "admin"
  \/ Note.author n = _id caller
  \/ exists access, access ∈ Note.accessList n
                    /\ Access.user access = _id caller
                    /\ Access.accessType access = "edit".

(** Last-match lookup: the access type of the last entry of the ordered
    access list that bears the user's reference. *)
Fixpoint lastMatch (l : list Access.t) (u : ObjectId) : option string :=
  match l with
  | [] => None
  | access :: rest =>
      match lastMatch rest u with
      | Some t => Some t
      | None => if equals (Access.user access) u
                then Some (Access.accessType access) else None
      end
  end.

(** Membership of an extension in a set, compared case-insensitively. *)
Definition memberCI (ext : string) (allowed : list string) : Prop :=
  exists a, a ∈ allowed /\ Js.toLowerCase a = Js.toLowerCase ext.

(** [needle] occurs in [s]. *)
Definition occursIn (needle s : string) : Prop :=
  exists pre post, s = pre +:+ needle +:+ post.

(** The number of submissions of an assignment that bear a student
    reference. *)
Definition submissionsOf (s : ObjectId) (a : Assignment.t) : nat :=
  length (filter (fun sub => Submission.student sub = s) (Assignment.submissions a)).

(** At most one submission per student reference, in one assignment and
    in every assignment of the collection. *)
Definition oneSubmissionPerStudent (a : Assignment.t) : Prop :=
  NoDup (Submission.student <$> Assignment.submissions a).

Definition allOneSubmissionPerStudent (db : gmap ObjectId Assignment.t) : Prop :=
  forall id a, db !! id = Some a -> oneSubmissionPerStudent a.

(** Student [s] has a submission in the active assignment stored under
    [id]. *)
Definition submitted (s id : ObjectId) (db : gmap ObjectId Assignment.t) : Prop :=
  exists a, db !! id = Some a
            /\ Assignment.isActive a = true
            /\ exists sub, sub ∈ Assignment.submissions a
                           /\ Submission.student sub = s.


(** No two stored courses share a code. *)
Definition uniqueCodes (db : gmap ObjectId Course.t) : Prop :=
  forall i j c d, db !! i = Some c -> db !! j = Some d ->
                  Course.code c = Course.code d -> i = j.



End Spec.

(** ** Sample data: callers, documents and requests *)

Module Sample.

Definition admin : User := mkUser 100%N "admin".
Definition alice : User := mkUser 1%N "student".
Definition bob : User := mkUser 2%N "student".
Definition carol : User := mkUser 3%N "student".

Definition env0 : Js.Env := Js.mkEnv 1000%N 500%N.
Definition env1 : Js.Env := Js.mkEnv 2000%N 501%N.

(** A restricted note of alice that grants bob [view]. *)
Definition limits : Note.t :=
  Note.mk "Limits" "Epsilon and delta" None 1%N [] false
          [Access.mk 2%N "view"] 0 [] 5%N.

(** A restricted note that lists bob twice: first [edit], then [view]. *)
Definition series : Note.t :=
  Note.mk "Series" "Convergence tests" None 1%N [] false
          [Access.mk 2%N "edit"; Access.mk 2%N "view"] 0 [] 6%N.

(** A public note. *)
Definition history : Note.t :=
  Note.mk "History" "Rome and Carthage" None 1%N [] true [] 0 [] 7%N.

Definition notes : gmap ObjectId Note.t :=
  {[ 10%N := limits; 11%N := series; 12%N := history ]}.

(** A note on which bob and carol have commented. *)
Definition firstComment : Comment.t := Comment.mk 700%N 2%N "Clear" 50%N 50%N.
Definition secondComment : Comment.t := Comment.mk 701%N 3%N "Too short" 60%N 60%N.

Definition discussed : Note.t :=
  Note.mk "Integrals" "Riemann sums" None 1%N [] true [] 4
          [firstComment; secondComment] 8%N.

Definition forum : gmap ObjectId Note.t := {[ 13%N := discussed ]}.

(** A request body that hands a note over to bob. *)
Definition takeOver : Note.Patch :=
  Note.mkPatch None None None (Some 2%N) None None None None.

(** Request bodies for a new note: all defaults, and restricted. *)
Definition draft : NotesLifecycle.CreateBody :=
  NotesLifecycle.mkCreateBody "Vectors" "Dot product" None None None None.

Definition privateDraft : NotesLifecycle.CreateBody :=
  NotesLifecycle.mkCreateBody "Vectors" "Dot product" None None (Some false) None.

(** A request body that sets the view counter of a note to 2^53. *)
Definition saturate : Note.Patch :=
  Note.mkPatch None None None None None None None (Some (2 ^ 53)%Z).

Definition retitle : Note.Patch :=
  Note.mkPatch (Some "Sequences") None None None None None None None.

(** An assignment that takes files of type [.pdf] only. *)
Definition essay : Assignment.t :=
  Assignment.mk "Essay" "Write an essay" "file" 9000%N 10 [".pdf"] true 100%N [].

Definition assignments : gmap ObjectId Assignment.t := {[ 20%N := essay ]}.

(** The same assignment with its allowed extension written in capitals. *)
Definition essayCapitals : Assignment.t :=
  Assignment.mk "Essay" "Write an essay" "file" 9000%N 10 [".PDF"] true 100%N [].

Definition assignmentsCapitals : gmap ObjectId Assignment.t :=
  {[ 20%N := essayCapitals ]}.

(** The essay assignment once bob has handed in [essay.pdf]. *)
Definition essayOfBob : Submission.t :=
  Submission.mk 500%N 2%N 1000%N (Some "/uploads/assignments/file-2.pdf")
                (Some "essay.pdf") ".pdf" "" None None.

Definition essayHandedIn : Assignment.t :=
  Assignment.set_submissions [essayOfBob] essay.

Definition handedIn : gmap ObjectId Assignment.t := {[ 20%N := essayHandedIn ]}.

Definition fullMarks : AssignmentsRouter.GradeBody :=
  AssignmentsRouter.mkGradeBody (Some 100%Z) (Some "Well argued").

(** The essay assignment with another due date and size limit. *)
Definition essayOverdue : Assignment.t :=
  Assignment.mk "Essay" "Write an essay" "file" 1%N 0 [".pdf"] true 100%N [].

(** An assignment that takes a link, and one that takes anything. *)
Definition portfolio : Assignment.t :=
  Assignment.mk "Portfolio" "Link to your work" "url" 9000%N 10 [] true 100%N [].

Definition journal : Assignment.t :=
  Assignment.mk "Journal" "Anything goes" "any" 9000%N 10 [] true 100%N [].

Definition linkBody : AssignmentsRouter.SubmitBody :=
  AssignmentsRouter.mkSubmitBody (Some "https://example.org/work") None.

(** A run of requests on the assignments: carol hands in, the
    administrator grades bob, bob tries again. *)
Definition term : list AssignmentsLifecycle.Request :=
  [ AssignmentsLifecycle.Submit
      (AssignmentsRouter.mkSubmitRequest env1 carol 20%N
         (Some (AssignmentsRouter.mkFile "carol.pdf" "file-3.pdf"))
         (AssignmentsRouter.mkSubmitBody None None));
    AssignmentsLifecycle.Grade admin 20%N 500%N fullMarks;
    AssignmentsLifecycle.Submit
      (AssignmentsRouter.mkSubmitRequest env1 bob 20%N
         (Some (AssignmentsRouter.mkFile "again.pdf" "file-4.pdf"))
         (AssignmentsRouter.mkSubmitBody None None)) ].

Definition essayDocx : AssignmentsRouter.File :=
  AssignmentsRouter.mkFile "essay.docx" "file-1.docx".
Definition essayPdf : AssignmentsRouter.File :=
  AssignmentsRouter.mkFile "essay.pdf" "file-2.pdf".
Definition noBody : AssignmentsRouter.SubmitBody :=
  AssignmentsRouter.mkSubmitBody None None.

(** The suffix of a file name from its last dot; on the file names used
    here it is what [path.extname] returns. *)
Fixpoint fromLastDot (s : string) : string :=
  match s with
  | EmptyString => EmptyString
  | String c s' =>
      match fromLastDot s' with
      | EmptyString => if bool_decide (c = "."%char) then s else EmptyString
      | ext => ext
      end
  end.

(** A course with room for two students. *)
Definition algebra : Course.t :=
  Course.mk "Algebra" "MATH101" 100%N [] 2 true.

Definition courses : gmap ObjectId Course.t := {[ 30%N := algebra ]}.

(** A request body for a new course that asks for capacity 0, and one
    that reuses the code of the algebra course. *)
Definition geometryBody : CoursesLifecycle.CreateBody :=
  CoursesLifecycle.mkCreateBody "Geometry" "MATH102" None (Some 0%Z).

Definition sameCodeBody : CoursesLifecycle.CreateBody :=
  CoursesLifecycle.mkCreateBody "Algebra II" "MATH101" None None.

(** The algebra course with bob and carol enrolled, and a request body
    that closes it. *)
Definition algebraFull : Course.t :=
  Course.mk "Algebra" "MATH101" 100%N [2%N; 3%N] 2 true.

Definition coursesFull : gmap ObjectId Course.t := {[ 30%N := algebraFull ]}.

Definition close : CoursesLifecycle.Patch :=
  CoursesLifecycle.mkPatch None None None None None (Some false).

End Sample.

(** ** Helper lemmas *)

Section JsFacts.

Lemma isAdmin_true (u : User) : isAdmin u = true <-> role u = "admin".
Proof. unfold isAdmin. apply bool_decide_eq_true. Qed.

Lemma isAdmin_false (u : User) : isAdmin u = false <-> role u <> "admin".
Proof. unfold isAdmin. apply bool_decide_eq_false. Qed.

Lemma equals_true (a b : ObjectId) : equals a b = true <-> a = b.
Proof. unfold equals. apply bool_decide_eq_true. Qed.

Lemma equals_false (a b : ObjectId) : equals a b = false <-> a <> b.
Proof. unfold equals. apply bool_decide_eq_false. Qed.

Lemma some_true {A : Type} (p : A -> bool) (l : list A) :
  Js.some p l = true <-> exists x, x ∈ l /\ p x = true.
Proof.
  unfold Js.some. rewrite existsb_exists.
  split; intros (x & Hx & Hp); exists x; split; auto; by apply list_elem_of_In.
Qed.

Lemma some_false {A : Type} (p : A -> bool) (l : list A) :
  Js.some p l = false <-> forall x, x ∈ l -> p x = false.
Proof.
  split.
  - intros H x Hx. destruct (p x) eqn:E; [|done].
    assert (Js.some p l = true) by (apply some_true; eauto). congruence.
  - intros H. destruct (Js.some p l) eqn:E; [|done].
    apply some_true in E as (x & Hx & Hp). rewrite (H x Hx) in Hp. done.
Qed.

Lemma includes_true {A : Type} `{EqDecision A} (l : list A) (x : A) :
  Js.includes l x = true <-> x ∈ l.
Proof.
  unfold Js.includes. rewrite existsb_exists. split.
  - intros (y & Hy & E). apply bool_decide_eq_true in E. subst.
    by apply list_elem_of_In.
  - intros H. exists x. split; [by apply list_elem_of_In|].
    by apply bool_decide_eq_true.
Qed.

Lemma includes_false {A : Type} `{EqDecision A} (l : list A) (x : A) :
  Js.includes l x = false <-> x ∉ l.
Proof.
  rewrite <- includes_true. destruct (Js.includes l x); split; auto; done.
Qed.

Lemma find_is_Some {A : Type} (p : A -> bool) (l : list A) :
  is_Some (Js.find p l) <-> exists x, x ∈ l /\ p x = true.
Proof.
  unfold Js.find. split.
  - intros [x Hx]. apply find_some in Hx as [Hin Hp].
    exists x. split; [by apply list_elem_of_In | done].
  - intros (x & Hin & Hp). destruct (List.find p l) eqn:E; [by eexists|].
    apply list_elem_of_In in Hin.
    pose proof (find_none p l E x Hin). congruence.
Qed.

Lemma find_None {A : Type} (p : A -> bool) (l : list A) :
  Js.find p l = None <-> forall x, x ∈ l -> p x = false.
Proof.
  split.
  - intros E x Hin. apply list_elem_of_In in Hin. by apply (find_none p l E).
  - intros H. destruct (Js.find p l) eqn:E; [|done].
    assert (is_Some (Js.find p l)) as Hs by (rewrite E; by eexists).
    apply find_is_Some in Hs as (x & Hin & Hp). rewrite (H x Hin) in Hp. done.
Qed.

Lemma lowerChar_idem (c : ascii) : Js.lowerChar (Js.lowerChar c) = Js.lowerChar c.
Proof. destruct c as [[] [] [] [] [] [] [] []]; reflexivity. Qed.

Lemma toLowerCase_idem (s : string) :
  Js.toLowerCase (Js.toLowerCase s) = Js.toLowerCase s.
Proof. induction s as [|c s IH]; cbn; [done|]. by rewrite lowerChar_idem, IH. Qed.

Lemma string_app_cons (x : ascii) (a b : string) :
  String x a +:+ b = String x (a +:+ b).
Proof. reflexivity. Qed.

Lemma string_app_assoc (a b c : string) : (a +:+ b) +:+ c = a +:+ (b +:+ c).
Proof.
  induction a as [|x a IH]; [done|]. by rewrite !string_app_cons, IH.
Qed.

Lemma string_app_empty_r (a : string) : a +:+ "" = a.
Proof. induction a as [|x a IH]; [done|]. by rewrite string_app_cons, IH. Qed.

Lemma occursIn_prefix (p needle s : string) :
  Spec.occursIn needle s -> Spec.occursIn needle (p +:+ s).
Proof.
  intros (pre & post & ->). exists (p +:+ pre), post.
  by rewrite string_app_assoc.
Qed.

Lemma join_occurs (sep x : string) (l : list string) :
  x ∈ l -> Spec.occursIn x (Js.join sep l).
Proof.
  induction l as [|y l IH]; intros Hin; [by apply elem_of_nil in Hin|].
  apply elem_of_cons in Hin as [->|Hin].
  - destruct l as [|z l].
    + exists "", "". simpl. by rewrite string_app_empty_r.
    + exists "", (sep +:+ Js.join sep (z :: l)). reflexivity.
  - destruct l as [|z l]; [by apply elem_of_nil in Hin|].
    change (Js.join sep (y :: z :: l)) with (y +:+ sep +:+ Js.join sep (z :: l)).
    apply occursIn_prefix, occursIn_prefix. by apply IH.
Qed.

End JsFacts.

(** ** Notes: reading, commenting, updating *)

Section NotesFacts.

Import NotesRouter.

(** The guard shared by [GET /:id] and [POST /:id/comments] denies
    exactly the callers for which [canRead] fails. *)
Lemma readGuard_denies (caller : User) (note : Note.t) :
  negb (isAdmin caller)
  && negb (Note.isPublic note)
  && negb (Js.some (fun access => equals (Access.user access) (_id caller))
                   (Note.accessList note))
  && negb (equals (Note.author note) (_id caller)) = true
  <-> ~ Spec.canRead caller note.
Proof.
  unfold Spec.canRead.
  rewrite !andb_true_iff, !negb_true_iff, isAdmin_false, some_false, equals_false.
  split.
  - intros [[[Hadm Hpub] Hacc] Hauth] [H|[H|[H|(a & Hin & Ha)]]];
      [done | done | congruence |].
    specialize (Hacc a Hin). apply equals_false in Hacc. done.
  - intros H. repeat split.
    + intros E. apply H. by left.
    + destruct (Note.isPublic note) eqn:E; [|done]. exfalso. apply H. auto.
    + intros a Hin. apply equals_false. intros E. apply H. do 3 right. eauto.
    + intros E. apply H. auto.
Qed.

Lemma readGuard_admits (caller : User) (note : Note.t) :
  negb (isAdmin caller)
  && negb (Note.isPublic note)
  && negb (Js.some (fun access => equals (Access.user access) (_id caller))
                   (Note.accessList note))
  && negb (equals (Note.author note) (_id caller)) = false
  <-> Spec.canRead caller note.
Proof.
  rewrite <- not_true_iff_false, readGuard_denies.
  split; [|tauto]. intros H.
  destruct (decide (role caller = "admin")) as [|Hadm]; [by left|].
  destruct (decide (Note.author note = _id caller)) as [|Hauth]; [by right; left|].
  destruct (Note.isPublic note) eqn:Hpub; [by right; right; left|].
  destruct (Js.some (fun access => equals (Access.user access) (_id caller))
                    (Note.accessList note)) eqn:Hacc.
  - apply some_true in Hacc as (a & Hin & Ha). apply equals_true in Ha.
    do 3 right. eauto.
  - exfalso. apply H. intros [?|[?|[?|(a & Hin & Ha)]]];
      [done | done | congruence |].
    rewrite some_false in Hacc. specialize (Hacc a Hin).
    apply equals_false in Hacc. done.
Qed.

Lemma getNote_denied (caller : User) (id : ObjectId) (note : Note.t) (db : Notes) :
  db !! id = Some note -> ~ Spec.canRead caller note ->
  getNote caller id db = (fail 403 "Access denied", db).
Proof.
  intros Hdb H. unfold getNote. rewrite Hdb.
  apply readGuard_denies in H. by rewrite H.
Qed.

Lemma getNote_granted (caller : User) (id : ObjectId) (note : Note.t) (db : Notes) :
  db !! id = Some note -> Spec.canRead caller note ->
  getNote caller id db =
    (ok (Note.set_viewCount (Js.plusOne (Note.viewCount note)) note),
     <[id := Note.set_viewCount (Js.plusOne (Note.viewCount note)) note]> db).
Proof.
  intros Hdb H. unfold getNote. rewrite Hdb.
  apply readGuard_admits in H. by rewrite H.
Qed.

Lemma getNote_status (caller : User) (id : ObjectId) (note : Note.t) (db : Notes) :
  db !! id = Some note ->
  status (getNote caller id db).1 = 200%N <-> Spec.canRead caller note.
Proof.
  intros Hdb. split.
  - intros Hs. apply readGuard_admits.
    unfold getNote in Hs. rewrite Hdb in Hs.
    destruct (_ && _) eqn:E in Hs; [discriminate Hs | exact E].
  - intros H. by rewrite (getNote_granted _ _ _ _ Hdb H).
Qed.

Lemma addComment_denied (env : Js.Env) (caller : User) (id : ObjectId)
  (content : string) (note : Note.t) (db : Notes) :
  db !! id = Some note -> ~ Spec.canRead caller note ->
  addComment env caller id content db = (fail 403 "Access denied", db).
Proof.
  intros Hdb H. unfold addComment. rewrite Hdb.
  apply readGuard_denies in H. by rewrite H.
Qed.

Lemma addComment_status (env : Js.Env) (caller : User) (id : ObjectId)
  (content : string) (note : Note.t) (db : Notes) :
  db !! id = Some note ->
  status (addComment env caller id content db).1 = 200%N <-> Spec.canRead caller note.
Proof.
  intros Hdb. split.
  - intros Hs. apply readGuard_admits.
    unfold addComment in Hs. rewrite Hdb in Hs.
    destruct (_ && _) eqn:E in Hs; [discriminate Hs | exact E].
  - intros H. unfold addComment. rewrite Hdb.
    apply readGuard_admits in H. by rewrite H.
Qed.

End NotesFacts.

Section NotesClaims.

Import NotesRouter.

(** C2.  For every caller C and note N stored under [id], the single-note
    read succeeds iff C is admin, or N's author, or N is public, or C's
    reference appears in N's access list with any access type, and then it
    returns the note, as stored by the read; when none of these hold it fails with Forbidden,
    "Access denied", and the store is untouched.  Posting a comment on N
    is gated by the same predicate. *)
Theorem read_and_comment_gated_by_canRead
  (env : Js.Env) (C : User) (id : ObjectId) (content : string)
  (N : Note.t) (db : Notes) :
  db !! id = Some N ->
  (status (getNote C id db).1 = 200%N <-> Spec.canRead C N)
  /\ (Spec.canRead C N ->
      body (getNote C id db).1
      = Json (Note.set_viewCount (Js.plusOne (Note.viewCount N)) N))
  /\ (~ Spec.canRead C N ->
      getNote C id db = (fail Forbidden "Access denied", db))
  /\ (status (addComment env C id content db).1 = 200%N <-> Spec.canRead C N)
  /\ (~ Spec.canRead C N ->
      addComment env C id content db = (fail Forbidden "Access denied", db)).
Proof.
  intros Hdb. repeat split.
  - by apply getNote_status.
  - by apply getNote_status.
  - intros H. by rewrite (getNote_granted _ _ _ _ Hdb H).
  - by apply getNote_denied.
  - by apply addComment_status.
  - by apply addComment_status.
  - by apply addComment_denied.
Qed.

Lemma read_and_comment_gated_by_canRead_witness :
  (status (getNote Sample.bob 10%N Sample.notes).1 = 200%N
   <-> Spec.canRead Sample.bob Sample.limits)
  /\ (Spec.canRead Sample.bob Sample.limits ->
      body (getNote Sample.bob 10%N Sample.notes).1
      = Json (Note.set_viewCount (Js.plusOne (Note.viewCount Sample.limits))
                                 Sample.limits))
  /\ (~ Spec.canRead Sample.bob Sample.limits ->
      getNote Sample.bob 10%N Sample.notes
      = (fail Forbidden "Access denied", Sample.notes))
  /\ (status (addComment Sample.env0 Sample.bob 10%N "Thanks" Sample.notes).1 = 200%N
      <-> Spec.canRead Sample.bob Sample.limits)
  /\ (~ Spec.canRead Sample.bob Sample.limits ->
      addComment Sample.env0 Sample.bob 10%N "Thanks" Sample.notes
      = (fail Forbidden "Access denied", Sample.notes)).
Proof.
  apply (read_and_comment_gated_by_canRead
           Sample.env0 Sample.bob 10%N "Thanks" Sample.limits Sample.notes).
  vm_compute. reflexivity.
Defined.

(** Reading changes nothing but the view counter, so it does not change
    who may read. *)
Lemma canRead_set_viewCount (C : User) (v : Z) (N : Note.t) :
  Spec.canRead C (Note.set_viewCount v N) <-> Spec.canRead C N.
Proof. reflexivity. Qed.

(** Where a number counts exactly, adding 1 is exact. *)
Lemma plusOne_exact (v : Z) :
  (- 2 ^ 53 <= v < 2 ^ 53)%Z -> Js.plusOne v = (v + 1)%Z.
Proof.
  intros Hv. unfold Js.plusOne, Js.roundToDouble.
  destruct (Z.abs (v + 1) <=? 2 ^ 53)%Z eqn:E; [done|].
  apply Z.leb_gt in E. lia.
Qed.

(** C3, as stated, fails on a counter that has reached 2^53, which an
    update can set: the read succeeds, and the counter and the whole
    store are after the read what they were before it. *)
Lemma getNote_counter_stuck :
  let db := (updateNote Sample.admin 10%N Sample.saturate Sample.notes).2 in
  Note.viewCount <$> db !! 10%N = Some (2 ^ 53)%Z
  /\ status (getNote Sample.bob 10%N db).1 = 200%N
  /\ Note.viewCount <$> (getNote Sample.bob 10%N db).2 !! 10%N <> Some (2 ^ 53 + 1)%Z
  /\ (getNote Sample.bob 10%N db).2 = db.
Proof.
  assert (Js.plusOne (2 ^ 53) = (2 ^ 53)%Z) as Hstuck by (vm_compute; reflexivity).
  set (N := Note.applyPatch Sample.saturate Sample.limits).
  assert ((updateNote Sample.admin 10%N Sample.saturate Sample.notes).2
          = <[10%N := N]> Sample.notes) as Hdb by reflexivity.
  cbv zeta. rewrite Hdb.
  assert ((<[10%N := N]> Sample.notes) !! 10%N = Some N) as Hl
    by apply lookup_insert_eq.
  assert (Spec.canRead Sample.bob N) as Hr.
  { do 3 right. exists (Access.mk 2%N "view"). split; [apply list_elem_of_here | done]. }
  rewrite (getNote_granted _ _ _ _ Hl Hr). cbn [fst snd status ok].
  change (Js.plusOne (Note.viewCount N)) with (Js.plusOne (2 ^ 53)).
  rewrite Hstuck, insert_insert_eq, Hl. by repeat split.
Qed.

(** C3, amended.  For every note N whose view counter is an integer v
    with -2^53 <= v < 2^53, the range in which a number counts exactly,
    each successful single-note read increments the counter by exactly 1
    and so changes the store, and the same read then succeeds again; when
    v + 1 is below 2^53 as well, a second successful read (by any caller)
    leaves the counter at the baseline plus 2 and changes the store again.
    The read is not idempotent. *)
Theorem getNote_twice_adds_two
  (c1 c2 : User) (id : ObjectId) (N : Note.t) (db : Notes) :
  db !! id = Some N ->
  status (getNote c1 id db).1 = 200%N ->
  (- 2 ^ 53 <= Note.viewCount N < 2 ^ 53)%Z ->
  let db1 := (getNote c1 id db).2 in
  Note.viewCount <$> db1 !! id = Some (Note.viewCount N + 1)%Z
  /\ status (getNote c1 id db1).1 = 200%N
  /\ db1 <> db
  /\ ((Note.viewCount N + 1 < 2 ^ 53)%Z ->
      status (getNote c2 id db1).1 = 200%N ->
      Note.viewCount <$> (getNote c2 id db1).2 !! id
      = Some (Note.viewCount N + 2)%Z)
  /\ ((Note.viewCount N + 1 < 2 ^ 53)%Z ->
      (getNote c1 id db1).2 <> db1).
Proof.
  intros Hdb Hs Hv db1.
  apply (getNote_status _ _ _ _ Hdb) in Hs as Hr.
  set (N1 := Note.set_viewCount (Note.viewCount N + 1) N).
  assert (db1 = <[id := N1]> db) as Hdb1.
  { unfold db1. rewrite (getNote_granted _ _ _ _ Hdb Hr).
    by rewrite (plusOne_exact _ Hv). }
  assert (db1 !! id = Some N1) as Hl1.
  { rewrite Hdb1. apply lookup_insert_eq. }
  assert (Spec.canRead c1 N1) as Hr1 by (by apply canRead_set_viewCount).
  assert (forall c, Spec.canRead c N1 -> (Note.viewCount N + 1 < 2 ^ 53)%Z ->
            (getNote c id db1).2
            = <[id := Note.set_viewCount (Note.viewCount N + 2) N1]> db1) as Hsecond.
  { intros c Hc Hv1. rewrite (getNote_granted _ _ _ _ Hl1 Hc). cbn [snd].
    rewrite plusOne_exact by (simpl; lia). simpl. do 2 f_equal. lia. }
  split; [|split; [|split; [|split]]].
  - by rewrite Hl1.
  - by apply (getNote_status _ _ _ _ Hl1).
  - intros E. rewrite <- E in Hdb. rewrite Hl1 in Hdb.
    injection Hdb as E'. apply (f_equal Note.viewCount) in E'. simpl in E'. lia.
  - intros Hv1 Hs2. apply (getNote_status _ _ _ _ Hl1) in Hs2.
    rewrite (Hsecond c2 Hs2 Hv1). by rewrite lookup_insert_eq.
  - intros Hv1. rewrite (Hsecond c1 Hr1 Hv1). intros E.
    apply (f_equal (fun m : Notes => Note.viewCount <$> m !! id)) in E.
    rewrite lookup_insert_eq, Hl1 in E. simpl in E.
    injection E as E'. lia.
Qed.

Lemma getNote_twice_adds_two_witness :
  let db1 := (getNote Sample.bob 10%N Sample.notes).2 in
  Note.viewCount <$> db1 !! 10%N = Some (Note.viewCount Sample.limits + 1)%Z
  /\ status (getNote Sample.bob 10%N db1).1 = 200%N
  /\ db1 <> Sample.notes
  /\ ((Note.viewCount Sample.limits + 1 < 2 ^ 53)%Z ->
      status (getNote Sample.alice 10%N db1).1 = 200%N ->
      Note.viewCount <$> (getNote Sample.alice 10%N db1).2 !! 10%N
      = Some (Note.viewCount Sample.limits + 2)%Z)
  /\ ((Note.viewCount Sample.limits + 1 < 2 ^ 53)%Z ->
      (getNote Sample.bob 10%N db1).2 <> db1).
Proof.
  apply (getNote_twice_adds_two Sample.bob Sample.alice 10%N Sample.limits Sample.notes).
  - vm_compute. reflexivity.
  - vm_compute. reflexivity.
  - vm_compute. split; [discriminate | reflexivity].
Defined.

End NotesClaims.

Section UpdateClaims.

Import NotesRouter.

(** The access-list branch of [hasAccess]: some entry bears the caller's
    reference together with the access type [edit]. *)
Lemma editGrant_find (u : ObjectId) (l : list Access.t) :
  is_Some (Js.find (fun access => equals (Access.user access) u
                                  && bool_decide (Access.accessType access = "edit")) l)
  <-> exists access, access ∈ l /\ Access.user access = u
                     /\ Access.accessType access = "edit".
Proof.
  rewrite find_is_Some. split.
  - intros (a & Hin & Hp). apply andb_true_iff in Hp as [Hu Ht].
    apply equals_true in Hu. apply bool_decide_eq_true in Ht. eauto.
  - intros (a & Hin & Hu & Ht). exists a. split; [done|].
    apply andb_true_iff. split; [by apply equals_true | by apply bool_decide_eq_true].
Qed.

Lemma hasAccess_nonowner (C : User) (N : Note.t) :
  role C <> "admin" -> Note.author N <> _id C ->
  hasAccess C N = true
  <-> exists access, access ∈ Note.accessList N /\ Access.user access = _id C
                     /\ Access.accessType access = "edit".
Proof.
  intros Hadm Hauth. unfold hasAccess.
  apply isAdmin_false in Hadm. apply equals_false in Hauth.
  rewrite Hadm, Hauth.
  case_bool_decide as Hlen.
  - rewrite bool_decide_eq_true. apply editGrant_find.
  - split; [done|]. intros (a & Hin & _).
    destruct (Note.accessList N); [by apply elem_of_nil in Hin | simpl in Hlen; lia].
Qed.

Lemma hasAccess_canWriteEdit (C : User) (N : Note.t) :
  hasAccess C N = true <-> Spec.canWriteEdit C N.
Proof.
  unfold Spec.canWriteEdit.
  destruct (decide (role C = "admin")) as [Hadm|Hadm].
  { assert (isAdmin C = true) as E by (by apply isAdmin_true).
    unfold hasAccess. rewrite E. split; auto. }
  destruct (decide (Note.author N = _id C)) as [Hauth|Hauth].
  { assert (isAdmin C = false) as E1 by (by apply isAdmin_false).
    assert (equals (Note.author N) (_id C) = true) as E2 by (by apply equals_true).
    unfold hasAccess. rewrite E1, E2. split; auto. }
  rewrite (hasAccess_nonowner _ _ Hadm Hauth). split; [auto|].
  intros [?|[?|?]]; done.
Qed.

Lemma updateNote_status (C : User) (id : ObjectId) (body : Note.Patch)
  (N : Note.t) (db : Notes) :
  db !! id = Some N ->
  status (updateNote C id body db).1 = 200%N <-> hasAccess C N = true.
Proof.
  intros Hdb. unfold updateNote. rewrite Hdb.
  destruct (hasAccess C N); simpl; split; done.
Qed.

Lemma updateNote_denied (C : User) (id : ObjectId) (body : Note.Patch)
  (N : Note.t) (db : Notes) :
  db !! id = Some N -> hasAccess C N = false ->
  updateNote C id body db = (fail Forbidden "Access denied", db).
Proof. intros Hdb H. unfold updateNote. by rewrite Hdb, H. Qed.

(** The last entry bearing a reference is an entry of the list. *)
Lemma lastMatch_elem (l : list Access.t) (u : ObjectId) (t : string) :
  Spec.lastMatch l u = Some t ->
  exists access, access ∈ l /\ Access.user access = u /\ Access.accessType access = t.
Proof.
  induction l as [|a l IH]; simpl; [done|].
  destruct (Spec.lastMatch l u) as [t'|] eqn:E.
  - intros [= <-]. destruct (IH eq_refl) as (b & Hin & Hb).
    exists b. split; [by apply list_elem_of_further | done].
  - destruct (equals (Access.user a) u) eqn:Hu; [|done].
    intros [= <-]. apply equals_true in Hu.
    exists a. split; [apply list_elem_of_here | done].
Qed.

(** C6.  For every caller C and note N stored under [id], the full update
    succeeds only if (and in fact exactly when) C is admin, or N's author,
    or appears in N's access list with access type [edit]; otherwise it
    fails with Forbidden and the store is untouched.  In particular a
    caller whose entries in the access list all have access type [view]
    is denied. *)
Theorem updateNote_gated_by_canWriteEdit
  (C : User) (id : ObjectId) (body : Note.Patch) (N : Note.t) (db : Notes) :
  db !! id = Some N ->
  (status (updateNote C id body db).1 = 200%N <-> Spec.canWriteEdit C N)
  /\ (~ Spec.canWriteEdit C N ->
      updateNote C id body db = (fail Forbidden "Access denied", db))
  /\ (role C <> "admin" -> Note.author N <> _id C ->
      (forall access, access ∈ Note.accessList N ->
                      Access.user access = _id C ->
                      Access.accessType access = "view") ->
      updateNote C id body db = (fail Forbidden "Access denied", db)).
Proof.
  intros Hdb. split; [|split].
  - rewrite (updateNote_status _ _ _ _ _ Hdb). apply hasAccess_canWriteEdit.
  - intros H. apply (updateNote_denied _ _ _ _ _ Hdb).
    apply not_true_iff_false. by rewrite hasAccess_canWriteEdit.
  - intros Hadm Hauth Hview. apply (updateNote_denied _ _ _ _ _ Hdb).
    apply not_true_iff_false. rewrite (hasAccess_nonowner _ _ Hadm Hauth).
    intros (a & Hin & Hu & Ht). rewrite (Hview a Hin Hu) in Ht. done.
Qed.

Lemma updateNote_gated_by_canWriteEdit_witness :
  (status (updateNote Sample.bob 10%N Sample.retitle Sample.notes).1 = 200%N
   <-> Spec.canWriteEdit Sample.bob Sample.limits)
  /\ (~ Spec.canWriteEdit Sample.bob Sample.limits ->
      updateNote Sample.bob 10%N Sample.retitle Sample.notes
      = (fail Forbidden "Access denied", Sample.notes))
  /\ (role Sample.bob <> "admin" -> Note.author Sample.limits <> _id Sample.bob ->
      (forall access, access ∈ Note.accessList Sample.limits ->
                      Access.user access = _id Sample.bob ->
                      Access.accessType access = "view") ->
      updateNote Sample.bob 10%N Sample.retitle Sample.notes
      = (fail Forbidden "Access denied", Sample.notes)).
Proof.
  apply (updateNote_gated_by_canWriteEdit
           Sample.bob 10%N Sample.retitle Sample.limits Sample.notes).
  vm_compute. reflexivity.
Defined.

(** C8, as stated, fails: the note [Sample.series] lists bob twice, first
    with [edit] and last with [view].  Bob is neither admin nor author,
    the last entry bearing his reference has access type [view], and yet
    his update succeeds: the last entry does not govern. *)
Lemma lastMatch_does_not_govern :
  role Sample.bob <> "admin"
  /\ Note.author Sample.series <> _id Sample.bob
  /\ Spec.lastMatch (Note.accessList Sample.series) (_id Sample.bob) = Some "view"
  /\ ~ (status (updateNote Sample.bob 11%N Sample.retitle Sample.notes).1 = 200%N
        <-> Spec.lastMatch (Note.accessList Sample.series) (_id Sample.bob)
            = Some "edit").
Proof.
  split; [done|]. split; [done|]. split; [reflexivity|].
  intros [H _]. specialize (H eq_refl). vm_compute in H. discriminate H.
Qed.

(** C8, amended.  Lookup over the access list resolves by any-match: for
    a caller who is neither admin nor author, update is granted exactly
    when some entry of the access list, at whatever position, bears the
    caller's reference with access type [edit] (so it is granted when the
    last such entry has type [edit], and also when only an earlier one
    has), and read of a restricted note is granted exactly when some entry
    bears the caller's reference. *)
Theorem accessList_any_match
  (C : User) (id : ObjectId) (body : Note.Patch) (N : Note.t) (db : Notes) :
  db !! id = Some N ->
  role C <> "admin" ->
  Note.author N <> _id C ->
  (status (updateNote C id body db).1 = 200%N
   <-> exists access, access ∈ Note.accessList N
                      /\ Access.user access = _id C
                      /\ Access.accessType access = "edit")
  /\ (Spec.lastMatch (Note.accessList N) (_id C) = Some "edit" ->
      status (updateNote C id body db).1 = 200%N)
  /\ (Note.isPublic N = false ->
      status (getNote C id db).1 = 200%N
      <-> exists access, access ∈ Note.accessList N
                         /\ Access.user access = _id C).
Proof.
  intros Hdb Hadm Hauth.
  assert (status (updateNote C id body db).1 = 200%N
          <-> exists access, access ∈ Note.accessList N
                             /\ Access.user access = _id C
                             /\ Access.accessType access = "edit") as Hupd.
  { rewrite (updateNote_status _ _ _ _ _ Hdb). by apply hasAccess_nonowner. }
  split; [exact Hupd|]. split.
  - intros Hlast. apply Hupd. by apply lastMatch_elem.
  - intros Hpub. rewrite (getNote_status _ _ _ _ Hdb). unfold Spec.canRead.
    split; [|auto]. intros [?|[?|[?|?]]]; [done | done | congruence | done].
Qed.

Lemma accessList_any_match_witness :
  (status (updateNote Sample.bob 11%N Sample.retitle Sample.notes).1 = 200%N
   <-> exists access, access ∈ Note.accessList Sample.series
                      /\ Access.user access = _id Sample.bob
                      /\ Access.accessType access = "edit")
  /\ (Spec.lastMatch (Note.accessList Sample.series) (_id Sample.bob) = Some "edit" ->
      status (updateNote Sample.bob 11%N Sample.retitle Sample.notes).1 = 200%N)
  /\ (Note.isPublic Sample.series = false ->
      status (getNote Sample.bob 11%N Sample.notes).1 = 200%N
      <-> exists access, access ∈ Note.accessList Sample.series
                         /\ Access.user access = _id Sample.bob).
Proof.
  apply (accessList_any_match Sample.bob 11%N Sample.retitle Sample.series Sample.notes).
  - vm_compute. reflexivity.
  - vm_compute. discriminate.
  - vm_compute. discriminate.
Defined.

End UpdateClaims.

(** ** Notes: the list query *)

Section ListClaims.

Import NotesRouter.

Variable regexTest : string -> string -> bool.

(** For a caller without administrative authority the [$or] key of the
    query is assigned a second time, so the filter sent to the store is
    the same whether or not a search text was supplied. *)
Lemma buildQuery_search_overwritten (user : User) (c : option ObjectId)
  (s t : option string) :
  isAdmin user = false ->
  buildQuery user (mkListParams c s t) = buildQuery user (mkListParams c None t).
Proof.
  intros Hadm. unfold buildQuery. simpl. rewrite Hadm. simpl.
  destruct c, (Js.truthy s), (Js.truthy t); reflexivity.
Qed.

Lemma listNotes_search_overwritten (user : User) (c : option ObjectId)
  (s t : option string) (db : Notes) :
  isAdmin user = false ->
  listNotes regexTest user (mkListParams c s t) db
  = listNotes regexTest user (mkListParams c None t) db.
Proof.
  intros Hadm. unfold listNotes. by rewrite (buildQuery_search_overwritten _ _ s).
Qed.

Lemma findNotes_elem (q : Query) (db : Notes) (id : ObjectId) (n : Note.t) :
  (id, n) ∈ findNotes regexTest q db
  <-> db !! id = Some n /\ matchQuery regexTest q n = true.
Proof.
  unfold findNotes. rewrite merge_sort_Permutation, list_elem_of_filter.
  rewrite elem_of_map_to_list. simpl. tauto.
Qed.

(** Without course and tag filters, a caller without administrative
    authority is listed exactly the notes that are public, or list the
    caller in their access list, or have the caller as author; the search
    text plays no part. *)
Lemma listNotes_scoped (user : User) (s : option string) (db : Notes)
  (id : ObjectId) (n : Note.t) :
  isAdmin user = false ->
  (id, n) ∈ findNotes regexTest (buildQuery user (mkListParams None s None)) db
  <-> db !! id = Some n
      /\ (Note.isPublic n = true
          \/ (exists access, access ∈ Note.accessList n
                             /\ Access.user access = _id user)
          \/ Note.author n = _id user).
Proof.
  intros Hadm. rewrite (buildQuery_search_overwritten _ _ s None Hadm).
  rewrite findNotes_elem. unfold buildQuery. simpl. rewrite Hadm. simpl.
  unfold matchQuery, set_or, emptyQuery. cbn [q_course q_or q_tags existsb matchCondition].
  rewrite andb_true_l, andb_true_r.
  rewrite !orb_false_r, !orb_true_iff, bool_decide_eq_true, equals_true, some_true.
  split; intros [Hdb H]; (split; [done|]).
  - destruct H as [H|[(a & Hin & Ha)|H]]; auto.
    apply equals_true in Ha. eauto.
  - destruct H as [H|[(a & Hin & Ha)|H]]; auto.
    right. left. exists a. split; [done|]. by apply equals_true.
Qed.

End ListClaims.

Section ListEvaluation.

Import NotesRouter.

(** C7 on the code.  Carol, who has no administrative authority, lists the
    notes with the search text "algebra".  Neither the title nor the
    content of the public note [Sample.history] matches that text, and the
    note is listed all the same: for such a caller the handler assigns
    [query.$or] twice and the second assignment discards the search. *)
Theorem listNotes_search_lost :
  Js.containsCI "algebra" (Note.title Sample.history) = false
  /\ Js.containsCI "algebra" (Note.content Sample.history) = false
  /\ listNotes Js.containsCI Sample.carol
       (mkListParams None (Some "algebra") None) Sample.notes
     = ok [(12%N, Sample.history)].
Proof. repeat split; vm_compute; reflexivity. Qed.

(** The same query by an administrator does apply the search text. *)
Lemma listNotes_search_applied_for_admin :
  listNotes Js.containsCI Sample.admin
    (mkListParams None (Some "algebra") None) Sample.notes = ok []
  /\ listNotes Js.containsCI Sample.admin
       (mkListParams None (Some "rome") None) Sample.notes
     = ok [(12%N, Sample.history)].
Proof. split; vm_compute; reflexivity. Qed.

End ListEvaluation.

(** ** Assignments: submitting *)

Section SubmitFacts.

Import AssignmentsRouter.

Variable extname : string -> string.

Lemma submit_admin (env : Js.Env) (user : User) (id : ObjectId)
  (file : option File) (body : SubmitBody) (db : Assignments) :
  isAdmin user = true ->
  submit extname env user id file body db
  = (fail Forbidden "Admins cannot submit assignments", db).
Proof. intros H. unfold submit. by rewrite H. Qed.

(** What a submit request can do: it fails and leaves the collection as
    it is, or it succeeds with status 201 on an active assignment that has
    no submission of the caller, and appends one submission of the caller
    to that assignment. *)
Lemma submit_cases (env : Js.Env) (user : User) (id : ObjectId)
  (file : option File) (body : SubmitBody) (db : Assignments) :
  ((submit extname env user id file body db).2 = db
   /\ status (submit extname env user id file body db).1 <> 201%N)
  \/ exists a,
       db !! id = Some a
       /\ isAdmin user = false
       /\ Assignment.isActive a = true
       /\ (forall sub, sub ∈ Assignment.submissions a ->
                       Submission.student sub <> _id user)
       /\ fileTypeError extname a file = None
       /\ submit extname env user id file body db
          = (created (newSubmission extname env user file body),
             <[id := Assignment.set_submissions
                       (Assignment.submissions a
                        ++ [Submission.ofFields (Js.freshId env)
                              (newSubmission extname env user file body)]) a]> db).
Proof.
  unfold submit.
  destruct (isAdmin user) eqn:Hadm; [left; by split|].
  destruct (db !! id) as [a|] eqn:Hdb; [|left; by split].
  destruct (Assignment.isActive a) eqn:Hact; simpl; [|left; by split].
  case_bool_decide as Hex; [left; by split|].
  destruct (fileTypeError extname a file) as [m|] eqn:Hft; [left; by split|].
  destruct (_ && _) eqn:Hurl; [left; by split|].
  right. exists a. repeat split; try done.
  intros sub Hin Hst. apply Hex, find_is_Some.
  exists sub. split; [done|]. by apply equals_true.
Qed.

Lemma submit_duplicate (env : Js.Env) (user : User) (id : ObjectId)
  (file : option File) (body : SubmitBody) (db : Assignments) (a : Assignment.t) :
  isAdmin user = false ->
  db !! id = Some a ->
  Assignment.isActive a = true ->
  (exists sub, sub ∈ Assignment.submissions a /\ Submission.student sub = _id user) ->
  submit extname env user id file body db
  = (fail Validation "You have already submitted this assignment", db).
Proof.
  intros Hadm Hdb Hact (sub & Hin & Hst). unfold submit.
  rewrite Hadm, Hdb, Hact. simpl.
  rewrite bool_decide_eq_true_2; [done|].
  apply find_is_Some. exists sub. split; [done|]. by apply equals_true.
Qed.

Lemma submit_keeps_submitted (s id : ObjectId) (r : SubmitRequest) (db : Assignments) :
  Spec.submitted s id db -> Spec.submitted s id (submitRequest extname r db).2.
Proof.
  intros (a & Hdb & Hact & sub & Hin & Hst). unfold submitRequest.
  destruct (submit_cases (sr_env r) (sr_user r) (sr_id r) (sr_file r) (sr_body r) db)
    as [[-> _]|(a' & Hdb' & _ & _ & _ & _ & ->)].
  { exists a. eauto. }
  simpl. destruct (decide (sr_id r = id)) as [E|Hne].
  - rewrite E in *. rewrite Hdb in Hdb'. injection Hdb' as <-.
    eexists. rewrite lookup_insert_eq. split; [done|]. split; [done|].
    exists sub. split; [|done]. simpl. apply elem_of_app. by left.
  - exists a. rewrite lookup_insert_ne by done. eauto.
Qed.

Lemma runSubmits_keeps_submitted (s id : ObjectId) (rs : list SubmitRequest)
  (db : Assignments) :
  Spec.submitted s id db -> Spec.submitted s id (runSubmits extname rs db).
Proof.
  revert db. induction rs as [|r rs IH]; intros db H; [done|].
  unfold runSubmits. simpl. apply IH. by apply submit_keeps_submitted.
Qed.

Lemma submit_keeps_invariant (r : SubmitRequest) (db : Assignments) :
  Spec.allOneSubmissionPerStudent db ->
  Spec.allOneSubmissionPerStudent (submitRequest extname r db).2.
Proof.
  intros Hinv. unfold submitRequest.
  destruct (submit_cases (sr_env r) (sr_user r) (sr_id r) (sr_file r) (sr_body r) db)
    as [[-> _]|(a & Hdb & _ & _ & Hnone & _ & ->)]; [done|].
  simpl. intros id' a' Hl. destruct (decide (sr_id r = id')) as [<-|Hne].
  - rewrite lookup_insert_eq in Hl. injection Hl as <-.
    unfold Spec.oneSubmissionPerStudent. simpl. rewrite fmap_app.
    apply NoDup_app. split; [by apply (Hinv _ _ Hdb)|]. split.
    + intros x Hx Hx'. simpl in Hx'. apply list_elem_of_singleton in Hx'. subst x.
      apply list_elem_of_fmap in Hx as (sub & E & Hin).
      by apply (Hnone sub Hin).
    + apply NoDup_singleton.
  - rewrite lookup_insert_ne in Hl by done. by apply (Hinv _ _ Hl).
Qed.

Lemma runSubmits_keeps_invariant (rs : list SubmitRequest) (db : Assignments) :
  Spec.allOneSubmissionPerStudent db ->
  Spec.allOneSubmissionPerStudent (runSubmits extname rs db).
Proof.
  revert db. induction rs as [|r rs IH]; intros db H; [done|].
  unfold runSubmits. simpl. apply IH. by apply submit_keeps_invariant.
Qed.

Lemma filter_none {A : Type} (P : A -> Prop) `{forall x, Decision (P x)} (l : list A) :
  (forall x, x ∈ l -> ~ P x) -> filter P l = [].
Proof.
  induction l as [|x l IH]; intros Hl; [done|].
  rewrite filter_cons_False by (apply Hl; apply list_elem_of_here).
  apply IH. intros y Hy. apply Hl. by apply list_elem_of_further.
Qed.

End SubmitFacts.

Section SubmitClaims.

Import AssignmentsRouter.

Variable extname : string -> string.

(** C1.  After a successful submit by student S to the assignment stored
    under [id], exactly one submission with student reference S exists in
    that assignment; after any further run of submit requests, every
    submit attempt by S (as a caller without administrative authority) to
    that assignment fails with Validation, "You have already submitted
    this assignment", and leaves the collection, hence the assignment's
    submission sequence, as it was.  Moreover a run of submit requests
    keeps every assignment at one submission per student reference at
    most, so this holds of every assignment reached from assignments
    without submissions. *)
Theorem submit_once_per_student
  (env : Js.Env) (S : User) (id : ObjectId) (file : option File)
  (body : SubmitBody) (db : Assignments) :
  status (submit extname env S id file body db).1 = 201%N ->
  let db1 := (submit extname env S id file body db).2 in
  (exists A', db1 !! id = Some A' /\ Spec.submissionsOf (_id S) A' = 1)
  /\ (forall (rs : list SubmitRequest) (env' : Js.Env) (S' : User)
             (file' : option File) (body' : SubmitBody),
        _id S' = _id S -> role S' <> "admin" ->
        let db2 := runSubmits extname rs db1 in
        submit extname env' S' id file' body' db2
        = (fail Validation "You have already submitted this assignment", db2))
  /\ (forall (db0 : Assignments) (rs : list SubmitRequest),
        Spec.allOneSubmissionPerStudent db0 ->
        Spec.allOneSubmissionPerStudent (runSubmits extname rs db0))
  /\ (forall (db0 : Assignments) (rs : list SubmitRequest),
        (forall i a, db0 !! i = Some a -> Assignment.submissions a = []) ->
        Spec.allOneSubmissionPerStudent (runSubmits extname rs db0)).
Proof.
  intros Hs db1.
  destruct (submit_cases extname env S id file body db)
    as [[_ Hne]|(A & Hdb & Hadm & Hact & Hnone & _ & Heq)]; [done|].
  assert (db1 = <[id := Assignment.set_submissions
                          (Assignment.submissions A
                           ++ [Submission.ofFields (Js.freshId env)
                                 (newSubmission extname env S file body)]) A]> db)
    as Hdb1 by (unfold db1; by rewrite Heq).
  split; [|split; [|split]].
  - eexists. split; [rewrite Hdb1; apply lookup_insert_eq|].
    unfold Spec.submissionsOf. simpl. rewrite filter_app.
    rewrite (filter_none _ (Assignment.submissions A)) by done.
    by rewrite filter_cons_True by reflexivity.
  - intros rs env' S' file' body' Hid Hrole db2.
    assert (Spec.submitted (_id S) id db2) as (A2 & Hdb2 & Hact2 & Hsub).
    { apply runSubmits_keeps_submitted. eexists.
      split; [rewrite Hdb1; apply lookup_insert_eq|]. split; [done|].
      eexists. split; [apply elem_of_app; right; apply list_elem_of_here | done]. }
    apply (submit_duplicate extname _ _ _ _ _ _ A2); try done.
    + by apply isAdmin_false.
    + by rewrite Hid.
  - intros db0 rs. apply runSubmits_keeps_invariant.
  - intros db0 rs Hempty. apply runSubmits_keeps_invariant.
    intros i a Hl. unfold Spec.oneSubmissionPerStudent.
    rewrite (Hempty i a Hl). apply NoDup_nil_2.
Qed.

(** The validation of lines 171-185 on a file, when the assignment takes
    files and declares allowed extensions: it fails exactly when the
    lower-cased extension is not an entry of the allowed set. *)
Lemma fileTypeError_file (A : Assignment.t) (f : File) :
  Assignment.fileType A <> "any" ->
  Assignment.fileType A <> "url" ->
  Assignment.allowedExtensions A <> [] ->
  fileTypeError extname A (Some f)
  = if Js.includes (Assignment.allowedExtensions A)
                   (Js.toLowerCase (extname (originalname f)))
    then None
    else Some ("File type not allowed. Allowed types: "
               +:+ Js.join ", " (Assignment.allowedExtensions A)).
Proof.
  intros Hany Hurl Hne. unfold fileTypeError.
  rewrite (bool_decide_eq_false_2 _ Hany), (bool_decide_eq_false_2 _ Hurl). simpl.
  rewrite bool_decide_eq_true_2.
  - by destruct (Js.includes _ _).
  - destruct (Assignment.allowedExtensions A); [done | simpl; lia].
Qed.

(** An extension that is no member of the set when compared
    case-insensitively is, lower-cased, no entry of the set. *)
Lemma not_memberCI_not_included (ext : string) (allowed : list string) :
  ~ Spec.memberCI ext allowed -> Js.includes allowed (Js.toLowerCase ext) = false.
Proof.
  intros H. apply includes_false. intros Hin. apply H.
  exists (Js.toLowerCase ext). split; [done | apply toLowerCase_idem].
Qed.

Lemma submit_fileTypeError (env : Js.Env) (C : User) (id : ObjectId)
  (file : option File) (body : SubmitBody) (A : Assignment.t) (db : Assignments)
  (message : string) :
  role C <> "admin" ->
  db !! id = Some A ->
  Assignment.isActive A = true ->
  (forall sub, sub ∈ Assignment.submissions A -> Submission.student sub <> _id C) ->
  fileTypeError extname A file = Some message ->
  submit extname env C id file body db = (fail Validation message, db).
Proof.
  intros Hadm Hdb Hact Hnone Hft. unfold submit.
  apply isAdmin_false in Hadm. rewrite Hadm, Hdb, Hact. simpl.
  rewrite bool_decide_eq_false_2.
  - by rewrite Hft.
  - intros Hs. apply find_is_Some in Hs as (sub & Hin & Hst).
    apply equals_true in Hst. by apply (Hnone sub Hin).
Qed.

(** C4.  For a submit by a caller without administrative authority to an
    existing, active assignment that has no submission of the caller and
    whose submission mode is neither [any] nor [url]: without a file the
    submit fails with Validation, "File is required for this assignment";
    with a file, when the allowed-extension set is not empty and the
    file's extension, compared case-insensitively, is no member of it, the
    submit fails with Validation and a message that ends in the allowed
    set joined by ", ", so that every allowed extension occurs in it.  The
    collection is left as it was in both cases. *)
Theorem submit_file_validation
  (env : Js.Env) (C : User) (id : ObjectId) (file : option File)
  (body : SubmitBody) (A : Assignment.t) (db : Assignments) :
  role C <> "admin" ->
  db !! id = Some A ->
  Assignment.isActive A = true ->
  (forall sub, sub ∈ Assignment.submissions A -> Submission.student sub <> _id C) ->
  Assignment.fileType A <> "any" ->
  Assignment.fileType A <> "url" ->
  match file with
  | None =>
      submit extname env C id file body db
      = (fail Validation "File is required for this assignment", db)
  | Some f =>
      Assignment.allowedExtensions A <> [] ->
      ~ Spec.memberCI (extname (originalname f)) (Assignment.allowedExtensions A) ->
      submit extname env C id file body db
      = (fail Validation
           ("File type not allowed. Allowed types: "
            +:+ Js.join ", " (Assignment.allowedExtensions A)), db)
      /\ forall e, e ∈ Assignment.allowedExtensions A ->
                   Spec.occursIn e ("File type not allowed. Allowed types: "
                                    +:+ Js.join ", " (Assignment.allowedExtensions A))
  end.
Proof.
  intros Hadm Hdb Hact Hnone Hany Hurl. destruct file as [f|].
  - intros Hne Hmem. split.
    + apply (submit_fileTypeError _ _ _ _ _ A); try done.
      rewrite fileTypeError_file by done.
      by rewrite not_memberCI_not_included.
    + intros e He. by apply occursIn_prefix, join_occurs.
  - apply (submit_fileTypeError _ _ _ _ _ A); try done.
    unfold fileTypeError.
    by rewrite (bool_decide_eq_false_2 _ Hany), (bool_decide_eq_false_2 _ Hurl).
Qed.

(** C10.  For every caller with administrative authority and every
    assignment identifier, whether or not an assignment is stored under
    it, submit fails with Forbidden, "Admins cannot submit assignments":
    the answer is never NotFound and the collection is left as it was. *)
Theorem submit_admin_forbidden
  (env : Js.Env) (C : User) (id : ObjectId) (file : option File)
  (body : SubmitBody) (db : Assignments) :
  role C = "admin" ->
  submit extname env C id file body db
  = (fail Forbidden "Admins cannot submit assignments", db)
  /\ status (submit extname env C id file body db).1 <> NotFound
  /\ (submit extname env C id file body db).2 = db.
Proof.
  intros Hadm. apply isAdmin_true in Hadm.
  rewrite (submit_admin extname env C id file body db Hadm). by repeat split.
Qed.

End SubmitClaims.

Section SubmitWitnesses.

Import AssignmentsRouter.

Lemma submit_once_per_student_witness :
  let db1 := (submit Sample.fromLastDot Sample.env0 Sample.bob 20%N
                     (Some Sample.essayPdf) Sample.noBody Sample.assignments).2 in
  (exists A', db1 !! 20%N = Some A' /\ Spec.submissionsOf (_id Sample.bob) A' = 1)
  /\ (forall (rs : list SubmitRequest) (env' : Js.Env) (S' : User)
             (file' : option File) (body' : SubmitBody),
        _id S' = _id Sample.bob -> role S' <> "admin" ->
        let db2 := runSubmits Sample.fromLastDot rs db1 in
        submit Sample.fromLastDot env' S' 20%N file' body' db2
        = (fail Validation "You have already submitted this assignment", db2))
  /\ (forall (db0 : Assignments) (rs : list SubmitRequest),
        Spec.allOneSubmissionPerStudent db0 ->
        Spec.allOneSubmissionPerStudent (runSubmits Sample.fromLastDot rs db0))
  /\ (forall (db0 : Assignments) (rs : list SubmitRequest),
        (forall i a, db0 !! i = Some a -> Assignment.submissions a = []) ->
        Spec.allOneSubmissionPerStudent (runSubmits Sample.fromLastDot rs db0)).
Proof.
  apply (submit_once_per_student Sample.fromLastDot Sample.env0 Sample.bob 20%N
           (Some Sample.essayPdf) Sample.noBody Sample.assignments).
  vm_compute. reflexivity.
Defined.

Lemma submit_file_validation_witness :
  submit Sample.fromLastDot Sample.env0 Sample.bob 20%N
         (Some Sample.essayDocx) Sample.noBody Sample.assignments
  = (fail Validation
       ("File type not allowed. Allowed types: "
        +:+ Js.join ", " (Assignment.allowedExtensions Sample.essay)),
     Sample.assignments)
  /\ forall e, e ∈ Assignment.allowedExtensions Sample.essay ->
               Spec.occursIn e ("File type not allowed. Allowed types: "
                                +:+ Js.join ", " (Assignment.allowedExtensions Sample.essay)).
Proof.
  apply (submit_file_validation Sample.fromLastDot Sample.env0 Sample.bob 20%N
           (Some Sample.essayDocx) Sample.noBody Sample.essay Sample.assignments).
  - vm_compute. discriminate.
  - vm_compute. reflexivity.
  - reflexivity.
  - intros sub Hin. by apply elem_of_nil in Hin.
  - vm_compute. discriminate.
  - vm_compute. discriminate.
  - vm_compute. discriminate.
  - intros (a & Hin & E). apply list_elem_of_singleton in Hin. subst a.
    vm_compute in E. discriminate E.
Defined.

Lemma submit_admin_forbidden_witness :
  submit Sample.fromLastDot Sample.env0 Sample.admin 999%N None Sample.noBody
         Sample.assignments
  = (fail Forbidden "Admins cannot submit assignments", Sample.assignments)
  /\ status (submit Sample.fromLastDot Sample.env0 Sample.admin 999%N None
                    Sample.noBody Sample.assignments).1 <> NotFound
  /\ (submit Sample.fromLastDot Sample.env0 Sample.admin 999%N None
             Sample.noBody Sample.assignments).2 = Sample.assignments.
Proof.
  apply (submit_admin_forbidden Sample.fromLastDot Sample.env0 Sample.admin 999%N
           None Sample.noBody Sample.assignments).
  reflexivity.
Defined.

(** The scenario of the specification, run on the code: the [.docx] file
    is refused with a message naming [.pdf], the [.pdf] file is recorded
    with artifact kind [.pdf], and the second attempt is refused. *)
Lemma submit_scenario :
  let r1 := submit Sample.fromLastDot Sample.env0 Sample.bob 20%N
                   (Some Sample.essayDocx) Sample.noBody Sample.assignments in
  let r2 := submit Sample.fromLastDot Sample.env0 Sample.bob 20%N
                   (Some Sample.essayPdf) Sample.noBody r1.2 in
  let r3 := submit Sample.fromLastDot Sample.env1 Sample.bob 20%N
                   (Some Sample.essayPdf) Sample.noBody r2.2 in
  r1.1 = fail Validation "File type not allowed. Allowed types: .pdf"
  /\ status r2.1 = 201%N
  /\ (Submission.fileType <$>
        (Assignment.submissions <$> r2.2 !! 20%N) ≫= (fun l => l !! 0)) = Some ".pdf"
  /\ r3 = (fail Validation "You have already submitted this assignment", r2.2).
Proof. repeat split; vm_compute; reflexivity. Qed.

(** Only the file's extension is lower-cased; the entries of the allowed
    set are taken as they are stored.  With the entry [.PDF] the file
    [essay.pdf] is a member case-insensitively and is refused all the
    same. *)
Lemma submit_allowed_entries_verbatim :
  Spec.memberCI (Sample.fromLastDot (originalname Sample.essayPdf))
                (Assignment.allowedExtensions Sample.essayCapitals)
  /\ (submit Sample.fromLastDot Sample.env0 Sample.bob 20%N
              (Some Sample.essayPdf) Sample.noBody Sample.assignmentsCapitals).1
     = fail Validation "File type not allowed. Allowed types: .PDF".
Proof.
  split; [|vm_compute; reflexivity].
  exists ".PDF". split; [apply list_elem_of_here | vm_compute; reflexivity].
Qed.

End SubmitWitnesses.

(** ** Assignments: grading *)

Section GradeClaims.

Import AssignmentsRouter.

Variable denied : string.

Lemma gradeSubmission_admin (C : User) (id sid : ObjectId) (body : GradeBody)
  (db : Assignments) :
  role C = "admin" ->
  gradeSubmission denied C id sid body db = gradeHandler id sid body db.
Proof.
  intros H. apply isAdmin_true in H. unfold gradeSubmission, adminAuth. by rewrite H.
Qed.

Lemma submissionById_None (sid : ObjectId) (subs : list Submission.t) :
  (forall sub, sub ∈ subs -> Submission._id sub <> sid) ->
  submissionById sid subs = None.
Proof.
  intros H. unfold submissionById. apply list_find_None, Forall_forall. exact H.
Qed.

(** C5.  A grade request by a caller without administrative authority
    fails with Forbidden.  By an administrator it fails with NotFound when
    no assignment is stored under [id], and when no submission of the
    assignment has the identity [sid].  By an administrator, on a stored
    assignment that has a submission with identity [sid], it succeeds, and
    it answers with the first such submission, graded, and stores the
    assignment with that submission graded.  When it succeeds, the first
    submission with identity [sid], at position [i] of the assignment's
    sequence, has its grade and feedback set to those of the request and
    every other field kept; the sequence keeps its length and every other
    position; the assignment keeps its other fields and is stored back
    under [id]; the rest of the collection is as it was; and the graded
    submission is returned.  A failed request leaves the collection as it
    was. *)
Theorem grade_authority_and_effect
  (C : User) (id sid : ObjectId) (body : GradeBody) (db : Assignments) :
  (role C <> "admin" ->
   gradeSubmission denied C id sid body db = (fail Forbidden denied, db))
  /\ (role C = "admin" -> db !! id = None ->
      gradeSubmission denied C id sid body db
      = (fail NotFound "Assignment not found", db))
  /\ (role C = "admin" ->
      forall A, db !! id = Some A ->
      (forall sub, sub ∈ Assignment.submissions A -> Submission._id sub <> sid) ->
      gradeSubmission denied C id sid body db
      = (fail NotFound "Submission not found", db))
  /\ (status (gradeSubmission denied C id sid body db).1 <> 200%N ->
      (gradeSubmission denied C id sid body db).2 = db)
  /\ (status (gradeSubmission denied C id sid body db).1 = 200%N ->
      exists A A' i sub sub',
        role C = "admin"
        /\ db !! id = Some A
        /\ Assignment.submissions A !! i = Some sub
        /\ Submission._id sub = sid
        /\ (forall j s, Assignment.submissions A !! j = Some s -> j < i ->
                        Submission._id s <> sid)
        /\ gradeSubmission denied C id sid body db = (ok sub', <[id := A']> db)
        /\ Submission.grade sub' = grade body
        /\ Submission.feedback sub' = feedback body
        /\ Submission._id sub' = Submission._id sub
        /\ Submission.student sub' = Submission.student sub
        /\ Submission.submittedAt sub' = Submission.submittedAt sub
        /\ Submission.fileUrl sub' = Submission.fileUrl sub
        /\ Submission.fileName sub' = Submission.fileName sub
        /\ Submission.fileType sub' = Submission.fileType sub
        /\ Submission.comments sub' = Submission.comments sub
        /\ Assignment.submissions A' !! i = Some sub'
        /\ length (Assignment.submissions A') = length (Assignment.submissions A)
        /\ (forall j, j <> i ->
            Assignment.submissions A' !! j = Assignment.submissions A !! j)
        /\ Assignment.set_submissions (Assignment.submissions A) A' = A)
  /\ (role C = "admin" ->
      forall A sub, db !! id = Some A ->
      sub ∈ Assignment.submissions A -> Submission._id sub = sid ->
      status (gradeSubmission denied C id sid body db).1 = 200%N)
  /\ (role C = "admin" ->
      forall A i sub, db !! id = Some A ->
      Assignment.submissions A !! i = Some sub ->
      Submission._id sub = sid ->
      (forall j s, Assignment.submissions A !! j = Some s -> j < i ->
                   Submission._id s <> sid) ->
      gradeSubmission denied C id sid body db
      = (ok (Submission.setGrade (grade body) (feedback body) sub),
         <[id := Assignment.set_submissions
                   (<[i := Submission.setGrade (grade body) (feedback body) sub]>
                      (Assignment.submissions A)) A]> db)).
Proof.
  split; [|split; [|split; [|split; [|split; [|split]]]]].
  - intros H. apply isAdmin_false in H. unfold gradeSubmission, adminAuth.
    by rewrite H.
  - intros Hadm Hdb. rewrite (gradeSubmission_admin _ _ _ _ _ Hadm).
    unfold gradeHandler. by rewrite Hdb.
  - intros Hadm A Hdb Hnone. rewrite (gradeSubmission_admin _ _ _ _ _ Hadm).
    unfold gradeHandler. by rewrite Hdb, (submissionById_None _ _ Hnone).
  - unfold gradeSubmission, adminAuth, gradeHandler.
    destruct (isAdmin C); [|done].
    destruct (db !! id) as [A|]; [|done].
    destruct (submissionById sid (Assignment.submissions A)) as [[i sub]|]; done.
  - unfold gradeSubmission, adminAuth, gradeHandler.
    destruct (isAdmin C) eqn:Hadm; [|done].
    destruct (db !! id) as [A|] eqn:Hdb; [|done].
    destruct (submissionById sid (Assignment.submissions A)) as [[i sub]|] eqn:Hfind;
      [|done].
    intros _. apply list_find_Some in Hfind as (Hi & Hsid & Hfirst).
    exists A, (Assignment.set_submissions
                 (<[i := Submission.setGrade (grade body) (feedback body) sub]>
                    (Assignment.submissions A)) A),
           i, sub, (Submission.setGrade (grade body) (feedback body) sub).
    apply isAdmin_true in Hadm.
    repeat split; try done.
    + simpl. apply list_lookup_insert_eq. by apply lookup_lt_Some in Hi.
    + simpl. apply length_insert.
    + intros j Hj. simpl. by apply list_lookup_insert_ne.
    + by destruct A.
  - intros Hadm A sub Hdb Hin Hsid. rewrite (gradeSubmission_admin _ _ _ _ _ Hadm).
    unfold gradeHandler. rewrite Hdb.
    destruct (submissionById sid (Assignment.submissions A)) as [[i s]|] eqn:Hfind;
      [done|].
    exfalso. apply list_find_None in Hfind. rewrite Forall_forall in Hfind.
    by apply (Hfind sub Hin).
  - intros Hadm A i sub Hdb Hi Hsid Hfirst.
    rewrite (gradeSubmission_admin _ _ _ _ _ Hadm). unfold gradeHandler. rewrite Hdb.
    assert (submissionById sid (Assignment.submissions A) = Some (i, sub)) as ->; [|done].
    apply list_find_Some. split; [done|]. split; [done|].
    intros j s Hj Hlt. by apply (Hfirst j s).
Qed.

End GradeClaims.

Section GradeWitness.

Import AssignmentsRouter.

(** The theorem at a concrete store: the administrator grades bob's essay,
    a student may not, and an unknown submission is not found. *)
Lemma grade_scenario :
  gradeSubmission "Access denied" Sample.admin 20%N 500%N Sample.fullMarks Sample.handedIn
  = (ok (Submission.setGrade (Some 100%Z) (Some "Well argued") Sample.essayOfBob),
     {[ 20%N := Assignment.set_submissions
                  [Submission.setGrade (Some 100%Z) (Some "Well argued") Sample.essayOfBob]
                  Sample.essay ]})
  /\ status (gradeSubmission "Access denied" Sample.alice 20%N 500%N
                             Sample.fullMarks Sample.handedIn).1 = Forbidden
  /\ status (gradeSubmission "Access denied" Sample.admin 20%N 501%N
                             Sample.fullMarks Sample.handedIn).1 = NotFound
  /\ status (gradeSubmission "Access denied" Sample.admin 21%N 500%N
                             Sample.fullMarks Sample.handedIn).1 = NotFound.
Proof. repeat split; vm_compute; reflexivity. Qed.

End GradeWitness.

Section GradeWitnesses.

Import AssignmentsRouter.

Lemma grade_authority_and_effect_witness :
  gradeSubmission "Access denied" Sample.admin 20%N 500%N Sample.fullMarks
                  Sample.handedIn
  = (ok (Submission.setGrade (grade Sample.fullMarks) (feedback Sample.fullMarks)
                             Sample.essayOfBob),
     <[20%N := Assignment.set_submissions
                 (<[0 := Submission.setGrade (grade Sample.fullMarks)
                                             (feedback Sample.fullMarks)
                                             Sample.essayOfBob]>
                    (Assignment.submissions Sample.essayHandedIn))
                 Sample.essayHandedIn]> Sample.handedIn)
  /\ status (gradeSubmission "Access denied" Sample.admin 20%N 500%N
                             Sample.fullMarks Sample.handedIn).1 = 200%N
  /\ gradeSubmission "Access denied" Sample.alice 20%N 500%N Sample.fullMarks
                     Sample.handedIn
     = (fail Forbidden "Access denied", Sample.handedIn).
Proof.
  destruct (grade_authority_and_effect "Access denied" Sample.admin 20%N 500%N
              Sample.fullMarks Sample.handedIn)
    as (_ & _ & _ & _ & _ & Hsucceeds & Hgrades).
  split; [|split].
  - apply (Hgrades eq_refl Sample.essayHandedIn 0 Sample.essayOfBob).
    + vm_compute. reflexivity.
    + reflexivity.
    + reflexivity.
    + intros j s _ Hlt. lia.
  - apply (Hsucceeds eq_refl Sample.essayHandedIn Sample.essayOfBob).
    + vm_compute. reflexivity.
    + apply list_elem_of_here.
    + reflexivity.
  - apply (grade_authority_and_effect "Access denied" Sample.alice 20%N 500%N
             Sample.fullMarks Sample.handedIn).
    vm_compute. discriminate.
Defined.

End GradeWitnesses.

(** ** Courses: enrolling *)

Section EnrollFacts.

Import CoursesRouter.

(** What an enroll request can do: it fails and leaves the collection as
    it is, or it succeeds on an active course whose roster does not hold
    the caller and is strictly below capacity, and appends the caller to
    that roster. *)
Lemma enroll_cases (user : User) (id : ObjectId) (db : Courses) :
  ((enroll user id db).2 = db /\ status (enroll user id db).1 <> 200%N)
  \/ exists c,
       db !! id = Some c
       /\ Course.isActive c = true
       /\ (_id user ∉ Course.students c)
       /\ (Z.of_nat (length (Course.students c)) < Course.maxStudents c)%Z
       /\ enroll user id db
          = (mkResponse 200 (Message "Enrolled successfully"),
             <[id := Course.set_students (Course.students c ++ [_id user]) c]> db).
Proof.
  unfold enroll.
  destruct (db !! id) as [c|] eqn:Hdb; [|left; by split].
  destruct (Course.isActive c) eqn:Hact; simpl; [|left; by split].
  destruct (Js.includes (Course.students c) (_id user)) eqn:Hinc; [left; by split|].
  case_bool_decide as Hfull; [left; by split|].
  right. exists c. repeat split; try done.
  - by apply includes_false.
  - lia.
Qed.






End EnrollFacts.

Section EnrollClaims.

Import CoursesRouter.



(** A course with room for two: bob and carol enroll, bob's second request
    and alice's request on the full course are refused, and the roster
    stays at two. *)
Lemma enroll_scenario :
  let db := runEnrolls [(Sample.bob, 30%N); (Sample.carol, 30%N)] Sample.courses in
  Course.students <$> db !! 30%N = Some [2%N; 3%N]
  /\ enroll Sample.bob 30%N db
     = (fail Validation "Already enrolled in this course", db)
  /\ enroll Sample.alice 30%N db = (fail Validation "Course is full", db).
Proof. repeat split; vm_compute; reflexivity. Qed.

End EnrollClaims.

(** ** Further properties of the notes router *)

Section NotesLifecycleFacts.

Import NotesRouter NotesLifecycle.

Lemma note_set_comments_same (n : Note.t) : Note.set_comments (Note.comments n) n = n.
Proof. by destruct n. Qed.

Lemma note_set_viewCount_same (n : Note.t) : Note.set_viewCount (Note.viewCount n) n = n.
Proof. by destruct n. Qed.

(** The guard of the two comment-moderation routes and of note deletion:
    it lets through administrators and the owner. *)
Lemma ownerGuard (C : User) (owner : ObjectId) :
  negb (isAdmin C) && negb (equals owner (_id C)) = false
  <-> role C = "admin" \/ owner = _id C.
Proof.
  rewrite andb_false_iff, !negb_false_iff, isAdmin_true, equals_true. tauto.
Qed.

(** X1.  Deleting a stored note succeeds exactly for an administrator or
    the note's author.  It then removes that note and leaves every other
    note as it was; otherwise it answers Forbidden, "Access denied", and
    leaves the store as it was.  In particular an [edit] entry of the
    access list, which allows updating, does not allow deleting. *)
Theorem deleteNote_gated (C : User) (id : ObjectId) (N : Note.t) (db : Notes) :
  db !! id = Some N ->
  (status (deleteNote C id db).1 = 200%N
   <-> role C = "admin" \/ Note.author N = _id C)
  /\ (status (deleteNote C id db).1 = 200%N ->
      (deleteNote C id db).2 !! id = None
      /\ forall id', id' <> id -> (deleteNote C id db).2 !! id' = db !! id')
  /\ (status (deleteNote C id db).1 <> 200%N ->
      deleteNote C id db = (fail Forbidden "Access denied", db))
  /\ (role C <> "admin" -> Note.author N <> _id C ->
      hasAccess C N = true ->
      deleteNote C id db = (fail Forbidden "Access denied", db)).
Proof.
  intros Hdb. unfold deleteNote. rewrite Hdb.
  destruct (negb (isAdmin C) && negb (equals (Note.author N) (_id C))) eqn:G.
  - assert (~ (role C = "admin" \/ Note.author N = _id C)) as Hno.
    { rewrite <- ownerGuard. by rewrite G. }
    simpl. split; [|split; [|split]]; try done.
  - apply ownerGuard in G as Hyes. simpl. split; [|split; [|split]]; try done.
    + intros _. split; [apply lookup_delete_eq|].
      intros id' Hne. by apply lookup_delete_ne.
    + intros Hadm Hauth. tauto.
Qed.

Lemma deleteNote_gated_witness :
  (status (deleteNote Sample.bob 11%N Sample.notes).1 = 200%N
   <-> role Sample.bob = "admin" \/ Note.author Sample.series = _id Sample.bob)
  /\ (status (deleteNote Sample.bob 11%N Sample.notes).1 = 200%N ->
      (deleteNote Sample.bob 11%N Sample.notes).2 !! 11%N = None
      /\ forall id', id' <> 11%N ->
                     (deleteNote Sample.bob 11%N Sample.notes).2 !! id'
                     = Sample.notes !! id')
  /\ (status (deleteNote Sample.bob 11%N Sample.notes).1 <> 200%N ->
      deleteNote Sample.bob 11%N Sample.notes
      = (fail Forbidden "Access denied", Sample.notes))
  /\ (role Sample.bob <> "admin" -> Note.author Sample.series <> _id Sample.bob ->
      hasAccess Sample.bob Sample.series = true ->
      deleteNote Sample.bob 11%N Sample.notes
      = (fail Forbidden "Access denied", Sample.notes)).
Proof.
  apply (deleteNote_gated Sample.bob 11%N Sample.series Sample.notes).
  vm_compute. reflexivity.
Defined.

(** X2.  Once a note has been deleted, every later request on its
    identity, by any caller, answers NotFound, "Note not found", and
    changes nothing: reading, updating, commenting, moderating a comment
    and deleting again. *)
Theorem deleted_note_not_found
  (C D : User) (id : ObjectId) (db : Notes) (env : Js.Env)
  (body : Note.Patch) (content : string) (commentId : ObjectId) :
  status (deleteNote C id db).1 = 200%N ->
  let db1 := (deleteNote C id db).2 in
  getNote D id db1 = (fail NotFound "Note not found", db1)
  /\ updateNote D id body db1 = (fail NotFound "Note not found", db1)
  /\ addComment env D id content db1 = (fail NotFound "Note not found", db1)
  /\ updateComment env D id commentId content db1
     = (fail NotFound "Note not found", db1)
  /\ deleteComment D id commentId db1 = (fail NotFound "Note not found", db1)
  /\ deleteNote D id db1 = (fail NotFound "Note not found", db1).
Proof.
  intros Hs db1.
  assert (db1 !! id = None) as Hgone.
  { unfold db1. unfold deleteNote in *. destruct (db !! id) as [N|] eqn:Hdb; [|done].
    destruct (_ && _); [done|]. apply lookup_delete_eq. }
  unfold getNote, updateNote, addComment, updateComment, deleteComment, deleteNote.
  rewrite Hgone. by repeat split.
Qed.

Lemma deleted_note_not_found_witness :
  let db1 := (deleteNote Sample.admin 10%N Sample.notes).2 in
  getNote Sample.bob 10%N db1 = (fail NotFound "Note not found", db1)
  /\ updateNote Sample.bob 10%N Sample.retitle db1
     = (fail NotFound "Note not found", db1)
  /\ addComment Sample.env0 Sample.bob 10%N "Thanks" db1
     = (fail NotFound "Note not found", db1)
  /\ updateComment Sample.env0 Sample.bob 10%N 700%N "Thanks" db1
     = (fail NotFound "Note not found", db1)
  /\ deleteComment Sample.bob 10%N 700%N db1 = (fail NotFound "Note not found", db1)
  /\ deleteNote Sample.bob 10%N db1 = (fail NotFound "Note not found", db1).
Proof.
  apply (deleted_note_not_found Sample.admin Sample.bob 10%N Sample.notes
           Sample.env0 Sample.retitle "Thanks" 700%N).
  vm_compute. reflexivity.
Defined.

(** X3.  Updating takes the whole request body, so a caller who may
    update a note may hand it to itself: after an update whose body sets
    [author] to the caller, the caller's delete succeeds and the note is
    gone, although the same delete is refused before the update when the
    caller is neither administrator nor author. *)
Theorem editor_can_take_over_and_delete
  (C : User) (id : ObjectId) (body : Note.Patch) (N : Note.t) (db : Notes) :
  db !! id = Some N ->
  hasAccess C N = true ->
  Note.p_author body = Some (_id C) ->
  let db1 := (updateNote C id body db).2 in
  status (deleteNote C id db1).1 = 200%N
  /\ (deleteNote C id db1).2 !! id = None
  /\ (role C <> "admin" -> Note.author N <> _id C ->
      deleteNote C id db = (fail Forbidden "Access denied", db)).
Proof.
  intros Hdb Hacc Hbody db1.
  assert (db1 !! id = Some (Note.applyPatch body N)) as Hl.
  { unfold db1, updateNote. rewrite Hdb, Hacc. simpl. apply lookup_insert_eq. }
  assert (negb (isAdmin C)
          && negb (equals (Note.author (Note.applyPatch body N)) (_id C)) = false) as G.
  { apply ownerGuard. right. simpl. by rewrite Hbody. }
  unfold deleteNote at 1 2. rewrite Hl, G. simpl. split; [done|]. split.
  - apply lookup_delete_eq.
  - intros Hadm Hauth. unfold deleteNote. rewrite Hdb.
    destruct (negb (isAdmin C) && negb (equals (Note.author N) (_id C))) eqn:G';
      [done|].
    apply ownerGuard in G'. destruct G' as [?|?]; done.
Qed.

Lemma editor_can_take_over_and_delete_witness :
  let db1 := (updateNote Sample.bob 11%N Sample.takeOver Sample.notes).2 in
  status (deleteNote Sample.bob 11%N db1).1 = 200%N
  /\ (deleteNote Sample.bob 11%N db1).2 !! 11%N = None
  /\ (role Sample.bob <> "admin" -> Note.author Sample.series <> _id Sample.bob ->
      deleteNote Sample.bob 11%N Sample.notes
      = (fail Forbidden "Access denied", Sample.notes)).
Proof.
  apply (editor_can_take_over_and_delete Sample.bob 11%N Sample.takeOver
           Sample.series Sample.notes).
  - vm_compute. reflexivity.
  - vm_compute. reflexivity.
  - reflexivity.
Defined.

End NotesLifecycleFacts.

Section CommentFacts.

Import NotesRouter NotesLifecycle.

Lemma commentById_Some (cid : ObjectId) (cs : list Comment.t) (i : nat) (c : Comment.t) :
  commentById cid cs = Some (i, c) ->
  cs !! i = Some c /\ Comment._id c = cid
  /\ forall j c', cs !! j = Some c' -> j < i -> Comment._id c' <> cid.
Proof. intros H. by apply list_find_Some in H. Qed.

Lemma commentById_None (cid : ObjectId) (cs : list Comment.t) :
  commentById cid cs = None <-> forall c, c ∈ cs -> Comment._id c <> cid.
Proof. unfold commentById. by rewrite list_find_None, Forall_forall. Qed.

(** Dropping the entries that share the key of one entry of a list whose
    keys are pairwise distinct shortens the list by one. *)
Lemma filter_other_keys_length {A K : Type} `{EqDecision K} (f : A -> K)
  (l : list A) (x : A) :
  NoDup (f <$> l) -> x ∈ l ->
  length (filter (fun y => f y <> f x) l) + 1 = length l.
Proof.
  induction l as [|y l IH]; intros Hnd Hin; [by apply elem_of_nil in Hin|].
  rewrite fmap_cons in Hnd. apply NoDup_cons in Hnd as [Hy Hnd].
  destruct (decide (f y = f x)) as [E|E].
  - rewrite filter_cons_False by (intros H; by apply H).
    assert (filter (fun z => f z <> f x) l = l) as ->; [|simpl; lia].
    clear IH Hin. induction l as [|z l IH]; [done|].
    rewrite fmap_cons in Hy, Hnd. apply not_elem_of_cons in Hy as [Hz Hy].
    apply NoDup_cons in Hnd as [_ Hnd].
    rewrite filter_cons_True by congruence. f_equal. by apply IH.
  - rewrite filter_cons_True by done. simpl.
    apply elem_of_cons in Hin as [->|Hin]; [done|].
    specialize (IH Hnd Hin). lia.
Qed.

(** X4.  Updating a comment of a stored note succeeds exactly for an
    administrator or the comment's author; otherwise it answers Forbidden
    and changes nothing.  On success only the content and the update time
    of that comment change: its identity, author and creation time, the
    other comments, their order and number, and the rest of the note stay
    as they were, and the updated comment is returned. *)
Theorem updateComment_moderated
  (env : Js.Env) (C : User) (id cid : ObjectId) (content : string)
  (N : Note.t) (db : Notes) (i : nat) (c : Comment.t) :
  db !! id = Some N ->
  commentById cid (Note.comments N) = Some (i, c) ->
  (status (updateComment env C id cid content db).1 = 200%N
   <-> role C = "admin" \/ Comment.user c = _id C)
  /\ (status (updateComment env C id cid content db).1 <> 200%N ->
      updateComment env C id cid content db = (fail Forbidden "Access denied", db))
  /\ (status (updateComment env C id cid content db).1 = 200%N ->
      exists N' c',
        updateComment env C id cid content db = (ok c', <[id := N']> db)
        /\ Comment.content c' = content
        /\ Comment.updatedAt c' = Js.now env
        /\ Comment._id c' = Comment._id c
        /\ Comment.user c' = Comment.user c
        /\ Comment.createdAt c' = Comment.createdAt c
        /\ Note.comments N' !! i = Some c'
        /\ length (Note.comments N') = length (Note.comments N)
        /\ (forall j, j <> i -> Note.comments N' !! j = Note.comments N !! j)
        /\ Note.set_comments (Note.comments N) N' = N).
Proof.
  intros Hdb Hfind. unfold updateComment. rewrite Hdb, Hfind.
  apply commentById_Some in Hfind as (Hi & _ & _).
  destruct (negb (isAdmin C) && negb (equals (Comment.user c) (_id C))) eqn:G.
  - assert (~ (role C = "admin" \/ Comment.user c = _id C)) as Hno.
    { rewrite <- ownerGuard. by rewrite G. }
    simpl. split; [|split]; done.
  - apply ownerGuard in G as Hyes. simpl. split; [|split]; try done.
    intros _. eexists _, _. split; [reflexivity|]. simpl.
    repeat split; try done.
    + apply list_lookup_insert_eq. by apply lookup_lt_Some in Hi.
    + apply length_insert.
    + intros j Hj. by apply list_lookup_insert_ne.
    + by destruct N.
Qed.

Lemma updateComment_moderated_witness :
  (status (updateComment Sample.env0 Sample.carol 13%N 701%N "Longer" Sample.forum).1
   = 200%N
   <-> role Sample.carol = "admin" \/ Comment.user Sample.secondComment = _id Sample.carol)
  /\ (status (updateComment Sample.env0 Sample.carol 13%N 701%N "Longer"
                            Sample.forum).1 <> 200%N ->
      updateComment Sample.env0 Sample.carol 13%N 701%N "Longer" Sample.forum
      = (fail Forbidden "Access denied", Sample.forum))
  /\ (status (updateComment Sample.env0 Sample.carol 13%N 701%N "Longer"
                            Sample.forum).1 = 200%N ->
      exists N' c',
        updateComment Sample.env0 Sample.carol 13%N 701%N "Longer" Sample.forum
        = (ok c', <[13%N := N']> Sample.forum)
        /\ Comment.content c' = "Longer"
        /\ Comment.updatedAt c' = Js.now Sample.env0
        /\ Comment._id c' = Comment._id Sample.secondComment
        /\ Comment.user c' = Comment.user Sample.secondComment
        /\ Comment.createdAt c' = Comment.createdAt Sample.secondComment
        /\ Note.comments N' !! 1 = Some c'
        /\ length (Note.comments N') = length (Note.comments Sample.discussed)
        /\ (forall j, j <> 1 ->
            Note.comments N' !! j = Note.comments Sample.discussed !! j)
        /\ Note.set_comments (Note.comments Sample.discussed) N' = Sample.discussed).
Proof.
  apply (updateComment_moderated Sample.env0 Sample.carol 13%N 701%N "Longer"
           Sample.discussed Sample.forum 1 Sample.secondComment).
  - vm_compute. reflexivity.
  - vm_compute. reflexivity.
Defined.

(** X5.  Deleting a comment of a stored note succeeds exactly for an
    administrator or the comment's author; otherwise it answers Forbidden
    and changes nothing.  On success the comments that remain are those
    with another identity, in their former order, the rest of the note is
    as it was, a second delete of that comment answers NotFound, "Comment
    not found", and when the comments' identities are pairwise distinct
    exactly one comment has gone. *)
Theorem deleteComment_moderated
  (C D : User) (id cid : ObjectId) (N : Note.t) (db : Notes) (i : nat) (c : Comment.t) :
  db !! id = Some N ->
  commentById cid (Note.comments N) = Some (i, c) ->
  (status (deleteComment C id cid db).1 = 200%N
   <-> role C = "admin" \/ Comment.user c = _id C)
  /\ (status (deleteComment C id cid db).1 <> 200%N ->
      deleteComment C id cid db = (fail Forbidden "Access denied", db))
  /\ (status (deleteComment C id cid db).1 = 200%N ->
      exists N',
        (deleteComment C id cid db).2 = <[id := N']> db
        /\ Note.set_comments (Note.comments N) N' = N
        /\ (forall c', c' ∈ Note.comments N'
                       <-> c' ∈ Note.comments N /\ Comment._id c' <> cid)
        /\ Note.comments N' `sublist_of` Note.comments N
        /\ (NoDup (Comment._id <$> Note.comments N) ->
            length (Note.comments N') + 1 = length (Note.comments N))
        /\ deleteComment D id cid (deleteComment C id cid db).2
           = (fail NotFound "Comment not found", (deleteComment C id cid db).2)).
Proof.
  intros Hdb Hfind.
  destruct (negb (isAdmin C) && negb (equals (Comment.user c) (_id C))) eqn:G.
  - assert (deleteComment C id cid db = (fail Forbidden "Access denied", db)) as E.
    { unfold deleteComment. by rewrite Hdb, Hfind, G. }
    assert (~ (role C = "admin" \/ Comment.user c = _id C)) as Hno.
    { rewrite <- ownerGuard. by rewrite G. }
    rewrite E. simpl. split; [|split]; done.
  - set (N1 := Note.set_comments
                 (filter (fun c' => Comment._id c' <> Comment._id c) (Note.comments N))
                 N).
    assert (deleteComment C id cid db
            = (mkResponse 200 (Message "Comment deleted successfully"),
               <[id := N1]> db)) as E.
    { unfold deleteComment. by rewrite Hdb, Hfind, G. }
    apply commentById_Some in Hfind as (Hi & Hcid & _).
    apply ownerGuard in G as Hyes. rewrite E. simpl. split; [|split]; try done.
    intros _. exists N1. split; [reflexivity|].
    split; [by destruct N|]. split; [|split; [|split]].
    + intros c'. unfold N1. simpl. rewrite list_elem_of_filter, Hcid. tauto.
    + apply sublist_filter.
    + intros Hnd. apply (filter_other_keys_length Comment._id); [done|].
      by apply list_elem_of_lookup_2 in Hi.
    + unfold deleteComment. rewrite lookup_insert_eq.
      assert (commentById cid (Note.comments N1) = None) as ->; [|done].
      apply commentById_None. intros c' Hc'.
      apply list_elem_of_filter in Hc' as [Hne _]. by rewrite <- Hcid.
Qed.

Lemma deleteComment_moderated_witness :
  (status (deleteComment Sample.carol 13%N 701%N Sample.forum).1 = 200%N
   <-> role Sample.carol = "admin" \/ Comment.user Sample.secondComment = _id Sample.carol)
  /\ (status (deleteComment Sample.carol 13%N 701%N Sample.forum).1 <> 200%N ->
      deleteComment Sample.carol 13%N 701%N Sample.forum
      = (fail Forbidden "Access denied", Sample.forum))
  /\ (status (deleteComment Sample.carol 13%N 701%N Sample.forum).1 = 200%N ->
      exists N',
        (deleteComment Sample.carol 13%N 701%N Sample.forum).2
        = <[13%N := N']> Sample.forum
        /\ Note.set_comments (Note.comments Sample.discussed) N' = Sample.discussed
        /\ (forall c', c' ∈ Note.comments N'
                       <-> c' ∈ Note.comments Sample.discussed
                           /\ Comment._id c' <> 701%N)
        /\ Note.comments N' `sublist_of` Note.comments Sample.discussed
        /\ (NoDup (Comment._id <$> Note.comments Sample.discussed) ->
            length (Note.comments N') + 1 = length (Note.comments Sample.discussed))
        /\ deleteComment Sample.bob 13%N 701%N
             (deleteComment Sample.carol 13%N 701%N Sample.forum).2
           = (fail NotFound "Comment not found",
              (deleteComment Sample.carol 13%N 701%N Sample.forum).2)).
Proof.
  apply (deleteComment_moderated Sample.carol Sample.bob 13%N 701%N
           Sample.discussed Sample.forum 1 Sample.secondComment).
  - vm_compute. reflexivity.
  - vm_compute. reflexivity.
Defined.

End CommentFacts.

Section CommentRoundTrip.

Import NotesRouter NotesLifecycle.

Lemma addComment_cases (env : Js.Env) (C : User) (id : ObjectId) (content : string)
  (db : Notes) :
  ((addComment env C id content db).2 = db
   /\ status (addComment env C id content db).1 <> 200%N)
  \/ exists N,
       db !! id = Some N
       /\ addComment env C id content db
          = (ok (Comment.mk (Js.freshId env) (_id C) content (Js.now env) (Js.now env)),
             <[id := Note.set_comments
                       (Note.comments N
                        ++ [Comment.mk (Js.freshId env) (_id C) content
                                       (Js.now env) (Js.now env)]) N]> db).
Proof.
  unfold addComment. destruct (db !! id) as [N|] eqn:Hdb; [|left; by split].
  destruct (_ && _); [left; by split|]. right. by exists N.
Qed.

Lemma getNote_cases (C : User) (id : ObjectId) (db : Notes) :
  ((getNote C id db).2 = db /\ status (getNote C id db).1 <> 200%N)
  \/ exists N,
       db !! id = Some N
       /\ getNote C id db
          = (ok (Note.set_viewCount (Js.plusOne (Note.viewCount N)) N),
             <[id := Note.set_viewCount (Js.plusOne (Note.viewCount N)) N]> db).
Proof.
  unfold getNote. destruct (db !! id) as [N|] eqn:Hdb; [|left; by split].
  destruct (_ && _); [left; by split|]. right. by exists N.
Qed.

(** X6.  Posting a comment and then deleting it restores the store.  When
    the identity given to the new comment is not that of a comment already
    on the note, the author of a comment just posted may delete it, and
    after the delete the whole collection is exactly what it was before
    the comment was posted. *)
Theorem addComment_then_deleteComment
  (env : Js.Env) (C : User) (id : ObjectId) (content : string) (N : Note.t) (db : Notes) :
  db !! id = Some N ->
  status (addComment env C id content db).1 = 200%N ->
  (forall c, c ∈ Note.comments N -> Comment._id c <> Js.freshId env) ->
  deleteComment C id (Js.freshId env) (addComment env C id content db).2
  = (mkResponse 200 (Message "Comment deleted successfully"), db).
Proof.
  intros Hdb Hs Hfresh.
  destruct (addComment_cases env C id content db) as [[_ Hne]|(N' & Hdb' & ->)];
    [done|].
  rewrite Hdb in Hdb'. injection Hdb' as <-. simpl.
  set (c := Comment.mk (Js.freshId env) (_id C) content (Js.now env) (Js.now env)).
  unfold deleteComment. rewrite lookup_insert_eq. simpl.
  assert (commentById (Js.freshId env) (Note.comments N ++ [c])
          = Some (length (Note.comments N), c)) as ->.
  { apply list_find_Some. split; [|split].
    - rewrite lookup_app_r by lia. by rewrite Nat.sub_diag.
    - done.
    - intros j y Hj Hlt. rewrite lookup_app_l in Hj by done.
      apply Hfresh. by apply list_elem_of_lookup_2 in Hj. }
  assert (negb (isAdmin C) && negb (equals (Comment.user c) (_id C)) = false) as ->.
  { apply ownerGuard. by right. }
  f_equal. rewrite insert_insert_eq. apply insert_id. rewrite Hdb. f_equal.
  rewrite filter_app.
  rewrite (filter_cons_False _ c) by (intros H; by apply H).
  rewrite filter_nil, app_nil_r.
  assert (filter (fun c' => Comment._id c' <> Comment._id c) (Note.comments N)
          = Note.comments N) as ->; [|by destruct N].
  clear Hdb. induction (Note.comments N) as [|y l IH]; [done|].
  rewrite filter_cons_True by (apply Hfresh; apply list_elem_of_here).
  f_equal. apply IH. intros z Hz. apply Hfresh. by apply list_elem_of_further.
Qed.

Lemma addComment_then_deleteComment_witness :
  deleteComment Sample.bob 13%N (Js.freshId Sample.env0)
    (addComment Sample.env0 Sample.bob 13%N "Thanks" Sample.forum).2
  = (mkResponse 200 (Message "Comment deleted successfully"), Sample.forum).
Proof.
  apply (addComment_then_deleteComment Sample.env0 Sample.bob 13%N "Thanks"
           Sample.discussed Sample.forum).
  - vm_compute. reflexivity.
  - vm_compute. reflexivity.
  - intros c Hc. apply elem_of_cons in Hc as [->|Hc]; [vm_compute; discriminate|].
    apply list_elem_of_singleton in Hc as ->. vm_compute. discriminate.
Defined.

(** X7.  A read changes nothing but the view counter of the note it
    reads, and a comment nothing but the comment sequence of the note it
    is posted on, which it extends at the end: every note stays stored
    under its identity with all its other fields, so neither request
    changes who may read or update any note, and no note appears. *)
Theorem read_and_comment_frame
  (env : Js.Env) (C D : User) (id : ObjectId) (content : string) (db : Notes) :
  (forall id' n, db !! id' = Some n ->
     exists n', (getNote C id db).2 !! id' = Some n'
                /\ Note.set_viewCount (Note.viewCount n) n' = n
                /\ (id' <> id -> n' = n)
                /\ (Spec.canRead D n' <-> Spec.canRead D n)
                /\ hasAccess D n' = hasAccess D n)
  /\ (forall id', db !! id' = None -> (getNote C id db).2 !! id' = None)
  /\ (forall id' n, db !! id' = Some n ->
        exists n', (addComment env C id content db).2 !! id' = Some n'
                   /\ Note.set_comments (Note.comments n) n' = n
                   /\ Note.comments n `prefix_of` Note.comments n'
                   /\ (id' <> id -> n' = n)
                   /\ (Spec.canRead D n' <-> Spec.canRead D n)
                   /\ hasAccess D n' = hasAccess D n)
  /\ (forall id', db !! id' = None ->
        (addComment env C id content db).2 !! id' = None).
Proof.
  split; [|split; [|split]].
  - intros id' n Hl.
    destruct (getNote_cases C id db) as [[-> _]|(N & Hdb & ->)].
    { exists n. split; [done|]. split; [by destruct n|]. done. }
    simpl. destruct (decide (id' = id)) as [->|Hne].
    + rewrite Hdb in Hl. injection Hl as <-. rewrite lookup_insert_eq.
      eexists. split; [done|]. split; [by destruct N|]. done.
    + rewrite lookup_insert_ne by done.
      exists n. split; [done|]. split; [by destruct n|]. done.
  - intros id' Hl.
    destruct (getNote_cases C id db) as [[-> _]|(N & Hdb & ->)]; [done|].
    simpl. rewrite lookup_insert_ne; [done|]. intros ->. congruence.
  - intros id' n Hl.
    destruct (addComment_cases env C id content db) as [[-> _]|(N & Hdb & ->)].
    { exists n. split; [done|]. split; [by destruct n|]. done. }
    simpl. destruct (decide (id' = id)) as [->|Hne].
    + rewrite Hdb in Hl. injection Hl as <-. rewrite lookup_insert_eq.
      eexists. split; [done|]. split; [by destruct N|].
      split; [by apply prefix_app_r|]. done.
    + rewrite lookup_insert_ne by done.
      exists n. split; [done|]. split; [by destruct n|]. done.
  - intros id' Hl.
    destruct (addComment_cases env C id content db) as [[-> _]|(N & Hdb & ->)]; [done|].
    simpl. rewrite lookup_insert_ne; [done|]. intros ->. congruence.
Qed.

End CommentRoundTrip.

Section CreateNoteFacts.

Import NotesRouter NotesLifecycle.

(** X8.  Visibility of a new note.  For an administrator, creating a note
    for a course that is not stored answers NotFound, "Course not found",
    and stores nothing.  Otherwise the note is stored with the caller as
    author; when the request does not say [isPublic] the note is public
    and every caller can read it, and when it says [false] and gives no
    access list the note can be read by administrators and by its creator
    only. *)
Theorem createNote_visibility
  (denied : string) (env : Js.Env) (C : User) (body : CreateBody)
  (courses : gmap ObjectId Course.t) (db : Notes) :
  role C = "admin" ->
  (forall c, cb_course body = Some c -> courses !! c = None ->
     createNote denied env C body courses db = (fail NotFound "Course not found", db))
  /\ ((forall c, cb_course body = Some c -> is_Some (courses !! c)) ->
      let db1 := (createNote denied env C body courses db).2 in
      status (createNote denied env C body courses db).1 = 201%N
      /\ (exists n, db1 !! Js.freshId env = Some n /\ Note.author n = _id C)
      /\ (cb_isPublic body = None ->
          forall D, status (getNote D (Js.freshId env) db1).1 = 200%N)
      /\ (cb_isPublic body = Some false -> cb_accessList body = None ->
          forall D, status (getNote D (Js.freshId env) db1).1 = 200%N
                    <-> role D = "admin" \/ _id D = _id C)).
Proof.
  intros Hadm. apply isAdmin_true in Hadm.
  unfold createNote, AssignmentsRouter.adminAuth. rewrite Hadm.
  unfold createNoteHandler. split.
  - intros c Hc Hnone. by rewrite Hc, Hnone.
  - intros Hex.
    assert (match cb_course body with
            | Some course => match courses !! course with
                             | Some _ => false
                             | None => true
                             end
            | None => false
            end = false) as ->.
    { destruct (cb_course body) as [c|]; [|done].
      destruct (Hex c eq_refl) as [x ->]. done. }
    simpl.
    assert ((<[Js.freshId env := newNote env C body]> db) !! Js.freshId env
            = Some (newNote env C body)) as Hl by apply lookup_insert_eq.
    split; [done|]. split; [by eexists|]. split.
    + intros Hpub D. apply (getNote_status _ _ _ _ Hl).
      right. right. left. simpl. by rewrite Hpub.
    + intros Hpub Hacc D. rewrite (getNote_status _ _ _ _ Hl).
      unfold Spec.canRead. simpl. rewrite Hpub, Hacc. simpl. split.
      * intros [?|[?|[?|(a & Hin & _)]]]; [by left | by right | done |].
        by apply elem_of_nil in Hin.
      * intros [?|?]; [by left | by right; left].
Qed.

Lemma createNote_visibility_witness :
  (forall c, cb_course Sample.privateDraft = Some c -> Sample.courses !! c = None ->
     createNote "Access denied" Sample.env0 Sample.admin Sample.privateDraft
                Sample.courses Sample.notes
     = (fail NotFound "Course not found", Sample.notes))
  /\ ((forall c, cb_course Sample.privateDraft = Some c -> is_Some (Sample.courses !! c)) ->
      let db1 := (createNote "Access denied" Sample.env0 Sample.admin
                             Sample.privateDraft Sample.courses Sample.notes).2 in
      status (createNote "Access denied" Sample.env0 Sample.admin
                         Sample.privateDraft Sample.courses Sample.notes).1 = 201%N
      /\ (exists n, db1 !! Js.freshId Sample.env0 = Some n
                    /\ Note.author n = _id Sample.admin)
      /\ (cb_isPublic Sample.privateDraft = None ->
          forall D, status (getNote D (Js.freshId Sample.env0) db1).1 = 200%N)
      /\ (cb_isPublic Sample.privateDraft = Some false ->
          cb_accessList Sample.privateDraft = None ->
          forall D, status (getNote D (Js.freshId Sample.env0) db1).1 = 200%N
                    <-> role D = "admin" \/ _id D = _id Sample.admin)).
Proof.
  apply (createNote_visibility "Access denied" Sample.env0 Sample.admin
           Sample.privateDraft Sample.courses Sample.notes).
  reflexivity.
Defined.

End CreateNoteFacts.

Section ListFacts.

Import NotesRouter.

Variable regexTest : string -> string -> bool.

#[local] Instance notes_newerFirst_total : Total NotesRouter.newerFirst.
Proof. intros x y. unfold newerFirst. lia. Qed.

#[local] Instance notes_newerFirst_trans : Transitive NotesRouter.newerFirst.
Proof. intros x y z. unfold newerFirst. lia. Qed.

(** In a strongly sorted list, an earlier entry is related to every later
    one. *)
Lemma StronglySorted_lookup_lt {A : Type} (R : relation A) (l : list A)
  (i j : nat) (x y : A) :
  StronglySorted R l -> l !! i = Some x -> l !! j = Some y -> i < j -> R x y.
Proof.
  intros Hs. revert i j. induction Hs as [|a l Hs IH Hall]; intros i j Hi Hj Hlt.
  - done.
  - destruct j as [|j]; [lia|]. simpl in Hj. destruct i as [|i].
    + injection Hi as <-. rewrite Forall_forall in Hall.
      apply Hall. by apply list_elem_of_lookup_2 in Hj.
    + simpl in Hi. apply (IH i j); [done | done | lia].
Qed.

(** X9.  The notes listed are ordered newest first, and no note is listed
    twice. *)
Theorem listNotes_newest_first (user : User) (params : ListParams) (db : Notes) :
  exists l,
    listNotes regexTest user params db = ok l
    /\ (forall i j x y, l !! i = Some x -> l !! j = Some y -> i < j ->
          (Note.createdAt y.2 <= Note.createdAt x.2)%N)
    /\ NoDup l.*1.
Proof.
  eexists. split; [reflexivity|]. split.
  - intros i j x y Hi Hj Hlt.
    change (newerFirst x y).
    eapply StronglySorted_lookup_lt; [|exact Hi|exact Hj|exact Hlt].
    apply StronglySorted_merge_sort; apply _.
  - unfold findNotes. rewrite merge_sort_Permutation.
    apply (sublist_NoDup _ (map_to_list db).*1); [apply NoDup_fst_map_to_list|].
    apply fmap_sublist, sublist_filter.
Qed.

#[local] Set Warnings "-clear-no-such-hyp".

(** What the filter built by the handler asks of a note. *)
Lemma matchQuery_buildQuery (user : User) (params : ListParams) (n : Note.t) :
  matchQuery regexTest (buildQuery user params) n = true
  <-> (forall c, course params = Some c -> Note.course n = Some c)
      /\ (forall t, tags params = Some t -> t <> "" ->
            exists tag, tag ∈ Note.tags n /\ tag ∈ Js.splitComma t)
      /\ (role user = "admin" ->
          forall s, search params = Some s -> s <> "" ->
            regexTest s (Note.title n) = true \/ regexTest s (Note.content n) = true)
      /\ (role user <> "admin" ->
          Note.isPublic n = true
          \/ (exists access, access ∈ Note.accessList n
                             /\ Access.user access = _id user)
          \/ Note.author n = _id user).
Proof.
  assert (forall ts, existsb (fun t => Js.includes ts t) (Note.tags n) = true
                     <-> exists tag, tag ∈ Note.tags n /\ tag ∈ ts) as Htags.
  { intros ts. rewrite existsb_exists. split.
    - intros (t & Hin & Hinc). exists t.
      split; [by apply list_elem_of_In | by apply includes_true].
    - intros (t & Hin & Hinc). exists t.
      split; [by apply list_elem_of_In | by apply includes_true]. }
  assert (Js.some (fun access => equals (Access.user access) (_id user))
                  (Note.accessList n) = true
          <-> exists access, access ∈ Note.accessList n
                             /\ Access.user access = _id user) as Hacc.
  { rewrite some_true. split; intros (a & Hin & Ha); exists a; (split; [done|]);
      by apply equals_true. }
  destruct params as [c s t]. unfold buildQuery, matchQuery. simpl.
  destruct (isAdmin user) eqn:Hadm;
    [apply isAdmin_true in Hadm | apply isAdmin_false in Hadm];
    destruct c as [c|];
    destruct s as [s|]; try destruct (decide (s = "")) as [->|Hs];
    destruct t as [t|]; try destruct (decide (t = "")) as [->|Ht];
    simpl;
    rewrite ?(bool_decide_eq_false_2 _ Hs), ?(bool_decide_eq_false_2 _ Ht);
    simpl;
    rewrite ?andb_true_iff, ?orb_true_iff, ?orb_false_r, ?bool_decide_eq_true,
            ?equals_true, ?Htags, ?Hacc;
    naive_solver.
Qed.

(** X10.  What a list request returns.  A note is listed exactly when it
    is stored and passes the course filter and the tag filter, if given,
    and moreover, for an administrator, the text search, if given (title
    or content), and, for any other caller, is public, or lists the caller
    in its access list, or has the caller as author. *)
Theorem listNotes_filters (user : User) (params : ListParams) (db : Notes)
  (id : ObjectId) (n : Note.t) :
  (id, n) ∈ findNotes regexTest (buildQuery user params) db
  <-> db !! id = Some n
      /\ (forall c, course params = Some c -> Note.course n = Some c)
      /\ (forall t, tags params = Some t -> t <> "" ->
            exists tag, tag ∈ Note.tags n /\ tag ∈ Js.splitComma t)
      /\ (role user = "admin" ->
          forall s, search params = Some s -> s <> "" ->
            regexTest s (Note.title n) = true \/ regexTest s (Note.content n) = true)
      /\ (role user <> "admin" ->
          Note.isPublic n = true
          \/ (exists access, access ∈ Note.accessList n
                             /\ Access.user access = _id user)
          \/ Note.author n = _id user).
Proof. rewrite findNotes_elem, matchQuery_buildQuery. tauto. Qed.

(** X11.  The list and the single read agree.  Without course, tag and
    text filters, a caller is listed exactly the stored notes that the
    same caller can open with a single read. *)
Theorem listNotes_agrees_with_getNote (user : User) (db : Notes)
  (id : ObjectId) (n : Note.t) :
  (id, n) ∈ findNotes regexTest (buildQuery user (mkListParams None None None)) db
  <-> db !! id = Some n /\ status (getNote user id db).1 = 200%N.
Proof.
  rewrite findNotes_elem, matchQuery_buildQuery. simpl. split.
  - intros (Hdb & _ & _ & _ & Hscope). split; [done|].
    apply (getNote_status _ _ _ _ Hdb).
    destruct (decide (role user = "admin")) as [Hadm|Hadm]; [by left|].
    destruct (Hscope Hadm) as [?|[?|?]]; unfold Spec.canRead; auto.
  - intros [Hdb Hs]. apply (getNote_status _ _ _ _ Hdb) in Hs.
    split; [done|]. repeat split; try done.
    intros Hadm. destruct Hs as [?|[?|[?|?]]]; auto; done.
Qed.

End ListFacts.

(** ** Further properties of the assignments router *)

Section AssignmentReadFacts.

Import AssignmentsRouter AssignmentsLifecycle.

Variable createdAt : ObjectId -> N.

#[local] Instance assignments_newerFirst_total :
  Total (AssignmentsLifecycle.newerFirst createdAt).
Proof. intros x y. unfold AssignmentsLifecycle.newerFirst. lia. Qed.

#[local] Instance assignments_newerFirst_trans :
  Transitive (AssignmentsLifecycle.newerFirst createdAt).
Proof. intros x y z. unfold AssignmentsLifecycle.newerFirst. lia. Qed.

Lemma listAssignments_elem (user : User) (db : Assignments)
  (l : list (ObjectId * Assignment.t)) (id : ObjectId) (a : Assignment.t) :
  listAssignments createdAt user db = ok l ->
  (id, a) ∈ l
  <-> db !! id = Some a /\ (role user = "admin" \/ Assignment.isActive a = true).
Proof.
  unfold listAssignments, ok. intros [= <-].
  rewrite merge_sort_Permutation, list_elem_of_filter, elem_of_map_to_list. simpl.
  destruct (isAdmin user) eqn:Hadm; simpl.
  - apply isAdmin_true in Hadm. tauto.
  - apply isAdmin_false in Hadm. tauto.
Qed.

Lemma getAssignment_ok (user : User) (db : Assignments) (id : ObjectId)
  (a : Assignment.t) :
  db !! id = Some a ->
  (getAssignment user id db = ok a
   <-> role user = "admin" \/ Assignment.isActive a = true)
  /\ (~ (role user = "admin" \/ Assignment.isActive a = true) ->
      getAssignment user id db = fail Forbidden "Assignment not available").
Proof.
  intros Hdb. unfold getAssignment. rewrite Hdb.
  destruct (isAdmin user) eqn:Hadm; simpl.
  - apply isAdmin_true in Hadm. split; [tauto|]. intros H. destruct H. by left.
  - apply isAdmin_false in Hadm.
    destruct (Assignment.isActive a); simpl; split; try done; try tauto.
    split; [done|]. intros [?|?]; done.
Qed.

(** X12.  The assignments listed for a caller are exactly the stored
    assignments that the same caller can read one by one: all of them for
    an administrator, the active ones for anyone else.  They are ordered
    newest first, and reading an inactive assignment without
    administrative authority answers Forbidden, "Assignment not
    available". *)
Theorem listAssignments_agrees_with_getAssignment (user : User) (db : Assignments) :
  exists l,
    listAssignments createdAt user db = ok l
    /\ (forall id a, (id, a) ∈ l
                     <-> db !! id = Some a
                         /\ (role user = "admin" \/ Assignment.isActive a = true))
    /\ (forall id a, (id, a) ∈ l
                     <-> db !! id = Some a /\ getAssignment user id db = ok a)
    /\ (forall i j x y, l !! i = Some x -> l !! j = Some y -> i < j ->
          (createdAt y.1 <= createdAt x.1)%N)
    /\ (forall id a, db !! id = Some a -> (id, a) ∉ l ->
          getAssignment user id db = fail Forbidden "Assignment not available").
Proof.
  eexists. split; [reflexivity|].
  pose proof (fun id a => listAssignments_elem user db _ id a eq_refl) as Hmem.
  split; [exact Hmem|]. split; [|split].
  - intros id a. rewrite Hmem. split.
    + intros [Hdb H]. split; [done|]. by apply (getAssignment_ok user db id a Hdb).
    + intros [Hdb H]. split; [done|]. by apply (getAssignment_ok user db id a Hdb).
  - intros i j x y Hi Hj Hlt.
    change (AssignmentsLifecycle.newerFirst createdAt x y).
    eapply StronglySorted_lookup_lt; [|exact Hi|exact Hj|exact Hlt].
    apply StronglySorted_merge_sort; apply _.
  - intros id a Hdb Hnin. apply (getAssignment_ok user db id a Hdb).
    intros H. apply Hnin, Hmem. done.
Qed.

End AssignmentReadFacts.

Section SubmitMoreFacts.

Import AssignmentsRouter AssignmentsLifecycle.

Variable extname : string -> string.

Lemma submit_status_201
  (env : Js.Env) (C : User) (id : ObjectId) (file : option File)
  (body : SubmitBody) (db : Assignments) :
  status (submit extname env C id file body db).1 = 201%N
  <-> role C <> "admin"
      /\ exists A, db !! id = Some A
                   /\ Assignment.isActive A = true
                   /\ (forall sub, sub ∈ Assignment.submissions A ->
                                   Submission.student sub <> _id C)
                   /\ fileTypeError extname A file = None
                   /\ (Assignment.fileType A = "url" -> Js.truthy (url body) = true).
Proof.
  unfold submit. destruct (isAdmin C) eqn:Hadm.
    { apply isAdmin_true in Hadm. simpl. split; [done|]. intros [H _]. done. }
    apply isAdmin_false in Hadm.
    destruct (db !! id) as [A|] eqn:Hdb; simpl;
      [|split; [done | intros (_ & A & ? & _); done]].
    destruct (Assignment.isActive A) eqn:Hact; simpl;
      [|split; [done | intros (_ & A' & [= <-] & ? & _); congruence]].
    case_bool_decide as Hex; simpl.
    { split; [done|]. intros (_ & A' & [= <-] & _ & Hnone & _).
      apply find_is_Some in Hex as (sub & Hin & Hst). apply equals_true in Hst.
      exfalso. by apply (Hnone sub Hin). }
    assert (forall sub, sub ∈ Assignment.submissions A ->
                        Submission.student sub <> _id C) as Hnone.
    { intros sub Hin Hst. apply Hex, find_is_Some. exists sub.
      split; [done | by apply equals_true]. }
    destruct (fileTypeError extname A file) as [m|] eqn:Hft; simpl.
    { split; [done|]. intros (_ & A' & [= <-] & _ & _ & ? & _). congruence. }
    destruct (bool_decide (Assignment.fileType A = "url") && negb (Js.truthy (url body)))
      eqn:Hurl; simpl.
    - split; [done|]. intros (_ & A' & [= <-] & _ & _ & _ & Hu).
      apply andb_true_iff in Hurl as [Hm Hno]. apply bool_decide_eq_true in Hm.
      rewrite (Hu Hm) in Hno. done.
    - split; [|done]. intros _. split; [done|]. exists A. repeat split; try done.
      intros Hm. apply andb_false_iff in Hurl as [Hno|Hno].
      + apply bool_decide_eq_false in Hno. done.
      + by apply negb_false_iff in Hno.
Qed.

(** X13.  When a submit succeeds.  A submit is answered 201 exactly when
    the caller has no administrative authority and the assignment is
    stored, active, without a submission of the caller, passes the file
    validation of its submission mode and, in mode [url], comes with a
    URL.  Whoever can submit to an assignment can also read it. *)
Theorem submit_succeeds_iff
  (env : Js.Env) (C : User) (id : ObjectId) (file : option File)
  (body : SubmitBody) (db : Assignments) :
  (status (submit extname env C id file body db).1 = 201%N
   <-> role C <> "admin"
       /\ exists A, db !! id = Some A
                    /\ Assignment.isActive A = true
                    /\ (forall sub, sub ∈ Assignment.submissions A ->
                                    Submission.student sub <> _id C)
                    /\ fileTypeError extname A file = None
                    /\ (Assignment.fileType A = "url" -> Js.truthy (url body) = true))
  /\ (status (submit extname env C id file body db).1 = 201%N ->
      exists A, getAssignment C id db = ok A).
Proof.
  split; [apply submit_status_201|].
  intros Hs. apply submit_status_201 in Hs as (Hadm & A & Hdb & Hact & _).
  exists A. unfold getAssignment. rewrite Hdb, Hact. simpl.
  by rewrite andb_false_r.
Qed.

(** X14.  The submission modes.  For a caller without administrative
    authority and a stored, active assignment without a submission of the
    caller: in mode [any] every submit succeeds, also one with neither a
    file nor a URL; in mode [url] a submit succeeds exactly when a
    non-empty URL is given, whatever file is attached; in any other mode a
    submit succeeds exactly when a file is attached and, if extensions are
    declared, the lower-cased extension of the file is one of them. *)
Theorem submit_modes
  (env : Js.Env) (C : User) (id : ObjectId) (file : option File)
  (body : SubmitBody) (A : Assignment.t) (db : Assignments) :
  role C <> "admin" ->
  db !! id = Some A ->
  Assignment.isActive A = true ->
  (forall sub, sub ∈ Assignment.submissions A -> Submission.student sub <> _id C) ->
  (Assignment.fileType A = "any" ->
   status (submit extname env C id file body db).1 = 201%N)
  /\ (Assignment.fileType A = "url" ->
      status (submit extname env C id file body db).1 = 201%N
      <-> exists u, url body = Some u /\ u <> "")
  /\ (Assignment.fileType A <> "any" -> Assignment.fileType A <> "url" ->
      status (submit extname env C id file body db).1 = 201%N
      <-> exists f, file = Some f
                    /\ (Assignment.allowedExtensions A <> [] ->
                        Js.toLowerCase (extname (originalname f))
                        ∈ Assignment.allowedExtensions A)).
Proof.
  intros Hadm Hdb Hact Hnone.
  assert (forall P : Prop,
            (fileTypeError extname A file = None
             /\ (Assignment.fileType A = "url" -> Js.truthy (url body) = true) <-> P) ->
            (status (submit extname env C id file body db).1 = 201%N <-> P)) as Hred.
  { intros P HP. rewrite (submit_status_201 env C id file body db).
    rewrite <- HP. split.
    - intros (_ & A' & Hdb' & _ & _ & H). rewrite Hdb in Hdb'.
      by injection Hdb' as <-.
    - intros H. split; [done|]. exists A. tauto. }
  split; [|split].
  - intros Hany. apply (Hred True); [|done]. split; [done|]. intros _.
    unfold fileTypeError. rewrite Hany. simpl. split; [done|]. intros ?. done.
  - intros Hurl. apply Hred. unfold fileTypeError. rewrite Hurl. simpl.
    unfold Js.truthy. destruct (url body) as [u|].
    + case_bool_decide as Hu; simpl.
      * split; [intros [_ H]; by specialize (H eq_refl) |].
        intros (u' & [= <-] & ?). done.
      * split; [intros _; by exists u | done].
    + split; [intros [_ H]; by specialize (H eq_refl) | intros (u & ? & _); done].
  - intros Hany Hurl. apply Hred. unfold fileTypeError.
    rewrite (bool_decide_eq_false_2 _ Hany), (bool_decide_eq_false_2 _ Hurl). simpl.
    destruct file as [f|].
    + destruct (Assignment.allowedExtensions A) as [|e es] eqn:Hall.
      * simpl. split; [intros _; exists f; split; [done | intros H; by destruct H] |].
        intros _. split; [done | intros ?; done].
      * rewrite (bool_decide_eq_true_2 (0 < length (e :: es))) by (simpl; lia).
        rewrite andb_true_l.
        destruct (Js.includes (e :: es) (Js.toLowerCase (extname (originalname f))))
          eqn:Hinc; simpl.
        -- apply includes_true in Hinc.
           split; [intros _; exists f; split; [done | by intros _] |].
           intros _. split; [done | intros ?; done].
        -- apply includes_false in Hinc.
           split; [intros [? _]; done|]. intros (f' & [= <-] & H).
           exfalso. apply Hinc, H. done.
    + split; [intros [? _]; done | intros (f & ? & _); done].
Qed.

End SubmitMoreFacts.

Section SubmitMoreWitnesses.

Import AssignmentsRouter AssignmentsLifecycle.

Lemma submit_modes_witness :
  (Assignment.fileType Sample.essay = "any" ->
   status (submit Sample.fromLastDot Sample.env0 Sample.bob 20%N
                  (Some Sample.essayPdf) Sample.noBody Sample.assignments).1 = 201%N)
  /\ (Assignment.fileType Sample.essay = "url" ->
      status (submit Sample.fromLastDot Sample.env0 Sample.bob 20%N
                     (Some Sample.essayPdf) Sample.noBody Sample.assignments).1 = 201%N
      <-> exists u, url Sample.noBody = Some u /\ u <> "")
  /\ (Assignment.fileType Sample.essay <> "any" ->
      Assignment.fileType Sample.essay <> "url" ->
      status (submit Sample.fromLastDot Sample.env0 Sample.bob 20%N
                     (Some Sample.essayPdf) Sample.noBody Sample.assignments).1 = 201%N
      <-> exists f, Some Sample.essayPdf = Some f
                    /\ (Assignment.allowedExtensions Sample.essay <> [] ->
                        Js.toLowerCase (Sample.fromLastDot (originalname f))
                        ∈ Assignment.allowedExtensions Sample.essay)).
Proof.
  apply (submit_modes Sample.fromLastDot Sample.env0 Sample.bob 20%N
           (Some Sample.essayPdf) Sample.noBody Sample.essay Sample.assignments).
  - vm_compute. discriminate.
  - vm_compute. reflexivity.
  - reflexivity.
  - intros sub Hin. by apply elem_of_nil in Hin.
Defined.

End SubmitMoreWitnesses.

Section SubmitEffectFacts.

Import AssignmentsRouter AssignmentsLifecycle.

Variable extname : string -> string.

(** X15.  What a successful submit stores.  The assignment gets one more
    submission, appended after the earlier ones, which keep their grades
    and feedback; the rest of the assignment and every other assignment
    stay as they were.  The new submission bears the caller's reference,
    the time of the request and the identity drawn for it, and has neither
    grade nor feedback.  When a file is attached it records the upload
    path, the original file name and the extension as written in that
    name, even if a URL was sent as well; without a file it records the
    URL as locator and as name, and the kind [url]. *)
Theorem submit_records
  (env : Js.Env) (C : User) (id : ObjectId) (file : option File)
  (body : SubmitBody) (db : Assignments) :
  status (submit extname env C id file body db).1 = 201%N ->
  exists A A' sub,
    db !! id = Some A
    /\ (submit extname env C id file body db).2 = <[id := A']> db
    /\ Assignment.submissions A' = Assignment.submissions A ++ [sub]
    /\ Assignment.set_submissions (Assignment.submissions A) A' = A
    /\ Submission._id sub = Js.freshId env
    /\ Submission.student sub = _id C
    /\ Submission.submittedAt sub = Js.now env
    /\ Submission.grade sub = None
    /\ Submission.feedback sub = None
    /\ Submission.comments sub = Js.orElse (comments body) ""
    /\ match file with
       | Some f =>
           Submission.fileUrl sub = Some ("/uploads/assignments/" +:+ filename f)
           /\ Submission.fileName sub = Some (originalname f)
           /\ Submission.fileType sub = extname (originalname f)
       | None =>
           Submission.fileUrl sub = url body
           /\ Submission.fileName sub = url body
           /\ Submission.fileType sub = "url"
       end.
Proof.
  intros Hs.
  destruct (submit_cases extname env C id file body db)
    as [[_ Hne]|(A & Hdb & _ & _ & _ & _ & ->)]; [done|].
  eexists A, _, _. split; [done|]. split; [reflexivity|]. simpl.
  split; [reflexivity|]. split; [by destruct A|].
  repeat split; try done. by destruct file.
Qed.

(** X16.  Neither the due date nor the maximal file size is enforced: the
    answer to a submit depends on the stored assignment through its
    submission mode, its allowed extensions, its active flag and its
    submissions only.  Two assignments that agree on these get the same
    answer to the same request, whatever their due dates, size limits,
    titles, descriptions and creators. *)
Theorem submit_ignores_due_date
  (env : Js.Env) (C : User) (id : ObjectId) (file : option File)
  (body : SubmitBody) (db : Assignments) (A A' : Assignment.t) :
  Assignment.fileType A' = Assignment.fileType A ->
  Assignment.allowedExtensions A' = Assignment.allowedExtensions A ->
  Assignment.isActive A' = Assignment.isActive A ->
  Assignment.submissions A' = Assignment.submissions A ->
  (submit extname env C id file body (<[id := A']> db)).1
  = (submit extname env C id file body (<[id := A]> db)).1.
Proof.
  intros Hft Hext Hact Hsub. unfold submit.
  destruct (isAdmin C); [done|]. rewrite !lookup_insert_eq.
  unfold fileTypeError. rewrite Hft, Hext, Hact, Hsub.
  destruct (Assignment.isActive A); simpl; [|done].
  case_bool_decide; [done|].
  destruct (negb (bool_decide (Assignment.fileType A = "any"))
            && negb (bool_decide (Assignment.fileType A = "url"))); simpl.
  - destruct file as [f|]; [|done].
    destruct (bool_decide (0 < length (Assignment.allowedExtensions A))
              && negb (Js.includes (Assignment.allowedExtensions A)
                                   (Js.toLowerCase (extname (originalname f)))));
      [done|].
    by destruct (bool_decide (Assignment.fileType A = "url") && _).
  - by destruct (bool_decide (Assignment.fileType A = "url") && _).
Qed.

End SubmitEffectFacts.

Section SubmitEffectWitnesses.

Import AssignmentsRouter AssignmentsLifecycle.

Lemma submit_records_witness :
  exists A A' sub,
    Sample.assignments !! 20%N = Some A
    /\ (submit Sample.fromLastDot Sample.env0 Sample.bob 20%N (Some Sample.essayPdf)
               Sample.linkBody Sample.assignments).2
       = <[20%N := A']> Sample.assignments
    /\ Assignment.submissions A' = Assignment.submissions A ++ [sub]
    /\ Assignment.set_submissions (Assignment.submissions A) A' = A
    /\ Submission._id sub = Js.freshId Sample.env0
    /\ Submission.student sub = _id Sample.bob
    /\ Submission.submittedAt sub = Js.now Sample.env0
    /\ Submission.grade sub = None
    /\ Submission.feedback sub = None
    /\ Submission.comments sub = Js.orElse (comments Sample.linkBody) ""
    /\ (Submission.fileUrl sub
        = Some ("/uploads/assignments/" +:+ filename Sample.essayPdf)
        /\ Submission.fileName sub = Some (originalname Sample.essayPdf)
        /\ Submission.fileType sub = Sample.fromLastDot (originalname Sample.essayPdf)).
Proof.
  apply (submit_records Sample.fromLastDot Sample.env0 Sample.bob 20%N
           (Some Sample.essayPdf) Sample.linkBody Sample.assignments).
  vm_compute. reflexivity.
Defined.

Lemma submit_ignores_due_date_witness :
  (submit Sample.fromLastDot Sample.env0 Sample.bob 20%N (Some Sample.essayPdf)
          Sample.noBody (<[20%N := Sample.essayOverdue]> Sample.assignments)).1
  = (submit Sample.fromLastDot Sample.env0 Sample.bob 20%N (Some Sample.essayPdf)
            Sample.noBody (<[20%N := Sample.essay]> Sample.assignments)).1.
Proof.
  apply (submit_ignores_due_date Sample.fromLastDot Sample.env0 Sample.bob 20%N
           (Some Sample.essayPdf) Sample.noBody Sample.assignments
           Sample.essay Sample.essayOverdue); reflexivity.
Defined.

End SubmitEffectWitnesses.

Section GradeMoreFacts.

Import AssignmentsRouter AssignmentsLifecycle.

Lemma submissionById_Some (sid : ObjectId) (subs : list Submission.t)
  (i : nat) (sub : Submission.t) :
  submissionById sid subs = Some (i, sub) ->
  subs !! i = Some sub /\ Submission._id sub = sid
  /\ forall j s, subs !! j = Some s -> j < i -> Submission._id s <> sid.
Proof. intros H. by apply list_find_Some in H. Qed.

(** Grading keeps the position at which a submission is found by its
    identity. *)
Lemma submissionById_setGrade (sid : ObjectId) (subs : list Submission.t)
  (i : nat) (sub : Submission.t) (g : option Z) (fb : option string) :
  submissionById sid subs = Some (i, sub) ->
  submissionById sid (<[i := Submission.setGrade g fb sub]> subs)
  = Some (i, Submission.setGrade g fb sub).
Proof.
  intros H. apply submissionById_Some in H as (Hi & Hsid & Hfirst).
  apply list_find_Some. split; [|split].
  - apply list_lookup_insert_eq. by apply lookup_lt_Some in Hi.
  - done.
  - intros j s Hj Hlt. rewrite list_lookup_insert_ne in Hj by lia.
    by apply (Hfirst j s).
Qed.

Lemma gradeHandler_cases (id sid : ObjectId) (body : GradeBody) (db : Assignments) :
  ((gradeHandler id sid body db).2 = db
   /\ status (gradeHandler id sid body db).1 <> 200%N)
  \/ exists A i sub,
       db !! id = Some A
       /\ submissionById sid (Assignment.submissions A) = Some (i, sub)
       /\ gradeHandler id sid body db
          = (ok (Submission.setGrade (grade body) (feedback body) sub),
             <[id := Assignment.set_submissions
                       (<[i := Submission.setGrade (grade body) (feedback body) sub]>
                          (Assignment.submissions A)) A]> db).
Proof.
  unfold gradeHandler. destruct (db !! id) as [A|] eqn:Hdb; [|left; by split].
  destruct (submissionById sid (Assignment.submissions A)) as [[i sub]|] eqn:Hfind;
    [|left; by split].
  right. by exists A, i, sub.
Qed.

(** X17.  The last grade wins, and grading twice is grading once.  A
    grade request by an administrator that follows another grade request
    for the same submission has the answer and leaves the collection that
    it would have without the earlier request. *)
Theorem grade_last_write_wins
  (denied : string) (u1 u2 : User) (id sid : ObjectId) (b1 b2 : GradeBody)
  (db : Assignments) :
  role u2 = "admin" ->
  gradeSubmission denied u2 id sid b2 (gradeSubmission denied u1 id sid b1 db).2
  = gradeSubmission denied u2 id sid b2 db.
Proof.
  intros Hadm2. apply isAdmin_true in Hadm2.
  assert ((gradeSubmission denied u1 id sid b1 db).2 = db
          \/ exists A i sub,
               db !! id = Some A
               /\ submissionById sid (Assignment.submissions A) = Some (i, sub)
               /\ (gradeSubmission denied u1 id sid b1 db).2
                  = <[id := Assignment.set_submissions
                              (<[i := Submission.setGrade (grade b1) (feedback b1) sub]>
                                 (Assignment.submissions A)) A]> db) as Hfirst.
  { unfold gradeSubmission, adminAuth. destruct (isAdmin u1); [|by left].
    destruct (gradeHandler_cases id sid b1 db)
      as [[-> _]|(A & i & sub & Hdb & Hfind & ->)]; [by left|].
    right. by exists A, i, sub. }
  destruct Hfirst as [E|(A & i & sub & Hdb & Hfind & E)]; rewrite E; [done|].
  unfold gradeSubmission, adminAuth. rewrite Hadm2.
  unfold gradeHandler. rewrite lookup_insert_eq, Hdb.
  cbn [Assignment.submissions Assignment.set_submissions].
  rewrite (submissionById_setGrade _ _ _ _ _ _ Hfind), Hfind.
  rewrite insert_insert_eq, list_insert_insert_eq. reflexivity.
Qed.

Lemma grade_keeps_students (i : nat) (sub : Submission.t) (g : option Z)
  (fb : option string) (subs : list Submission.t) :
  subs !! i = Some sub ->
  Submission.student <$> <[i := Submission.setGrade g fb sub]> subs
  = Submission.student <$> subs.
Proof.
  intros Hi. rewrite list_fmap_insert. apply list_insert_id.
  rewrite list_lookup_fmap, Hi. done.
Qed.

Variable extname : string -> string.
Variable denied : string.

Lemma step_keeps_invariant (db : Assignments) (r : Request) :
  Spec.allOneSubmissionPerStudent db ->
  Spec.allOneSubmissionPerStudent (step extname denied db r).
Proof.
  intros Hinv. destruct r as [r|user id sid body|user id]; simpl.
  - by apply submit_keeps_invariant.
  - unfold gradeSubmission, adminAuth. destruct (isAdmin user); [|done].
    destruct (gradeHandler_cases id sid body db)
      as [[-> _]|(A & i & sub & Hdb & Hfind & ->)]; [done|].
    simpl. intros id' a' Hl. destruct (decide (id = id')) as [<-|Hne].
    + rewrite lookup_insert_eq in Hl. injection Hl as <-.
      unfold Spec.oneSubmissionPerStudent. simpl.
      apply submissionById_Some in Hfind as (Hi & _).
      rewrite (grade_keeps_students _ _ _ _ _ Hi). by apply (Hinv _ _ Hdb).
    + rewrite lookup_insert_ne in Hl by done. by apply (Hinv _ _ Hl).
  - unfold deleteAssignment, adminAuth. destruct (isAdmin user); [|done].
    unfold deleteAssignmentHandler. destruct (db !! id); [|done].
    simpl. intros id' a' Hl. apply lookup_delete_Some in Hl as [_ Hl].
    by apply (Hinv _ _ Hl).
Qed.

(** X18.  One submission per student survives everything the router can
    do.  If every stored assignment has at most one submission per
    student reference, then so has every assignment after any run of
    submit, grade and delete requests, by any callers, in any order. *)
Theorem run_keeps_one_submission_per_student (rs : list Request) (db : Assignments) :
  Spec.allOneSubmissionPerStudent db ->
  Spec.allOneSubmissionPerStudent (run extname denied rs db).
Proof.
  revert db. induction rs as [|r rs IH]; intros db H; [done|].
  unfold run. simpl. apply IH. by apply step_keeps_invariant.
Qed.

End GradeMoreFacts.

Section GradeMoreWitnesses.

Import AssignmentsRouter AssignmentsLifecycle.

Lemma grade_last_write_wins_witness :
  gradeSubmission "Access denied" Sample.admin 20%N 500%N Sample.fullMarks
    (gradeSubmission "Access denied" Sample.admin 20%N 500%N
                     (mkGradeBody (Some 40%Z) None) Sample.handedIn).2
  = gradeSubmission "Access denied" Sample.admin 20%N 500%N Sample.fullMarks
                    Sample.handedIn.
Proof.
  apply (grade_last_write_wins "Access denied" Sample.admin Sample.admin 20%N 500%N
           (mkGradeBody (Some 40%Z) None) Sample.fullMarks Sample.handedIn).
  reflexivity.
Defined.

Lemma run_keeps_one_submission_per_student_witness :
  Spec.allOneSubmissionPerStudent
    (run Sample.fromLastDot "Access denied" Sample.term Sample.handedIn).
Proof.
  apply (run_keeps_one_submission_per_student Sample.fromLastDot "Access denied"
           Sample.term Sample.handedIn).
  intros id a Hl. unfold Sample.handedIn in Hl.
  apply lookup_singleton_Some in Hl as [_ <-].
  unfold Spec.oneSubmissionPerStudent. apply NoDup_singleton.
Defined.

End GradeMoreWitnesses.

Section OwnSubmissionsFacts.

Import AssignmentsRouter AssignmentsLifecycle.

Lemma userSubmissions_elem (user : User) (db : Assignments)
  (l : list (Summary * option Submission.t)) (summary : Summary)
  (o : option Submission.t) :
  userSubmissions user db = ok l ->
  (summary, o) ∈ l
  <-> exists id a,
        db !! id = Some a
        /\ Js.some (fun sub => equals (Submission.student sub) (_id user))
                   (Assignment.submissions a) = true
        /\ summary = mkSummary id (Assignment.title a) (Assignment.dueDate a)
                               (Assignment.createdBy a)
        /\ o = Js.find (fun sub => equals (Submission.student sub) (_id user))
                       (Assignment.submissions a).
Proof.
  unfold userSubmissions, ok. intros [= <-]. rewrite list_elem_of_fmap. split.
  - intros ([id a] & [= -> ->] & Hin).
    apply list_elem_of_filter in Hin as [Hsome Hin].
    apply elem_of_map_to_list in Hin. by exists id, a.
  - intros (id & a & Hdb & Hsome & -> & ->). exists (id, a). split; [done|].
    apply list_elem_of_filter. split; [done | by apply elem_of_map_to_list].
Qed.

(** X19.  The caller's own submissions.  Every entry of the answer pairs
    the summary of a stored assignment with a submission of that
    assignment that bears the caller's reference, never with a missing
    submission and never with the submission of another student; every
    stored assignment in which the caller has a submission has its entry,
    whether or not the assignment is active; and no assignment has two
    entries. *)
Theorem userSubmissions_own (user : User) (db : Assignments) :
  exists l,
    userSubmissions user db = ok l
    /\ (forall summary o, (summary, o) ∈ l ->
          exists a sub,
            db !! s_id summary = Some a
            /\ s_title summary = Assignment.title a
            /\ s_dueDate summary = Assignment.dueDate a
            /\ s_createdBy summary = Assignment.createdBy a
            /\ o = Some sub
            /\ sub ∈ Assignment.submissions a
            /\ Submission.student sub = _id user)
    /\ (forall id a sub,
          db !! id = Some a -> sub ∈ Assignment.submissions a ->
          Submission.student sub = _id user ->
          exists sub', (mkSummary id (Assignment.title a) (Assignment.dueDate a)
                                  (Assignment.createdBy a), Some sub') ∈ l)
    /\ NoDup (s_id <$> l.*1).
Proof.
  eexists. split; [reflexivity|].
  pose proof (fun summary o => userSubmissions_elem user db _ summary o eq_refl) as Hmem.
  split; [|split].
  - intros summary o Hin. apply Hmem in Hin as (id & a & Hdb & Hsome & -> & ->).
    apply some_true in Hsome. apply find_is_Some in Hsome as [sub Hfind].
    exists a, sub. simpl. repeat split; try done.
    + unfold Js.find in Hfind. apply find_some in Hfind as [Hin _].
      by apply list_elem_of_In.
    + unfold Js.find in Hfind. apply find_some in Hfind as [_ Hst].
      by apply equals_true.
  - intros id a sub Hdb Hin Hst.
    assert (exists x, x ∈ Assignment.submissions a
                      /\ equals (Submission.student x) (_id user) = true) as Hex.
    { exists sub. split; [done | by apply equals_true]. }
    apply find_is_Some in Hex as Hfind. destruct Hfind as [sub' Hfind].
    exists sub'. apply Hmem. exists id, a. repeat split; try done.
    by apply some_true.
  - unfold userSubmissions. simpl.
    rewrite <- !list_fmap_compose.
    apply (sublist_NoDup _ (map_to_list db).*1); [apply NoDup_fst_map_to_list|].
    apply fmap_sublist, sublist_filter.
Qed.

Variable extname : string -> string.

Lemma find_app_last {A : Type} (p : A -> bool) (l : list A) (x : A) :
  (forall y, y ∈ l -> p y = false) -> p x = true -> Js.find p (l ++ [x]) = Some x.
Proof.
  intros Hl Hx. induction l as [|y l IH]; simpl; [by rewrite Hx|].
  rewrite (Hl y) by apply list_elem_of_here.
  apply IH. intros z Hz. apply Hl. by apply list_elem_of_further.
Qed.

(** X20.  A submission shows up among the caller's own submissions.
    After a successful submit, the caller's list of own submissions has an
    entry for that assignment, and it carries the submission just
    recorded, with the identity drawn for it and neither grade nor
    feedback. *)
Theorem submit_then_userSubmissions
  (env : Js.Env) (C : User) (id : ObjectId) (file : option File)
  (body : SubmitBody) (db : Assignments) :
  status (submit extname env C id file body db).1 = 201%N ->
  exists A l,
    db !! id = Some A
    /\ userSubmissions C (submit extname env C id file body db).2 = ok l
    /\ (mkSummary id (Assignment.title A) (Assignment.dueDate A)
                  (Assignment.createdBy A),
        Some (Submission.ofFields (Js.freshId env)
                (newSubmission extname env C file body))) ∈ l.
Proof.
  intros Hs.
  destruct (submit_cases extname env C id file body db)
    as [[_ Hne]|(A & Hdb & _ & _ & Hnone & _ & ->)]; [done|].
  exists A. eexists. split; [done|]. split; [reflexivity|]. simpl.
  set (new := Submission.ofFields (Js.freshId env) (newSubmission extname env C file body)).
  set (A' := Assignment.set_submissions (Assignment.submissions A ++ [new]) A).
  apply (userSubmissions_elem C (<[id := A']> db) _ _ _ eq_refl).
  exists id, A'. split; [apply lookup_insert_eq|].
  assert (Js.find (fun sub => equals (Submission.student sub) (_id C))
                  (Assignment.submissions A') = Some new) as Hfind.
  { simpl. apply find_app_last.
    - intros y Hy. apply equals_false. by apply Hnone.
    - by apply equals_true. }
  split; [|split; [done | by rewrite Hfind]].
  apply some_true. exists new. split; [|by apply equals_true].
  simpl. apply elem_of_app. right. apply list_elem_of_here.
Qed.

End OwnSubmissionsFacts.

Section OwnSubmissionsWitnesses.

Import AssignmentsRouter AssignmentsLifecycle.

Lemma submit_then_userSubmissions_witness :
  exists A l,
    Sample.assignments !! 20%N = Some A
    /\ userSubmissions Sample.bob
         (submit Sample.fromLastDot Sample.env0 Sample.bob 20%N
                 (Some Sample.essayPdf) Sample.noBody Sample.assignments).2 = ok l
    /\ (mkSummary 20%N (Assignment.title A) (Assignment.dueDate A)
                  (Assignment.createdBy A),
        Some (Submission.ofFields (Js.freshId Sample.env0)
                (newSubmission Sample.fromLastDot Sample.env0 Sample.bob
                               (Some Sample.essayPdf) Sample.noBody))) ∈ l.
Proof.
  apply (submit_then_userSubmissions Sample.fromLastDot Sample.env0 Sample.bob 20%N
           (Some Sample.essayPdf) Sample.noBody Sample.assignments).
  vm_compute. reflexivity.
Defined.

End OwnSubmissionsWitnesses.

Section DeleteAssignmentFacts.

Import AssignmentsRouter AssignmentsLifecycle.

Variable extname : string -> string.
Variable denied : string.

(** X21.  Deleting an assignment takes its submissions with it.  After a
    successful delete, reading the assignment and grading any of its
    submissions answer NotFound, "Assignment not found", for every caller
    entitled to ask; a submit by a caller without administrative authority
    answers NotFound as well; the assignment no longer appears among
    anybody's own submissions; and every other assignment is as it
    was. *)
Theorem deleteAssignment_then_not_found
  (C D : User) (id sid : ObjectId) (env : Js.Env) (file : option File)
  (body : SubmitBody) (gbody : GradeBody) (db : Assignments) :
  status (deleteAssignment denied C id db).1 = 200%N ->
  let db1 := (deleteAssignment denied C id db).2 in
  role C = "admin"
  /\ getAssignment D id db1 = fail NotFound "Assignment not found"
  /\ (role D = "admin" ->
      gradeSubmission denied D id sid gbody db1
      = (fail NotFound "Assignment not found", db1))
  /\ (role D <> "admin" ->
      submit extname env D id file body db1
      = (fail NotFound "Assignment not found", db1))
  /\ (forall l summary o, userSubmissions D db1 = ok l -> (summary, o) ∈ l ->
        s_id summary <> id)
  /\ (forall id', id' <> id -> db1 !! id' = db !! id').
Proof.
  intros Hs db1.
  assert (role C = "admin" /\ db1 = delete id db) as [Hadm Hdb1].
  { unfold db1. unfold deleteAssignment, adminAuth in *.
    destruct (isAdmin C) eqn:Hadm; [|done]. apply isAdmin_true in Hadm.
    unfold deleteAssignmentHandler in *. destruct (db !! id); done. }
  assert (db1 !! id = None) as Hgone by (rewrite Hdb1; apply lookup_delete_eq).
  split; [done|]. split; [|split; [|split; [|split]]].
  - unfold getAssignment. by rewrite Hgone.
  - intros HD. apply isAdmin_true in HD.
    unfold gradeSubmission, adminAuth, gradeHandler. by rewrite HD, Hgone.
  - intros HD. apply isAdmin_false in HD. unfold submit. by rewrite HD, Hgone.
  - intros l summary o Hl Hin.
    apply (userSubmissions_elem D db1 l summary o Hl) in Hin
      as (id' & a & Hl' & _ & -> & _).
    simpl. intros ->. congruence.
  - intros id' Hne. rewrite Hdb1. by apply lookup_delete_ne.
Qed.

End DeleteAssignmentFacts.

Section DeleteAssignmentWitnesses.

Import AssignmentsRouter AssignmentsLifecycle.

Lemma deleteAssignment_then_not_found_witness :
  let db1 := (deleteAssignment "Access denied" Sample.admin 20%N Sample.handedIn).2 in
  role Sample.admin = "admin"
  /\ getAssignment Sample.bob 20%N db1 = fail NotFound "Assignment not found"
  /\ (role Sample.bob = "admin" ->
      gradeSubmission "Access denied" Sample.bob 20%N 500%N Sample.fullMarks db1
      = (fail NotFound "Assignment not found", db1))
  /\ (role Sample.bob <> "admin" ->
      submit Sample.fromLastDot Sample.env0 Sample.bob 20%N (Some Sample.essayPdf)
             Sample.noBody db1
      = (fail NotFound "Assignment not found", db1))
  /\ (forall l summary o, userSubmissions Sample.bob db1 = ok l -> (summary, o) ∈ l ->
        s_id summary <> 20%N)
  /\ (forall id', id' <> 20%N -> db1 !! id' = Sample.handedIn !! id').
Proof.
  apply (deleteAssignment_then_not_found Sample.fromLastDot "Access denied"
           Sample.admin Sample.bob 20%N 500%N Sample.env0 (Some Sample.essayPdf)
           Sample.noBody Sample.fullMarks Sample.handedIn).
  vm_compute. reflexivity.
Defined.

End DeleteAssignmentWitnesses.

(** ** Further properties of the courses router *)

Section EnrollMoreFacts.

Import CoursesRouter CoursesLifecycle.

Lemma enroll_status_200 (S : User) (id : ObjectId) (db : Courses) :
  status (enroll S id db).1 = 200%N
  <-> exists c, db !! id = Some c
                /\ Course.isActive c = true
                /\ (_id S ∉ Course.students c)
                /\ (Z.of_nat (length (Course.students c)) < Course.maxStudents c)%Z.
Proof.
  split.
  - intros Hs. destruct (enroll_cases S id db) as [[_ Hne]|(c & ? & ? & ? & ? & _)];
      [done|]. by exists c.
  - intros (c & Hdb & Hact & Hnin & Hroom). unfold enroll. rewrite Hdb, Hact. simpl.
    apply includes_false in Hnin. rewrite Hnin.
    rewrite bool_decide_eq_false_2 by lia. done.
Qed.

Lemma enroll_full (S : User) (id : ObjectId) (db : Courses) (c : Course.t) :
  db !! id = Some c -> Course.isActive c = true -> _id S ∉ Course.students c ->
  (Course.maxStudents c <= Z.of_nat (length (Course.students c)))%Z ->
  enroll S id db = (fail Validation "Course is full", db).
Proof.
  intros Hdb Hact Hnin Hfull. unfold enroll. rewrite Hdb, Hact. simpl.
  apply includes_false in Hnin. rewrite Hnin. by rewrite bool_decide_eq_true_2.
Qed.

(** X22.  When an enrollment succeeds, and what the refusals say.  An
    enroll request succeeds exactly when the course is stored and active,
    the caller is not on its roster and the roster is strictly below
    capacity.  Otherwise the collection stays as it was and the answer is,
    in this order of precedence: NotFound for a course that is not stored,
    then "Course is not active", then "Already enrolled in this course",
    then "Course is full", the last three as Validation errors. *)
Theorem enroll_outcomes (S : User) (id : ObjectId) (db : Courses) :
  (status (enroll S id db).1 = 200%N
   <-> exists c, db !! id = Some c
                 /\ Course.isActive c = true
                 /\ (_id S ∉ Course.students c)
                 /\ (Z.of_nat (length (Course.students c)) < Course.maxStudents c)%Z)
  /\ (db !! id = None -> enroll S id db = (fail NotFound "Course not found", db))
  /\ (forall c, db !! id = Some c ->
        (Course.isActive c = false ->
         enroll S id db = (fail Validation "Course is not active", db))
        /\ (Course.isActive c = true -> _id S ∈ Course.students c ->
            enroll S id db = (fail Validation "Already enrolled in this course", db))
        /\ (Course.isActive c = true -> _id S ∉ Course.students c ->
            (Course.maxStudents c <= Z.of_nat (length (Course.students c)))%Z ->
            enroll S id db = (fail Validation "Course is full", db))).
Proof.
  split; [apply enroll_status_200|]. split.
  - intros Hdb. unfold enroll. by rewrite Hdb.
  - intros c Hdb. split; [|split].
    + intros Hact. unfold enroll. by rewrite Hdb, Hact.
    + intros Hact Hin. unfold enroll. rewrite Hdb, Hact. simpl.
      apply includes_true in Hin. by rewrite Hin.
    + intros Hact Hnin Hfull. by apply (enroll_full S id db c).
Qed.

(** A course after an enroll request: its roster has grown at the end, if
    at all, and nothing else of it has changed. *)
Lemma enroll_extends (user : User) (id id' : ObjectId) (db : Courses) (c : Course.t) :
  db !! id' = Some c ->
  exists c', (enroll user id db).2 !! id' = Some c'
             /\ Course.students c `prefix_of` Course.students c'
             /\ Course.set_students (Course.students c) c' = c.
Proof.
  intros Hl.
  destruct (enroll_cases user id db) as [[-> _]|(c0 & Hdb & _ & _ & _ & ->)].
  { exists c. split; [done|]. split; [done | by destruct c]. }
  simpl. destruct (decide (id = id')) as [E|Hne].
  - rewrite E in *. rewrite Hl in Hdb. injection Hdb as <-.
    eexists. rewrite lookup_insert_eq. split; [done|]. simpl.
    split; [by apply prefix_app_r | by destruct c].
  - exists c. rewrite lookup_insert_ne by done.
    split; [done|]. split; [done | by destruct c].
Qed.

Lemma enroll_keeps_NoDup (user : User) (id : ObjectId) (db : Courses) :
  (forall i c, db !! i = Some c -> NoDup (Course.students c)) ->
  forall i c, (enroll user id db).2 !! i = Some c -> NoDup (Course.students c).
Proof.
  intros Hinv.
  destruct (enroll_cases user id db) as [[-> _]|(c0 & Hdb & _ & Hnin & _ & ->)];
    [done|].
  simpl. intros i c Hl. destruct (decide (id = i)) as [<-|Hne].
  - rewrite lookup_insert_eq in Hl. injection Hl as <-. simpl.
    apply NoDup_app. split; [by apply (Hinv _ _ Hdb)|]. split.
    + intros x Hx Hx'. apply list_elem_of_singleton in Hx'. by subst x.
    + apply NoDup_singleton.
  - rewrite lookup_insert_ne in Hl by done. by apply (Hinv _ _ Hl).
Qed.

(** X23.  Enrollment only ever adds.  After any run of enroll requests
    every course is still stored, its former roster is a prefix of its
    roster, so that no student has been removed or moved, and its title,
    code, instructor, capacity and active flag are what they were; and if
    no roster named a student twice before the run, none does after
    it. *)
Theorem runEnrolls_only_adds (rs : list (User * ObjectId)) (db : Courses) :
  (forall id c, db !! id = Some c ->
     exists c', runEnrolls rs db !! id = Some c'
                /\ Course.students c `prefix_of` Course.students c'
                /\ Course.set_students (Course.students c) c' = c)
  /\ ((forall id c, db !! id = Some c -> NoDup (Course.students c)) ->
      forall id c, runEnrolls rs db !! id = Some c -> NoDup (Course.students c)).
Proof.
  split.
  - revert db. induction rs as [|r rs IH]; intros db id c Hl.
    + exists c. split; [done|]. split; [done | by destruct c].
    + destruct (enroll_extends r.1 r.2 id db c Hl) as (c1 & Hl1 & Hpre1 & Hset1).
      destruct (IH _ id c1 Hl1) as (c2 & Hl2 & Hpre2 & Hset2).
      exists c2. split; [exact Hl2|]. split; [by etrans|].
      rewrite <- Hset1, <- Hset2. by destruct c2.
  - revert db. induction rs as [|r rs IH]; intros db Hinv; [done|].
    apply (IH (enroll r.1 r.2 db).2). by apply enroll_keeps_NoDup.
Qed.

End EnrollMoreFacts.

Section CourseLifecycleFacts.

Import CoursesRouter CoursesLifecycle.

Lemma codeTaken_true (code : string) (db : Courses) :
  codeTaken code db = true <-> exists i c, db !! i = Some c /\ Course.code c = code.
Proof.
  unfold codeTaken. rewrite existsb_exists. split.
  - intros ([i c] & Hin & Hc). apply list_elem_of_In, elem_of_map_to_list in Hin.
    apply bool_decide_eq_true in Hc. by exists i, c.
  - intros (i & c & Hdb & Hc). exists (i, c). split.
    + by apply list_elem_of_In, elem_of_map_to_list.
    + by apply bool_decide_eq_true.
Qed.

Lemma codeTaken_false (code : string) (db : Courses) :
  codeTaken code db = false <-> forall i c, db !! i = Some c -> Course.code c <> code.
Proof.
  rewrite <- not_true_iff_false, codeTaken_true. split.
  - intros H i c Hdb Hc. apply H. by exists i, c.
  - intros H (i & c & Hdb & Hc). by apply (H i c).
Qed.

Variable denied : string.

Lemma createCourse_admin (env : Js.Env) (C : User) (body : CreateBody) (db : Courses) :
  role C = "admin" ->
  createCourse denied env C body db
  = if codeTaken (cb_code body) db
    then (fail Validation "Course with this code already exists", db)
    else (created (Js.freshId env, newCourse C body),
          <[Js.freshId env := newCourse C body]> db).
Proof.
  intros Hadm. apply isAdmin_true in Hadm.
  unfold createCourse, AssignmentsRouter.adminAuth, createCourseHandler.
  by rewrite Hadm.
Qed.

(** X24.  Course codes stay unique under creation.  For an administrator
    and a fresh identity: a request whose code is that of a stored course
    is refused with Validation, "Course with this code already exists",
    and stores nothing; any other request stores the new course under the
    fresh identity and leaves the stored courses as they were; and if no
    two stored courses shared a code before the request, none do after
    it. *)
Theorem createCourse_unique_codes
  (env : Js.Env) (C : User) (body : CreateBody) (db : Courses) :
  role C = "admin" ->
  db !! Js.freshId env = None ->
  ((exists i c, db !! i = Some c /\ Course.code c = cb_code body) ->
   createCourse denied env C body db
   = (fail Validation "Course with this code already exists", db))
  /\ ((forall i c, db !! i = Some c -> Course.code c <> cb_code body) ->
      status (createCourse denied env C body db).1 = 201%N
      /\ (createCourse denied env C body db).2 !! Js.freshId env
         = Some (newCourse C body)
      /\ forall i c, db !! i = Some c ->
                     (createCourse denied env C body db).2 !! i = Some c)
  /\ (Spec.uniqueCodes db ->
      Spec.uniqueCodes (createCourse denied env C body db).2).
Proof.
  intros Hadm Hfresh. rewrite (createCourse_admin env C body db Hadm).
  split; [|split].
  - intros Hex. apply codeTaken_true in Hex. by rewrite Hex.
  - intros Hno. apply codeTaken_false in Hno. rewrite Hno. simpl.
    split; [done|]. split; [apply lookup_insert_eq|].
    intros i c Hl. rewrite lookup_insert_ne; [done|]. intros <-. congruence.
  - intros Huniq. destruct (codeTaken (cb_code body) db) eqn:Htaken; [done|].
    rewrite codeTaken_false in Htaken. simpl. intros i j c d Hi Hj Hcode.
    destruct (decide (Js.freshId env = i)) as [Ei|Ei];
      destruct (decide (Js.freshId env = j)) as [Ej|Ej].
    + congruence.
    + rewrite <- Ei, lookup_insert_eq in Hi. rewrite lookup_insert_ne in Hj by done.
      injection Hi as <-. simpl in Hcode. exfalso. by apply (Htaken j d).
    + rewrite <- Ej, lookup_insert_eq in Hj. rewrite lookup_insert_ne in Hi by done.
      injection Hj as <-. simpl in Hcode. exfalso. by apply (Htaken i c).
    + rewrite lookup_insert_ne in Hi by done. rewrite lookup_insert_ne in Hj by done.
      by apply (Huniq i j c d).
Qed.

(** X25.  A new course and its first enrollment.  A course created by an
    administrator under a code not yet in use is active and has an empty
    roster, so the first enroll request on it succeeds exactly when its
    capacity is positive.  An absent capacity and the capacity 0 both
    give capacity 100, so the first enrollment succeeds; a negative
    capacity is stored as it is, and every enrollment is then refused with
    "Course is full". *)
Theorem createCourse_then_enroll
  (env : Js.Env) (C S : User) (body : CreateBody) (db : Courses) :
  role C = "admin" ->
  (forall i c, db !! i = Some c -> Course.code c <> cb_code body) ->
  let db1 := (createCourse denied env C body db).2 in
  (status (enroll S (Js.freshId env) db1).1 = 200%N
   <-> (0 < capacityOrDefault (cb_maxStudents body))%Z)
  /\ (cb_maxStudents body = None \/ cb_maxStudents body = Some 0%Z ->
      status (enroll S (Js.freshId env) db1).1 = 200%N
      /\ Course.maxStudents <$> db1 !! Js.freshId env = Some 100%Z)
  /\ (forall m, cb_maxStudents body = Some m -> (m < 0)%Z ->
      enroll S (Js.freshId env) db1 = (fail Validation "Course is full", db1)).
Proof.
  intros Hadm Hno db1.
  assert (db1 !! Js.freshId env = Some (newCourse C body)) as Hl.
  { unfold db1. rewrite (createCourse_admin env C body db Hadm).
    apply codeTaken_false in Hno. rewrite Hno. apply lookup_insert_eq. }
  assert (status (enroll S (Js.freshId env) db1).1 = 200%N
          <-> (0 < capacityOrDefault (cb_maxStudents body))%Z) as Hiff.
  { rewrite (enroll_status_200 S (Js.freshId env) db1). split.
    - intros (c & Hc & _ & _ & Hroom). rewrite Hl in Hc. injection Hc as <-.
      simpl in Hroom. lia.
    - intros Hpos. exists (newCourse C body). split; [done|]. split; [done|].
      split; [apply not_elem_of_nil | simpl; lia]. }
  split; [exact Hiff|]. split.
  - intros Hdef. assert (capacityOrDefault (cb_maxStudents body) = 100%Z) as Hcap.
    { destruct Hdef as [-> | ->]; reflexivity. }
    split; [apply Hiff; lia|]. rewrite Hl. simpl. by rewrite Hcap.
  - intros m Hm Hneg.
    apply (enroll_full S (Js.freshId env) db1 _ Hl);
      [done | apply not_elem_of_nil |].
    simpl. rewrite Hm. simpl. rewrite bool_decide_eq_false_2 by lia. lia.
Qed.

(** X26.  Who may update a course, and closing it.  Updating a stored
    course succeeds exactly for an administrator or the course's
    instructor; otherwise it answers Forbidden, "Access denied", and
    changes nothing.  A successful update changes that course only.  When
    its body sets [isActive] to false, every later enroll request on the
    course is refused with "Course is not active", whoever asks. *)
Theorem updateCourse_gated
  (C S : User) (id : ObjectId) (body : Patch) (c : Course.t) (db : Courses) :
  db !! id = Some c ->
  (status (updateCourse C id body db).1 = 200%N
   <-> role C = "admin" \/ Course.instructor c = _id C)
  /\ (status (updateCourse C id body db).1 <> 200%N ->
      updateCourse C id body db = (fail Forbidden "Access denied", db))
  /\ (status (updateCourse C id body db).1 = 200%N ->
      (updateCourse C id body db).2 = <[id := applyPatch body c]> db
      /\ (p_isActive body = Some false ->
          enroll S id (updateCourse C id body db).2
          = (fail Validation "Course is not active", (updateCourse C id body db).2))).
Proof.
  intros Hdb. unfold updateCourse. rewrite Hdb.
  destruct (negb (isAdmin C) && negb (equals (Course.instructor c) (_id C))) eqn:G.
  - assert (~ (role C = "admin" \/ Course.instructor c = _id C)) as Hno.
    { rewrite <- ownerGuard. by rewrite G. }
    simpl. split; [|split]; done.
  - apply ownerGuard in G as Hyes. simpl. split; [|split]; try done.
    intros _. split; [done|]. intros Hclose.
    unfold enroll. rewrite lookup_insert_eq. simpl. by rewrite Hclose.
Qed.

End CourseLifecycleFacts.

Section CourseLifecycleWitnesses.

Import CoursesRouter CoursesLifecycle.

Lemma createCourse_unique_codes_witness :
  ((exists i c, Sample.courses !! i = Some c
                /\ Course.code c = cb_code Sample.sameCodeBody) ->
   createCourse "Access denied" Sample.env0 Sample.admin Sample.sameCodeBody
                Sample.courses
   = (fail Validation "Course with this code already exists", Sample.courses))
  /\ ((forall i c, Sample.courses !! i = Some c ->
                   Course.code c <> cb_code Sample.sameCodeBody) ->
      status (createCourse "Access denied" Sample.env0 Sample.admin
                           Sample.sameCodeBody Sample.courses).1 = 201%N
      /\ (createCourse "Access denied" Sample.env0 Sample.admin Sample.sameCodeBody
                       Sample.courses).2 !! Js.freshId Sample.env0
         = Some (newCourse Sample.admin Sample.sameCodeBody)
      /\ forall i c, Sample.courses !! i = Some c ->
                     (createCourse "Access denied" Sample.env0 Sample.admin
                                   Sample.sameCodeBody Sample.courses).2 !! i
                     = Some c)
  /\ (Spec.uniqueCodes Sample.courses ->
      Spec.uniqueCodes (createCourse "Access denied" Sample.env0 Sample.admin
                                     Sample.sameCodeBody Sample.courses).2).
Proof.
  apply (createCourse_unique_codes "Access denied" Sample.env0 Sample.admin
           Sample.sameCodeBody Sample.courses).
  - reflexivity.
  - vm_compute. reflexivity.
Defined.

Lemma createCourse_then_enroll_witness :
  let db1 := (createCourse "Access denied" Sample.env0 Sample.admin
                           Sample.geometryBody Sample.courses).2 in
  (status (enroll Sample.bob (Js.freshId Sample.env0) db1).1 = 200%N
   <-> (0 < capacityOrDefault (cb_maxStudents Sample.geometryBody))%Z)
  /\ (cb_maxStudents Sample.geometryBody = None
      \/ cb_maxStudents Sample.geometryBody = Some 0%Z ->
      status (enroll Sample.bob (Js.freshId Sample.env0) db1).1 = 200%N
      /\ Course.maxStudents <$> db1 !! Js.freshId Sample.env0 = Some 100%Z)
  /\ (forall m, cb_maxStudents Sample.geometryBody = Some m -> (m < 0)%Z ->
      enroll Sample.bob (Js.freshId Sample.env0) db1
      = (fail Validation "Course is full", db1)).
Proof.
  apply (createCourse_then_enroll "Access denied" Sample.env0 Sample.admin Sample.bob
           Sample.geometryBody Sample.courses).
  - reflexivity.
  - intros i c Hl. unfold Sample.courses in Hl.
    apply lookup_singleton_Some in Hl as [_ <-]. vm_compute. discriminate.
Defined.

Lemma updateCourse_gated_witness :
  (status (updateCourse Sample.admin 30%N Sample.close Sample.coursesFull).1 = 200%N
   <-> role Sample.admin = "admin" \/ Course.instructor Sample.algebraFull = _id Sample.admin)
  /\ (status (updateCourse Sample.admin 30%N Sample.close Sample.coursesFull).1
      <> 200%N ->
      updateCourse Sample.admin 30%N Sample.close Sample.coursesFull
      = (fail Forbidden "Access denied", Sample.coursesFull))
  /\ (status (updateCourse Sample.admin 30%N Sample.close Sample.coursesFull).1
      = 200%N ->
      (updateCourse Sample.admin 30%N Sample.close Sample.coursesFull).2
      = <[30%N := applyPatch Sample.close Sample.algebraFull]> Sample.coursesFull
      /\ (p_isActive Sample.close = Some false ->
          enroll Sample.alice 30%N
                 (updateCourse Sample.admin 30%N Sample.close Sample.coursesFull).2
          = (fail Validation "Course is not active",
             (updateCourse Sample.admin 30%N Sample.close Sample.coursesFull).2))).
Proof.
  apply (updateCourse_gated Sample.admin Sample.alice 30%N Sample.close
           Sample.algebraFull Sample.coursesFull).
  vm_compute. reflexivity.
Defined.

End CourseLifecycleWitnesses.

Section CourseReadFacts.

Import CoursesRouter CoursesLifecycle.

Variable createdAt : ObjectId -> N.

#[local] Instance courses_newerFirst_total :
  Total (CoursesLifecycle.newerFirst createdAt).
Proof. intros x y. unfold CoursesLifecycle.newerFirst. lia. Qed.

#[local] Instance courses_newerFirst_trans :
  Transitive (CoursesLifecycle.newerFirst createdAt).
Proof. intros x y z. unfold CoursesLifecycle.newerFirst. lia. Qed.

Lemma listCourses_elem (db : Courses) (l : list (ObjectId * Course.t))
  (id : ObjectId) (c : Course.t) :
  listCourses createdAt db = ok l ->
  (id, c) ∈ l <-> db !! id = Some c /\ Course.isActive c = true.
Proof.
  unfold listCourses, ok. intros [= <-].
  rewrite merge_sort_Permutation, list_elem_of_filter, elem_of_map_to_list.
  simpl. tauto.
Qed.

(** X27.  The course list and enrollment.  The courses listed, for every
    caller alike, are exactly the stored courses that are active, newest
    first.  A caller can enroll in listed courses only: a successful
    enrollment is always in a course of the list.  A course that is not
    listed because it is inactive can still be fetched by its
    identity. *)
Theorem listCourses_active (db : Courses) :
  exists l,
    listCourses createdAt db = ok l
    /\ (forall id c, (id, c) ∈ l <-> db !! id = Some c /\ Course.isActive c = true)
    /\ (forall i j x y, l !! i = Some x -> l !! j = Some y -> i < j ->
          (createdAt y.1 <= createdAt x.1)%N)
    /\ (forall S id, status (enroll S id db).1 = 200%N -> exists c, (id, c) ∈ l)
    /\ (forall id c, db !! id = Some c -> getCourse id db = ok c).
Proof.
  eexists. split; [reflexivity|].
  pose proof (fun id c => listCourses_elem db _ id c eq_refl) as Hmem.
  split; [exact Hmem|]. split; [|split].
  - intros i j x y Hi Hj Hlt.
    change (CoursesLifecycle.newerFirst createdAt x y).
    eapply StronglySorted_lookup_lt; [|exact Hi|exact Hj|exact Hlt].
    apply StronglySorted_merge_sort; apply _.
  - intros S id Hs. apply enroll_status_200 in Hs as (c & Hdb & Hact & _).
    exists c. by apply Hmem.
  - intros id c Hdb. unfold getCourse. by rewrite Hdb.
Qed.

Variable denied : string.

(** X28.  Deleting a course.  After a successful delete, which only an
    administrator obtains, fetching the course, updating it and enrolling
    in it answer NotFound, "Course not found", for every caller; the
    course is no longer listed; and every other course is as it was. *)
Theorem deleteCourse_then_not_found
  (C D : User) (id : ObjectId) (body : Patch) (db : Courses) :
  status (deleteCourse denied C id db).1 = 200%N ->
  let db1 := (deleteCourse denied C id db).2 in
  role C = "admin"
  /\ getCourse id db1 = fail NotFound "Course not found"
  /\ updateCourse D id body db1 = (fail NotFound "Course not found", db1)
  /\ enroll D id db1 = (fail NotFound "Course not found", db1)
  /\ (forall l c, listCourses createdAt db1 = ok l -> (id, c) ∉ l)
  /\ (forall id', id' <> id -> db1 !! id' = db !! id').
Proof.
  intros Hs db1.
  assert (role C = "admin" /\ db1 = delete id db) as [Hadm Hdb1].
  { unfold db1. unfold deleteCourse, AssignmentsRouter.adminAuth in *.
    destruct (isAdmin C) eqn:Hadm; [|done]. apply isAdmin_true in Hadm.
    unfold deleteCourseHandler in *. destruct (db !! id); done. }
  assert (db1 !! id = None) as Hgone by (rewrite Hdb1; apply lookup_delete_eq).
  split; [done|]. split; [|split; [|split; [|split]]].
  - unfold getCourse. by rewrite Hgone.
  - unfold updateCourse. by rewrite Hgone.
  - unfold enroll. by rewrite Hgone.
  - intros l c Hl Hin. apply (listCourses_elem db1 l id c Hl) in Hin as [Hc _].
    congruence.
  - intros id' Hne. rewrite Hdb1. by apply lookup_delete_ne.
Qed.

End CourseReadFacts.

Section CourseReadWitnesses.

Import CoursesRouter CoursesLifecycle.

Lemma deleteCourse_then_not_found_witness :
  let db1 := (deleteCourse "Access denied" Sample.admin 30%N Sample.coursesFull).2 in
  role Sample.admin = "admin"
  /\ getCourse 30%N db1 = fail NotFound "Course not found"
  /\ updateCourse Sample.bob 30%N Sample.close db1
     = (fail NotFound "Course not found", db1)
  /\ enroll Sample.bob 30%N db1 = (fail NotFound "Course not found", db1)
  /\ (forall l c, listCourses (fun id => id) db1 = ok l -> (30%N, c) ∉ l)
  /\ (forall id', id' <> 30%N -> db1 !! id' = Sample.coursesFull !! id').
Proof.
  apply (deleteCourse_then_not_found (fun id => id) "Access denied" Sample.admin
           Sample.bob 30%N Sample.close Sample.coursesFull).
  vm_compute. reflexivity.
Defined.

End CourseReadWitnesses.

(** ** The settings form of the client *)

Section FileTypesFacts.

Import AdminSettings.

Lemma comma_not_space : isSpace ","%char = false.
Proof. reflexivity. Qed.

Lemma trimStart_fixed (c : ascii) (s : string) :
  isSpace c = false -> trimStart (String c s) = String c s.
Proof. intros H. simpl. by rewrite H. Qed.

Lemma trimStart_startsClean (s : string) : startsClean (trimStart s).
Proof.
  induction s as [|c s IH]; simpl; [done|].
  destruct (isSpace c) eqn:E; [done | exact E].
Qed.

Lemma trimStart_clean (s : string) : startsClean s -> trimStart s = s.
Proof. destruct s as [|c s]; simpl; [done|]. by intros ->. Qed.

Lemma trimEnd_startsClean (s : string) : startsClean s -> startsClean (trimEnd s).
Proof.
  destruct s as [|c s]; simpl; [done|]. intros Hc.
  destruct (trimEnd s); simpl; by rewrite ?Hc.
Qed.

Lemma trimEnd_idem (s : string) : trimEnd (trimEnd s) = trimEnd s.
Proof.
  induction s as [|c s IH]; [done|].
  destruct (trimEnd s) as [|d t] eqn:E.
  - simpl. rewrite E. destruct (isSpace c) eqn:Hc; simpl; [done|]. by rewrite Hc.
  - assert (trimEnd (String c s) = String c (String d t)) as ->
      by (simpl; by rewrite E).
    change (trimEnd (String c (String d t)))
      with (match trimEnd (String d t) with
            | EmptyString => if isSpace c then EmptyString else String c EmptyString
            | String a b => String c (String a b)
            end).
    by rewrite IH.
Qed.

Lemma trim_idem (s : string) : trim (trim s) = trim s.
Proof.
  unfold trim.
  rewrite (trimStart_clean (trimEnd (trimStart s))).
  - apply trimEnd_idem.
  - apply trimEnd_startsClean, trimStart_startsClean.
Qed.

Lemma occurs_trimStart (c : ascii) (s : string) :
  occurs c s = false -> occurs c (trimStart s) = false.
Proof.
  induction s as [|d s IH]; simpl; [done|]. intros H.
  apply orb_false_iff in H as [Hd Hs].
  destruct (isSpace d); [by apply IH|]. simpl. by rewrite Hd, Hs.
Qed.

Lemma occurs_trimEnd (c : ascii) (s : string) :
  occurs c s = false -> occurs c (trimEnd s) = false.
Proof.
  induction s as [|d s IH]; simpl; [done|]. intros H.
  apply orb_false_iff in H as [Hd Hs]. specialize (IH Hs).
  destruct (trimEnd s) as [|e t].
  - destruct (isSpace d); simpl; [done|]. by rewrite Hd.
  - simpl. simpl in IH. by rewrite Hd, IH.
Qed.

Lemma splitComma_no_comma (s : string) (x : string) :
  x ∈ Js.splitComma s -> occurs ","%char x = false.
Proof.
  revert x. induction s as [|c s IH]; intros x Hx; simpl in Hx.
  - apply list_elem_of_singleton in Hx. by subst x.
  - case_bool_decide as Hc.
    + apply elem_of_cons in Hx as [->|Hx]; [done | by apply IH].
    + destruct (Js.splitComma s) as [|w ws] eqn:E.
      * apply list_elem_of_singleton in Hx. subst x. simpl.
        by rewrite (bool_decide_eq_false_2 _ Hc).
      * apply elem_of_cons in Hx as [->|Hx].
        -- simpl. rewrite (bool_decide_eq_false_2 _ Hc). simpl.
           apply IH. apply list_elem_of_here.
        -- apply IH. by apply list_elem_of_further.
Qed.

Lemma splitComma_nonempty (s : string) : Js.splitComma s <> [].
Proof.
  induction s as [|c s IH]; simpl; [done|].
  case_bool_decide; [done|]. by destruct (Js.splitComma s).
Qed.

(** Splitting a comma-free string gives that string; splitting at a comma
    after a comma-free string gives it and the parts of the rest. *)
Lemma splitComma_clean (x : string) :
  occurs ","%char x = false -> Js.splitComma x = [x].
Proof.
  induction x as [|c x IH]; simpl; [done|]. intros H.
  apply orb_false_iff in H as [Hc Hx]. apply bool_decide_eq_false in Hc.
  rewrite (bool_decide_eq_false_2 _ Hc), (IH Hx). done.
Qed.

Lemma splitComma_app_comma (x rest : string) :
  occurs ","%char x = false ->
  Js.splitComma (x +:+ "," +:+ rest) = x :: Js.splitComma rest.
Proof.
  induction x as [|c x IH]; intros H.
  - reflexivity.
  - simpl in H. apply orb_false_iff in H as [Hc Hx]. apply bool_decide_eq_false in Hc.
    rewrite string_app_cons. simpl.
    rewrite (bool_decide_eq_false_2 _ Hc), (IH Hx). done.
Qed.

Lemma splitComma_snoc_comma (s : string) :
  Js.splitComma (s +:+ ",") = Js.splitComma s ++ [""].
Proof.
  induction s as [|c s IH]; [reflexivity|].
  rewrite string_app_cons. simpl. rewrite IH.
  case_bool_decide; [done|].
  destruct (Js.splitComma s) as [|w ws] eqn:E; [by apply splitComma_nonempty in E|].
  done.
Qed.

Lemma splitComma_display (l : list string) :
  l <> [] -> (forall x, x ∈ l -> occurs ","%char x = false) ->
  Js.splitComma (display l) = l.
Proof.
  unfold display. induction l as [|x l IH]; intros Hne Hl; [done|].
  destruct l as [|y l].
  - simpl. apply splitComma_clean, Hl, list_elem_of_here.
  - change (Js.join "," (x :: y :: l)) with (x +:+ "," +:+ Js.join "," (y :: l)).
    rewrite splitComma_app_comma by (apply Hl, list_elem_of_here).
    f_equal. apply IH; [done|]. intros z Hz. apply Hl. by apply list_elem_of_further.
Qed.

Lemma parseFileTypes_elem (value x : string) :
  x ∈ parseFileTypes value
  <-> x <> "" /\ exists part, part ∈ Js.splitComma value /\ x = trim part.
Proof.
  unfold parseFileTypes. rewrite list_elem_of_filter, list_elem_of_fmap.
  split.
  - intros [Hne (part & -> & Hin)]. split; [done|]. by exists part.
  - intros [Hne (part & Hin & ->)]. split; [done|]. by exists part.
Qed.

(** X29.  The list of file types read from the settings form.  Whatever
    text is typed, no entry of the list is empty, contains a comma, or
    begins or ends with white space.  The list is a fixed point of the
    form: the text shown for it reads back as the same list.  A comma
    typed at the end of the text does not change the list. *)
Theorem parseFileTypes_normal (value : string) :
  (forall x, x ∈ parseFileTypes value ->
     x <> "" /\ occurs ","%char x = false /\ trim x = x)
  /\ parseFileTypes (display (parseFileTypes value)) = parseFileTypes value
  /\ parseFileTypes (value +:+ ",") = parseFileTypes value.
Proof.
  assert (forall x, x ∈ parseFileTypes value ->
            x <> "" /\ occurs ","%char x = false /\ trim x = x) as Hnormal.
  { intros x Hx. apply parseFileTypes_elem in Hx as (Hne & part & Hpart & ->).
    split; [done|]. split; [|apply trim_idem].
    unfold trim. apply occurs_trimEnd, occurs_trimStart.
    by apply (splitComma_no_comma value). }
  split; [exact Hnormal|]. split.
  - destruct (parseFileTypes value) as [|x l] eqn:E; [reflexivity|].
    unfold parseFileTypes at 1.
    rewrite splitComma_display; [|done|intros z Hz; by apply Hnormal].
    assert (forall k : list string,
              (forall z, z ∈ k -> z <> "" /\ trim z = z) ->
              filter (fun type => type <> "") (trim <$> k) = k) as Hfix.
    { induction k as [|z k IH]; intros Hk; [done|].
      destruct (Hk z (list_elem_of_here _ _)) as [Hz1 Hz2].
      rewrite fmap_cons, Hz2, filter_cons_True by done. f_equal.
      apply IH. intros w Hw. apply Hk. by apply list_elem_of_further. }
    apply Hfix. intros z Hz. destruct (Hnormal z Hz) as (? & _ & ?). done.
  - unfold parseFileTypes. rewrite splitComma_snoc_comma, fmap_app, filter_app.
    simpl. rewrite filter_cons_False by (intros H; by apply H).
    by rewrite filter_nil, app_nil_r.
Qed.

End FileTypesFacts.
